(** * IntelliClass: AI fallback orchestration, OCR routing, grading
      post-processing, submission validation and the class-meeting view.

    Shallow embedding of
      - the AI utility module (callGroqAPI, generateWithFallback, extractText,
        extractTextFromPDF, extractTextFromImage, gradeSubmission, and in
        [AiApi] checkHealth, testGeminiConnection, generateDocument,
        generateAnswers),
      - the storage utilities (validateSubmissionFile, and in [Upload]
        uploadFile, uploadSubmission, uploadMaterial, uploadAvatar,
        deleteFile, getFileUrl, validateMaterialFile, uploadMaterials),
      - the ClassMeeting component with the embedded meeting view
        (handleMessage, handleEndMeeting, checkActiveMeeting, and in
        [MeetingActions] handleStartMeeting and the poll with a request that
        may reject) and its new-tab variant (checkActiveMeeting,
        handleStartMeeting, openMeetingInNewTab, handleJoinMeeting,
        handleEndMeeting).

    Modelling conventions.
      - A JavaScript string is a [string]: a sequence of characters read as
        code units U+0000..U+00FF.  Code units above U+00FF are outside the
        model.
      - A JavaScript number is an exact decimal [m * 10^e] (or NaN, or an
        infinity); rounding to binary64 is not modelled and -0 is 0.
      - Asynchronous code is a program tree over the requests it awaits; a
        handler with a state of its own plays the environment (network,
        browser, OCR library) and a run records the ordered trace.
      - A console call is recorded with its first argument; the values
        printed after it are not. The progress logger handed to Tesseract is
        not modelled.
      - A thrown value is an Error-like object whose message is a string or
        absent.
      - A backend answer [{ data, error }] is a pair of options, or a sum
        where the code reads only one of the two; a promise that may reject
        answers with an error or a value.
      - In [MeetingActions] a call of a [useState] setter is a request like
        any other, and the state of the component after a run is the fold
        of the setter calls of its trace. *)

From Stdlib Require Import ZArith List String Ascii Bool Lia DecimalString.
Import ListNotations.

Set Warnings "-register-all".
Local Open Scope string_scope.
Local Open Scope Z_scope.

(* ===================================================================== *)
(** ** String.prototype methods used by the code *)
(* ===================================================================== *)

Module Str.

Definition chr (n : nat) : string := String (ascii_of_nat n) EmptyString.
Definition nl : string := chr 10.
Definition dq : string := chr 34.

Definition code (c : ascii) : nat := nat_of_ascii c.

(** WhiteSpace and LineTerminator code units below U+0100: TAB, LF, VT, FF,
    CR, SP and NBSP. This is the set String.prototype.trim removes. *)
Definition is_ws (c : ascii) : bool :=
  let n := code c in
  ((9 <=? n) && (n <=? 13))%nat || (n =? 32)%nat || (n =? 160)%nat.

Fixpoint trimStart (s : string) : string :=
  match s with
  | String c s' => if is_ws c then trimStart s' else s
  | EmptyString => EmptyString
  end.

(** [trimEnd] keeps a character when it is not white space or when
    something is left after it. *)
Fixpoint trimEnd (s : string) : string :=
  match s with
  | String c s' =>
      match trimEnd s' with
      | EmptyString => if is_ws c then EmptyString else String c EmptyString
      | r => String c r
      end
  | EmptyString => EmptyString
  end.

Definition trim (s : string) : string := trimEnd (trimStart s).

(** [s.startsWith(p)] *)
Definition startsWith (s p : string) : bool := String.prefix p s.

Fixpoint drop (n : nat) (s : string) : string :=
  match n, s with
  | O, _ => s
  | S n', String _ s' => drop n' s'
  | S _, EmptyString => EmptyString
  end.

Fixpoint take (n : nat) (s : string) : string :=
  match n, s with
  | O, _ => EmptyString
  | S n', String c s' => String c (take n' s')
  | S _, EmptyString => EmptyString
  end.

(** [s.slice(n)] for a non-negative [n]. *)
Definition slice_from (n : nat) (s : string) : string := drop n s.

(** [s.slice(0, -n)] for a positive [n]: all but the last [n] characters,
    the empty string when [s] is shorter. *)
Definition slice_drop_last (n : nat) (s : string) : string :=
  take (String.length s - n) s.

(** [s.endsWith(p)] *)
Definition endsWith (s p : string) : bool :=
  (String.length p <=? String.length s)%nat
  && String.eqb (drop (String.length s - String.length p) s) p.

(** [s.includes(p)] *)
Fixpoint includes (s p : string) : bool :=
  String.prefix p s
  || match s with
     | String _ s' => includes s' p
     | EmptyString => false
     end.

(** [s.split(sep).pop()] for a one-character separator: the part after the
    last separator, the whole string when there is none. [acc] is the
    segment read since the last separator. *)
Fixpoint last_segment_from (sep : ascii) (acc s : string) : string :=
  match s with
  | EmptyString => acc
  | String c s' =>
      if Ascii.eqb c sep then last_segment_from sep EmptyString s'
      else last_segment_from sep (acc ++ String c EmptyString) s'
  end.

Definition split_pop (sep : ascii) (s : string) : string :=
  last_segment_from sep EmptyString s.

(** Lower-casing of one code unit below U+0100: A..Z, and the Latin-1
    capitals U+00C0..U+00DE except the multiplication sign U+00D7. *)
Definition lower_char (c : ascii) : ascii :=
  let n := code c in
  if ((65 <=? n) && (n <=? 90))%nat
     || ((192 <=? n) && (n <=? 222) && negb (n =? 215))%nat
  then ascii_of_nat (n + 32) else c.

Fixpoint toLowerCase (s : string) : string :=
  match s with
  | EmptyString => EmptyString
  | String c s' => String (lower_char c) (toLowerCase s')
  end.

(** [arr.includes(x)] on an array of strings. *)
Definition array_includes (arr : list string) (x : string) : bool :=
  existsb (String.eqb x) arr.

(** Decimal rendering of a non-negative integer. *)
Definition of_N (n : N) : string := NilZero.string_of_uint (N.to_uint n).
Definition of_nat (n : nat) : string := NilZero.string_of_uint (Nat.to_uint n).

Fixpoint repeat_char (c : ascii) (n : nat) : string :=
  match n with
  | O => EmptyString
  | S n' => String c (repeat_char c n')
  end.


End Str.

(* ===================================================================== *)
(** ** Numbers *)
(* ===================================================================== *)

Module Num.

(** A Number value: NaN, an infinity, or the exact decimal [m * 10^e]. *)
Inductive number : Type :=
| NaN
| Inf (negative : bool)
| Dec (m e : Z).

Definition zero : number := Dec 0 0.
Definition of_Z (z : Z) : number := Dec z 0.
Definition of_nat (n : nat) : number := Dec (Z.of_nat n) 0.

(** ToBoolean on a Number: false for NaN and for zero. *)
Definition truthy (x : number) : bool :=
  match x with
  | NaN => false
  | Inf _ => true
  | Dec m _ => negb (m =? 0)
  end.

(** [x < y]; any comparison with NaN is false. *)
Definition ltb (x y : number) : bool :=
  match x, y with
  | NaN, _ | _, NaN => false
  | Inf nx, Inf ny => nx && negb ny
  | Inf nx, Dec _ _ => nx
  | Dec _ _, Inf ny => negb ny
  | Dec m1 e1, Dec m2 e2 =>
      let e := Z.min e1 e2 in
      m1 * 10 ^ (e1 - e) <? m2 * 10 ^ (e2 - e)
  end.

Definition digits (z : Z) : string := Str.of_N (Z.to_N (Z.abs z)).

(** Removes the trailing decimal zeros of a mantissa. *)
Fixpoint strip_zeros (fuel : nat) (m e : Z) : Z * Z :=
  match fuel with
  | O => (m, e)
  | S fuel' =>
      if (negb (m =? 0)) && (m mod 10 =? 0)
      then strip_zeros fuel' (m / 10) (e + 1)
      else (m, e)
  end.

Definition normalize (m e : Z) : Z * Z :=
  strip_zeros (S (Z.to_nat (Z.log2 (Z.abs m)))) m e.

Definition zeros (n : Z) : string := Str.repeat_char "0"%char (Z.to_nat n).

(** Number::toString with radix 10. *)
Definition ToString (x : number) : string :=
  match x with
  | NaN => "NaN"
  | Inf false => "Infinity"
  | Inf true => "-Infinity"
  | Dec m e =>
      if m =? 0 then "0" else
      let '(m', e') := normalize m e in
      let sign := if m' <? 0 then "-" else "" in
      let ds := digits m' in
      let k := Z.of_nat (String.length ds) in
      let n := k + e' in
      sign ++
      (if (k <=? n) && (n <=? 21) then ds ++ zeros (n - k)
       else if (0 <? n) && (n <=? 21)
            then Str.take (Z.to_nat n) ds ++ "." ++ Str.drop (Z.to_nat n) ds
       else if (-6 <? n) && (n <=? 0) then "0." ++ zeros (- n) ++ ds
       else
         let x := n - 1 in
         let es := (if x <? 0 then "-" else "+") ++ digits x in
         if k =? 1 then ds ++ "e" ++ es
         else Str.take 1 ds ++ "." ++ Str.drop 1 ds ++ "e" ++ es)
  end.

(** [x.toFixed(1)] *)
Definition toFixed1 (x : number) : string :=
  match x with
  | NaN => "NaN"
  | Inf _ => ToString x
  | Dec m e =>
      if negb (ltb (Dec (Z.abs m) e) (Dec 1 21)) then ToString x else
      let sign := if m <? 0 then "-" else "" in
      let a := Z.abs m in
      (* the integer n with n / 10 closest to |x|, the larger on a tie *)
      let n := if 0 <=? e + 1 then a * 10 ^ (e + 1)
               else let d := 10 ^ (- (e + 1)) in (2 * a + d) / (2 * d) in
      let ds := digits n in
      let ds := if (String.length ds <=? 1)%nat then "0" ++ ds else ds in
      let k := String.length ds in
      sign ++ Str.take (k - 1) ds ++ "." ++ Str.drop (k - 1) ds
  end.

(** *** Numeric literals *)

Definition is_digit (c : ascii) : bool :=
  let n := Str.code c in ((48 <=? n) && (n <=? 57))%nat.

Definition digit_val (c : ascii) : Z := Z.of_nat (Str.code c) - 48.

(** Value of a digit in base 16, if it is one. *)
Definition hex_val (c : ascii) : option Z :=
  let n := Str.code c in
  if ((48 <=? n) && (n <=? 57))%nat then Some (Z.of_nat n - 48)
  else if ((65 <=? n) && (n <=? 70))%nat then Some (Z.of_nat n - 55)
  else if ((97 <=? n) && (n <=? 102))%nat then Some (Z.of_nat n - 87)
  else None.

(** Longest prefix of decimal digits, and what follows it. *)
Fixpoint span_digits (s : string) : string * string :=
  match s with
  | String c s' =>
      if is_digit c
      then let '(d, r) := span_digits s' in (String c d, r)
      else (EmptyString, s)
  | EmptyString => (EmptyString, EmptyString)
  end.

Fixpoint Z_of_digits_from (acc : Z) (ds : string) : Z :=
  match ds with
  | EmptyString => acc
  | String c ds' => Z_of_digits_from (acc * 10 + digit_val c) ds'
  end.

Definition Z_of_digits (ds : string) : Z := Z_of_digits_from 0 ds.

(** All of [s] read in base [b] (2, 8 or 16); [None] when [s] is empty or
    has a character that is not a digit of that base. *)
Fixpoint radix_from (b : Z) (acc : Z) (s : string) : option Z :=
  match s with
  | EmptyString => Some acc
  | String c s' =>
      match hex_val c with
      | Some d => if d <? b then radix_from b (acc * b + d) s' else None
      | None => None
      end
  end.

Definition radix_literal (b : Z) (s : string) : option Z :=
  match s with
  | EmptyString => None
  | _ => radix_from b 0 s
  end.

(** An optional exponent part that must end the literal:
    [Some 0] for the empty string, [Some x] for e/E, an optional sign
    and at least one digit. *)
Definition exponent_part (s : string) : option Z :=
  match s with
  | EmptyString => Some 0
  | String c r =>
      if (Ascii.eqb c "e" || Ascii.eqb c "E")%char then
        let '(neg, r1) :=
          match r with
          | String "-"%char r' => (true, r')
          | String "+"%char r' => (false, r')
          | _ => (false, r)
          end in
        let '(ds, r2) := span_digits r1 in
        match ds, r2 with
        | String _ _, EmptyString =>
            Some (if neg then - Z_of_digits ds else Z_of_digits ds)
        | _, _ => None
        end
      else None
  end.

(** StrUnsignedDecimalLiteral other than Infinity, with the sign already
    read. *)
Definition unsigned_decimal (neg : bool) (s : string) : number :=
  let '(ip, r1) := span_digits s in
  let '(fp, r2, dot) :=
    match r1 with
    | String "."%char r' => let '(f, r'') := span_digits r' in (f, r'', true)
    | _ => (EmptyString, r1, false)
    end in
  match ip ++ fp with
  | EmptyString => NaN
  | ds =>
      match exponent_part r2 with
      | Some x =>
          let m := Z_of_digits ds in
          Dec (if neg then - m else m) (x - Z.of_nat (String.length fp))
      | None => NaN
      end
  end.

(** StringToNumber: what [Number(s)] is for a string [s]. *)
Definition StringToNumber (s : string) : number :=
  match Str.trim s with
  | EmptyString => zero
  | String "0"%char (String c r) as t =>
      if (Ascii.eqb c "x" || Ascii.eqb c "X")%char
      then match radix_literal 16 r with Some z => Dec z 0 | None => NaN end
      else if (Ascii.eqb c "o" || Ascii.eqb c "O")%char
      then match radix_literal 8 r with Some z => Dec z 0 | None => NaN end
      else if (Ascii.eqb c "b" || Ascii.eqb c "B")%char
      then match radix_literal 2 r with Some z => Dec z 0 | None => NaN end
      else unsigned_decimal false t
  | String "-"%char r =>
      if String.eqb r "Infinity" then Inf true else unsigned_decimal true r
  | String "+"%char r =>
      if String.eqb r "Infinity" then Inf false else unsigned_decimal false r
  | t =>
      if String.eqb t "Infinity" then Inf false else unsigned_decimal false t
  end.

End Num.

(* ===================================================================== *)
(** ** Values, thrown errors and property access *)
(* ===================================================================== *)

Module Js.

Import Num.

(** A value that JSON text can denote. [JObj] lists the own properties in
    insertion order (the engine's reordering of integer-like keys is not
    modelled; nothing here enumerates such keys). The value [undefined] is
    [None] in [option jsval]. *)
Inductive jsval : Type :=
| JNull
| JBool (b : bool)
| JNum (n : number)
| JStr (s : string)
| JArr (items : list jsval)
| JObj (props : list (string * jsval)).

(** A thrown Error-like object: its [name] and its [message], which is a
    string or absent. *)
Record exn : Type := mkExn { ex_name : string; ex_message : option string }.

(** [new Error(msg)] *)
Definition Error (msg : string) : exn := mkExn "Error" (Some msg).

(** The TypeError of reading property [k] of null or undefined. *)
Definition TypeError_read (what k : string) : exn :=
  mkExn "TypeError"
        (Some ("Cannot read properties of " ++ what ++ " (reading '" ++ k ++ "')")).

(** [${e.message}] inside a template literal. *)
Definition message_text (e : exn) : string :=
  match ex_message e with
  | Some m => m
  | None => "undefined"
  end.

(** ToBoolean *)
Definition truthy (v : jsval) : bool :=
  match v with
  | JNull => false
  | JBool b => b
  | JNum n => Num.truthy n
  | JStr s => negb (String.eqb s "")
  | JArr _ | JObj _ => true
  end.

Definition truthy_opt (v : option jsval) : bool :=
  match v with
  | Some x => truthy x
  | None => false
  end.

(** [a || b] *)
Definition or_else (a b : option jsval) : option jsval :=
  if truthy_opt a then a else b.

(** [a || d] with a defined right operand. *)
Definition or_default (a : option jsval) (d : jsval) : jsval :=
  match a with
  | Some x => if truthy x then x else d
  | None => d
  end.

Fixpoint obj_get (k : string) (props : list (string * jsval)) : option jsval :=
  match props with
  | [] => None
  | (k', v) :: rest => if String.eqb k k' then Some v else obj_get k rest
  end.

(** Defining property [k]: an existing property keeps its place and takes
    the new value, a new one goes last. *)
Fixpoint obj_set (k : string) (v : jsval) (props : list (string * jsval))
  : list (string * jsval) :=
  match props with
  | [] => [(k, v)]
  | (k', v') :: rest =>
      if String.eqb k k' then (k, v) :: rest else (k', v') :: obj_set k v rest
  end.

(** A canonical array index: a decimal numeral without superfluous zeros. *)
Definition index_of (k : string) : option nat :=
  match Num.span_digits k with
  | (String c r as ds, EmptyString) =>
      if Ascii.eqb c "0" && negb (String.eqb r "") then None
      else Some (Z.to_nat (Num.Z_of_digits ds))
  | _ => None
  end.

(** [v[k]] on a value that is neither null nor undefined. Of the inherited
    properties only [length] is modelled; the code reads no other. *)
Definition get_own (v : jsval) (k : string) : option jsval :=
  match v with
  | JObj props => obj_get k props
  | JArr items =>
      if String.eqb k "length" then Some (JNum (Num.of_nat (List.length items)))
      else match index_of k with
           | Some i => nth_error items i
           | None => None
           end
  | JStr s =>
      if String.eqb k "length" then Some (JNum (Num.of_nat (String.length s)))
      else match index_of k with
           | Some i => match String.get i s with
                       | Some c => Some (JStr (String c EmptyString))
                       | None => None
                       end
           | None => None
           end
  | _ => None
  end.

(** [v.k]: throws on null and undefined. *)
Definition get (v : option jsval) (k : string) : exn + option jsval :=
  match v with
  | None => inl (TypeError_read "undefined" k)
  | Some JNull => inl (TypeError_read "null" k)
  | Some x => inr (get_own x k)
  end.

(** [v?.k]: undefined on null and undefined. *)
Definition get_opt (v : option jsval) (k : string) : option jsval :=
  match v with
  | None | Some JNull => None
  | Some x => get_own x k
  end.

(** [a === s] for a string literal [s]. *)
Definition strict_eq_string (a : option jsval) (s : string) : bool :=
  match a with
  | Some (JStr t) => String.eqb t s
  | _ => false
  end.

End Js.

(* ===================================================================== *)
(** ** JSON text *)
(* ===================================================================== *)

Module Json.

Import Js.

Definition is_json_ws (c : ascii) : bool :=
  let n := Str.code c in
  ((n =? 9) || (n =? 10) || (n =? 13) || (n =? 32))%nat.

Fixpoint skip_ws (s : string) : string :=
  match s with
  | String c s' => if is_json_ws c then skip_ws s' else s
  | EmptyString => EmptyString
  end.

Definition cons_char (c : ascii) (r : option (string * string))
  : option (string * string) :=
  match r with
  | Some (body, rest) => Some (String c body, rest)
  | None => None
  end.

(** The code unit of a four-digit hexadecimal escape. *)
Definition hex4 (a b c d : ascii) : option Z :=
  match Num.hex_val a, Num.hex_val b, Num.hex_val c, Num.hex_val d with
  | Some x, Some y, Some z, Some w => Some (((x * 16 + y) * 16 + z) * 16 + w)
  | _, _, _, _ => None
  end.

(** The characters of a string literal after its opening quote, up to the
    closing quote, and the text after it. An escape for a code unit above
    U+00FF has no counterpart in [string] and is rejected here. *)
Fixpoint string_body (s : string) : option (string * string) :=
  match s with
  | EmptyString => None
  | String c r =>
      if (Str.code c =? 34)%nat then Some (EmptyString, r)
      else if (Str.code c =? 92)%nat then
        match r with
        | String e r' =>
            if (Str.code e =? 34)%nat then cons_char e (string_body r')
            else if (Str.code e =? 92)%nat then cons_char e (string_body r')
            else if Ascii.eqb e "/" then cons_char e (string_body r')
            else if Ascii.eqb e "b" then cons_char (ascii_of_nat 8) (string_body r')
            else if Ascii.eqb e "f" then cons_char (ascii_of_nat 12) (string_body r')
            else if Ascii.eqb e "n" then cons_char (ascii_of_nat 10) (string_body r')
            else if Ascii.eqb e "r" then cons_char (ascii_of_nat 13) (string_body r')
            else if Ascii.eqb e "t" then cons_char (ascii_of_nat 9) (string_body r')
            else if Ascii.eqb e "u" then
              match r' with
              | String h1 (String h2 (String h3 (String h4 r''))) =>
                  match hex4 h1 h2 h3 h4 with
                  | Some z =>
                      if z <? 256
                      then cons_char (ascii_of_nat (Z.to_nat z)) (string_body r'')
                      else None
                  | None => None
                  end
              | _ => None
              end
            else None
        | EmptyString => None
        end
      else if (Str.code c <? 32)%nat then None
      else cons_char c (string_body r)
  end.

(** A JSON number at the head of [s]. *)
Definition number_literal (s : string) : option (Num.number * string) :=
  let '(neg, r0) :=
    match s with
    | String "-"%char r => (true, r)
    | _ => (false, s)
    end in
  let '(ip, r1) := Num.span_digits r0 in
  match ip with
  | EmptyString => None
  | String d more =>
      if Ascii.eqb d "0" && negb (String.eqb more "") then None else
      let frac :=
        match r1 with
        | String "."%char r =>
            match Num.span_digits r with
            | (EmptyString, _) => None
            | (fp, r2) => Some (fp, r2)
            end
        | _ => Some (EmptyString, r1)
        end in
      match frac with
      | None => None
      | Some (fp, r2) =>
          let expo :=
            match r2 with
            | String c r =>
                if (Ascii.eqb c "e" || Ascii.eqb c "E")%char then
                  let '(eneg, r3) :=
                    match r with
                    | String "-"%char r' => (true, r')
                    | String "+"%char r' => (false, r')
                    | _ => (false, r)
                    end in
                  match Num.span_digits r3 with
                  | (EmptyString, _) => None
                  | (ds, r4) =>
                      Some (if eneg then - Num.Z_of_digits ds
                            else Num.Z_of_digits ds, r4)
                  end
                else Some (0, r2)
            | EmptyString => Some (0, r2)
            end in
          match expo with
          | None => None
          | Some (x, r4) =>
              let m := Num.Z_of_digits (ip ++ fp) in
              Some (Num.Dec (if neg then - m else m)
                            (x - Z.of_nat (String.length fp)), r4)
          end
      end
  end.

Definition expect (lit : string) (v : jsval) (s : string)
  : option (jsval * string) :=
  if String.prefix lit s then Some (v, Str.drop (String.length lit) s) else None.

(** Recursive descent over the JSON grammar; every call spends one unit of
    [fuel] and reads at least one character. *)
Fixpoint value (fuel : nat) (s : string) : option (jsval * string) :=
  match fuel with
  | O => None
  | S fuel' =>
      match skip_ws s with
      | EmptyString => None
      | String c r as t =>
          if Ascii.eqb c "n" then expect "null" JNull t
          else if Ascii.eqb c "t" then expect "true" (JBool true) t
          else if Ascii.eqb c "f" then expect "false" (JBool false) t
          else if (Str.code c =? 34)%nat then
            match string_body r with
            | Some (body, rest) => Some (JStr body, rest)
            | None => None
            end
          else if Ascii.eqb c "[" then
            match skip_ws r with
            | String "]"%char rest => Some (JArr [], rest)
            | _ => match elements fuel' r with
                   | Some (items, rest) => Some (JArr items, rest)
                   | None => None
                   end
            end
          else if Ascii.eqb c "{" then
            match skip_ws r with
            | String "}"%char rest => Some (JObj [], rest)
            | _ => match members fuel' [] r with
                   | Some (props, rest) => Some (JObj props, rest)
                   | None => None
                   end
            end
          else match number_literal t with
               | Some (n, rest) => Some (JNum n, rest)
               | None => None
               end
      end
  end
with elements (fuel : nat) (s : string) : option (list jsval * string) :=
  match fuel with
  | O => None
  | S fuel' =>
      match value fuel' s with
      | Some (v, rest) =>
          match skip_ws rest with
          | String "]"%char rest' => Some ([v], rest')
          | String ","%char rest' =>
              match elements fuel' rest' with
              | Some (vs, rest'') => Some (v :: vs, rest'')
              | None => None
              end
          | _ => None
          end
      | None => None
      end
  end
with members (fuel : nat) (acc : list (string * jsval)) (s : string)
  : option (list (string * jsval) * string) :=
  match fuel with
  | O => None
  | S fuel' =>
      match skip_ws s with
      | String q r =>
          if (Str.code q =? 34)%nat then
            match string_body r with
            | Some (k, rest) =>
                match skip_ws rest with
                | String ":"%char rest' =>
                    match value fuel' rest' with
                    | Some (v, rest'') =>
                        let acc' := obj_set k v acc in
                        match skip_ws rest'' with
                        | String "}"%char rest3 => Some (acc', rest3)
                        | String ","%char rest3 => members fuel' acc' rest3
                        | _ => None
                        end
                    | None => None
                    end
                | _ => None
                end
            | None => None
            end
          else None
      | EmptyString => None
      end
  end.

(** [JSON.parse(text)]: [None] when it throws a SyntaxError. *)
Definition parse (text : string) : option jsval :=
  match value (2 * String.length text + 8) text with
  | Some (v, rest) =>
      match skip_ws rest with
      | EmptyString => Some v
      | _ => None
      end
  | None => None
  end.

(** *** JSON.stringify *)

Definition hex_digit (n : nat) : ascii :=
  if (n <? 10)%nat then ascii_of_nat (48 + n) else ascii_of_nat (87 + n).

Definition escape_char (c : ascii) : string :=
  let n := Str.code c in
  if (n =? 34)%nat then "\" ++ Str.dq
  else if (n =? 92)%nat then "\\"
  else if (n =? 8)%nat then "\b"
  else if (n =? 12)%nat then "\f"
  else if (n =? 10)%nat then "\n"
  else if (n =? 13)%nat then "\r"
  else if (n =? 9)%nat then "\t"
  else if (n <? 32)%nat
       then "\u00" ++ String (hex_digit (n / 16)) (String (hex_digit (n mod 16)) "")
  else String c "".

Fixpoint escape (s : string) : string :=
  match s with
  | EmptyString => EmptyString
  | String c s' => escape_char c ++ escape s'
  end.

Definition quote (s : string) : string := Str.dq ++ escape s ++ Str.dq.

Fixpoint join (sep : string) (l : list string) : string :=
  match l with
  | [] => EmptyString
  | [x] => x
  | x :: rest => x ++ sep ++ join sep rest
  end.

Section Stringify.
Variable number_text : Num.number -> string.

(** [JSON.stringify(v)] without indentation. *)
Fixpoint stringify (v : jsval) : string :=
  match v with
  | JNull => "null"
  | JBool true => "true"
  | JBool false => "false"
  | JNum (Num.Dec _ _ as n) => number_text n
  | JNum _ => "null"
  | JStr s => quote s
  | JArr items => "[" ++ join "," (map stringify items) ++ "]"
  | JObj props =>
      "{" ++ join "," (map (fun kv => quote (fst kv) ++ ":" ++ stringify (snd kv)) props)
          ++ "}"
  end.
End Stringify.

End Json.

(* ===================================================================== *)
(** ** The built-ins the code calls *)
(* ===================================================================== *)

(** The language built-ins are an interface: the development is stated for
    every implementation of it, and [reference_builtins] below is the one used
    to run the code on concrete inputs. The reference works on exact
    decimals and on code units up to U+00FF, as the conventions at the head
    of the file say; no theorem below depends on it but the concrete runs. *)
Class Builtins : Type := {
  (** [JSON.parse]; [None] when it throws. *)
  JSON_parse : string -> option Js.jsval;
  (** [JSON.stringify] on a JSON value. *)
  JSON_stringify : Js.jsval -> string;
  (** Number::toString *)
  Number_toString : Num.number -> string;
  (** [x.toFixed(1)] *)
  Number_toFixed1 : Num.number -> string;
  (** StringToNumber *)
  StringToNumber : string -> Num.number
}.

Definition reference_builtins : Builtins := {|
  JSON_parse := Json.parse;
  JSON_stringify := Json.stringify Num.ToString;
  Number_toString := Num.ToString;
  Number_toFixed1 := Num.toFixed1;
  StringToNumber := Num.StringToNumber
|}.

Module Conv.

Import Js.

Section WithBuiltins.
Context {B : Builtins}.

(** The TypeError of a conversion to a primitive that finds no callable
    method. *)
Definition not_primitive : exn :=
  mkExn "TypeError" (Some "Cannot convert object to primitive value").

(** The elements converted in order; the first that throws ends it. *)
Definition traverse {A C : Type} (f : A -> exn + C) : list A -> exn + list C :=
  fix go (l : list A) : exn + list C :=
    match l with
    | [] => inr []
    | x :: rest =>
        match f x with
        | inl e => inl e
        | inr y => match go rest with
                   | inl e => inl e
                   | inr ys => inr (y :: ys)
                   end
        end
    end.

(** ToString: what a template literal or a string concatenation makes of
    a value. An array joins its elements with commas, null elements as
    the empty string. A plain object is [[object Object]] through the
    inherited [toString]; an own property of that name hides it, and as no
    value of JSON text is callable (and the inherited [valueOf] returns the
    object itself) the conversion then throws. *)
Fixpoint ToString (v : jsval) : exn + string :=
  match v with
  | JNull => inr "null"
  | JBool true => inr "true"
  | JBool false => inr "false"
  | JNum n => inr (Number_toString n)
  | JStr s => inr s
  | JArr items =>
      match traverse (fun x => match x with
                               | JNull => inr EmptyString
                               | _ => ToString x
                               end) items with
      | inl e => inl e
      | inr parts => inr (Json.join "," parts)
      end
  | JObj props =>
      match obj_get "toString" props with
      | Some _ => inl not_primitive
      | None => inr "[object Object]"
      end
  end.

(** [Number(v)]: an array or an object is first made a primitive, which
    is its string (the inherited [valueOf] returns the object, an own one
    is not callable), and throws where [ToString] does. *)
Definition Number (v : jsval) : exn + Num.number :=
  match v with
  | JNull => inr Num.zero
  | JBool true => inr (Num.of_Z 1)
  | JBool false => inr Num.zero
  | JNum n => inr n
  | JStr s => inr (StringToNumber s)
  | JArr _ | JObj _ =>
      match ToString v with
      | inl e => inl e
      | inr s => inr (StringToNumber s)
      end
  end.

(** [${v}] for a value that may be undefined. *)
Definition text_of (v : option jsval) : exn + string :=
  match v with
  | Some x => ToString x
  | None => inr "undefined"
  end.

End WithBuiltins.

End Conv.

(** [s] between double quotes. *)
Definition quoted (s : string) : string := Str.dq ++ s ++ Str.dq.

(* ===================================================================== *)
(** ** Requests to the environment and program trees *)
(* ===================================================================== *)

Module Eff.

Import Js.

(** An opaque browser or library object (buffer, page, canvas, blob). *)
Definition handle : Type := N.

(** A [File]: the three properties the code reads. *)
Record File : Type := mkFile {
  file_name : string;
  file_type : string;
  file_size : Z
}.

(** The result of [generateContent]: [result.response.text()] returns the
    text or throws. *)
Record GenerateContentResult : Type := {
  response_text : exn + string
}.

Record RequestInit : Type := {
  method : string;
  headers : list (string * string);
  body : string
}.

(** A fetch [Response]; [json] is what [response.json()] settles to. *)
Record Response : Type := {
  ok : bool;
  status : Z;
  statusText : string;
  json : exn + jsval
}.

Record PDFDocument : Type := {
  numPages : nat;
  pdf_handle : handle
}.

(** [data] of a Tesseract recognition. *)
Record OcrData : Type := {
  text : string;
  confidence : Num.number
}.

Inductive OcrImage : Type :=
| ImageBlob (b : handle)
| ImageFile (f : File).

(** A meeting row of the backend. *)
Record Meeting : Type := {
  meeting_id : string;
  meeting_code : string;
  meeting_title : string;
  meeting_host_id : string
}.

Inductive toast_kind : Type := ToastSuccess | ToastError.

(** What the code awaits or calls in its environment, indexed by the type
    of the answer. A rejected promise or a thrown error is an [exn]. *)
Inductive eventE : Type -> Type :=
(* generative providers *)
| GenerateContent (prompt : string) : eventE (exn + GenerateContentResult)
| Fetch (url : string) (init : RequestInit) : eventE (exn + Response)
(* OCR *)
| Import (specifiers : list string) : eventE (exn + unit)
| SetWorkerSrc : eventE unit
| FileArrayBuffer (f : File) : eventE (exn + handle)
| GetDocument (data : handle) : eventE (exn + PDFDocument)
| GetPage (pdf : PDFDocument) (pageNum : nat) : eventE (exn + handle)
(* getViewport at [scale], a canvas of that size, and page.render on it *)
| RenderPage (page : handle) (scale : Num.number) : eventE (exn + handle)
| CanvasToBlob (canvas : handle) : eventE handle
| Recognize (image : OcrImage) (lang : string) : eventE (exn + OcrData)
(* meeting backend and user interface *)
| GetActiveClassMeeting (classId : string) : eventE (option Meeting * option exn)
| EndMeeting (meetingId : string) : eventE (exn + unit)
| Toast (kind : toast_kind) (msg : string) : eventE unit
| OnClose : eventE unit.

Inductive level : Type := LogInfo | LogWarn | LogError.

(** A program: it returns, throws, writes to the console, or asks the
    environment and goes on with the answer. *)
Inductive prog (A : Type) : Type :=
| Ret (a : A)
| Throw (e : exn)
| Log (l : level) (msg : string) (k : prog A)
| Vis (T : Type) (ev : eventE T) (k : T -> prog A).

Arguments Ret {A} a.
Arguments Throw {A} e.
Arguments Log {A} l msg k.
Arguments Vis {A T} ev k.

Fixpoint bind {A B : Type} (p : prog A) (f : A -> prog B) : prog B :=
  match p with
  | Ret a => f a
  | Throw e => Throw e
  | Log l m k => Log l m (bind k f)
  | Vis ev k => Vis ev (fun r => bind (k r) f)
  end.

(** [try { p } catch (e) { h e }] *)
Fixpoint try_catch {A : Type} (p : prog A) (h : exn -> prog A) : prog A :=
  match p with
  | Ret a => Ret a
  | Throw e => h e
  | Log l m k => Log l m (try_catch k h)
  | Vis ev k => Vis ev (fun r => try_catch (k r) h)
  end.

(** A call whose answer is used as it is. *)
Definition call {T : Type} (ev : eventE T) : prog T := Vis ev (fun r => Ret r).

(** [await] of a promise that may reject, or a call that may throw. *)
Definition await {T : Type} (ev : eventE (exn + T)) : prog T :=
  Vis ev (fun r => match r with inl e => Throw e | inr x => Ret x end).

(** A synchronous step that may throw. *)
Definition lift {T : Type} (r : exn + T) : prog T :=
  match r with inl e => Throw e | inr x => Ret x end.

Definition console_log (msg : string) : prog unit := Log LogInfo msg (Ret tt).
Definition console_warn (msg : string) : prog unit := Log LogWarn msg (Ret tt).
Definition console_error (msg : string) : prog unit := Log LogError msg (Ret tt).

Declare Scope prog_scope.
Delimit Scope prog_scope with prog.
Notation "x <- p ;; k" := (bind p (fun x => k))
  (at level 61, p at next level, right associativity) : prog_scope.
Notation "p ;; k" := (bind p (fun _ => k))
  (at level 61, right associativity) : prog_scope.

(** *** Runs *)

Inductive outcome (A : Type) : Type :=
| Returned (a : A)
| Thrown (e : exn).

Arguments Returned {A} a.
Arguments Thrown {A} e.

(** One entry of a trace: a console line, or a request with its answer. *)
Inductive entry : Type :=
| Console (l : level) (msg : string)
| Call (T : Type) (ev : eventE T) (answer : T).

Arguments Call {T} ev answer.

(** The environment: it answers each request and moves to a new state. *)
Definition handler (S : Type) : Type := forall T : Type, eventE T -> S -> T * S.

Fixpoint run {S A : Type} (h : handler S) (p : prog A) (s : S)
  : outcome A * list entry * S :=
  match p with
  | Ret a => (Returned a, [], s)
  | Throw e => (Thrown e, [], s)
  | Log l m k =>
      let '(o, tr, s') := run h k s in (o, Console l m :: tr, s')
  | Vis ev k =>
      let '(r, s1) := h _ ev s in
      let '(o, tr, s') := run h (k r) s1 in
      (o, Call ev r :: tr, s')
  end.

Definition result_of {S A : Type} (x : outcome A * list entry * S) : outcome A :=
  fst (fst x).
Definition trace_of {S A : Type} (x : outcome A * list entry * S) : list entry :=
  snd (fst x).
Definition state_of {S A : Type} (x : outcome A * list entry * S) : S := snd x.

(** *** Observations on traces *)

Definition is_GenerateContent (e : entry) : bool :=
  match e with
  | Call (GenerateContent _) _ => true
  | _ => false
  end.

Definition is_Fetch (e : entry) : bool :=
  match e with
  | Call (Fetch _ _) _ => true
  | _ => false
  end.

Definition is_Recognize (e : entry) : bool :=
  match e with
  | Call (Recognize _ _) _ => true
  | _ => false
  end.

Definition is_Import (e : entry) : bool :=
  match e with
  | Call (Import _) _ => true
  | _ => false
  end.

Definition is_Console (e : entry) : bool :=
  match e with
  | Console _ _ => true
  | Call _ _ => false
  end.

Definition count (f : entry -> bool) (tr : list entry) : nat :=
  List.length (filter f tr).

End Eff.

(* ===================================================================== *)
(** ** The AI utility module *)
(* ===================================================================== *)

(** [import.meta.env]: each variable is set or absent. *)
Class ImportMetaEnv : Type := {
  VITE_GEMINI_API_KEY : option string;
  VITE_GROQ_API_KEY : option string;
  VITE_INTELLIMEET_URL : option string
}.

(** [v || d] for an environment variable. *)
Definition env_or (v : option string) (d : string) : string :=
  match v with
  | Some s => if String.eqb s "" then d else s
  | None => d
  end.

Module Ai.

Import Js Eff.
Local Open Scope prog_scope.

Section WithRuntime.
Context {B : Builtins} {E : ImportMetaEnv}.

Definition GROQ_API_KEY : string := env_or VITE_GROQ_API_KEY "".
Definition GROQ_MODEL : string := "moonshotai/kimi-k2-instruct-0905".
Definition GROQ_API_URL : string := "https://api.groq.com/openai/v1/chat/completions".

(** The second argument of the [fetch] in [callGroqAPI]. *)
Definition groq_request (prompt : string) : RequestInit := {|
  method := "POST";
  headers := [("Authorization", "Bearer " ++ GROQ_API_KEY);
              ("Content-Type", "application/json")];
  body := JSON_stringify
            (JObj [("model", JStr GROQ_MODEL);
                   ("messages", JArr [JObj [("role", JStr "user");
                                            ("content", JStr prompt)]]);
                   ("temperature", JNum (Num.Dec 7 (-1)));
                   ("max_tokens", JNum (Num.Dec 4096 0))])
|}.

(** [errorData.error?.message || response.statusText], rendered in the
    error's template literal. *)
Definition groq_error_detail (errorData : jsval) (response : Response)
  : exn + string :=
  match get (Some errorData) "error" with
  | inl e => inl e
  | inr err =>
      let m := get_opt err "message" in
      if truthy_opt m then Conv.text_of m else inr (statusText response)
  end.

(** [data.choices[0]?.message?.content || ''] *)
Definition groq_content (data : jsval) : exn + jsval :=
  match get (Some data) "choices" with
  | inl e => inl e
  | inr choices =>
      match get choices "0" with
      | inl e => inl e
      | inr first =>
          inr (or_default (get_opt (get_opt first "message") "content") (JStr ""))
      end
  end.

Definition callGroqAPI (prompt : string) : prog jsval :=
  console_log "Falling back to Groq API..." ;;
  response <- await (Fetch GROQ_API_URL (groq_request prompt)) ;;
  if negb (ok response) then
    (* await response.json().catch(() => ({})) *)
    let errorData := match json response with
                     | inl _ => JObj []
                     | inr v => v
                     end in
    detail <- lift (groq_error_detail errorData response) ;;
    Throw (Error ("Groq API error: " ++ Number_toString (Num.of_Z (status response))
                  ++ " - " ++ detail))
  else
    data <- lift (json response) ;;
    lift (groq_content data).

(** [m?.includes(p)] on an error message. *)
Definition message_includes (e : exn) (p : string) : bool :=
  match ex_message e with
  | Some m => Str.includes m p
  | None => false
  end.

(** [isQuotaError] of [generateWithFallback]. *)
Definition isQuotaError (geminiError : exn) : bool :=
  message_includes geminiError "quota"
  || message_includes geminiError "429"
  || message_includes geminiError "rate"
  || message_includes geminiError "Resource has been exhausted"
  || message_includes geminiError "not found"
  || message_includes geminiError "not supported".

(** The [try] block of [generateWithFallback]. *)
Definition tryGemini (prompt : string) : prog jsval :=
  console_log "Attempting Gemini API..." ;;
  result <- await (GenerateContent prompt) ;;
  text <- lift (response_text result) ;;
  console_log "Gemini API succeeded" ;;
  Ret (JStr text).

Definition generateWithFallback (prompt : string) : prog jsval :=
  try_catch (tryGemini prompt)
    (fun geminiError =>
       console_warn "Gemini API failed:" ;;
       if isQuotaError geminiError then
         console_log "Quota/rate limit exceeded or model unavailable, falling back to Groq..." ;;
         try_catch
           (groqResponse <- callGroqAPI prompt ;;
            console_log "Groq API succeeded" ;;
            Ret groqResponse)
           (fun groqError =>
              console_error "Groq API also failed:" ;;
              Throw (Error ("Both AI providers failed. Gemini: "
                            ++ message_text geminiError ++ ", Groq: "
                            ++ message_text groqError)))
       else
         (* For other errors, still try Groq as fallback *)
         try_catch
           (groqResponse <- callGroqAPI prompt ;;
            console_log "Groq API succeeded (fallback)" ;;
            Ret groqResponse)
           (fun groqError =>
              (* If Groq also fails, throw the original Gemini error *)
              Throw geminiError)).

(** *** OCR text extraction *)

(** What [extractText] returns; only the image path sets [confidence]. *)
Record ExtractionResult : Type := {
  success : bool;
  extracted_text : string;
  message : string;
  file_info : File;
  confidence_of : option Num.number
}.

Definition file_info_of (file : File) : File :=
  mkFile (file_name file) (file_type file) (file_size file).

(** The body of the page loop of [extractTextFromPDF], for the
    [remaining] pages from [pageNum] on. *)
Fixpoint pdf_pages (pdf : PDFDocument) (remaining pageNum : nat)
         (allExtractedText : string) : prog string :=
  match remaining with
  | O => Ret allExtractedText
  | S remaining' =>
      console_log ("Processing PDF page " ++ Str.of_nat pageNum ++ "/"
                   ++ Str.of_nat (numPages pdf)) ;;
      page <- await (GetPage pdf pageNum) ;;
      (* viewport at scale 2.0, a new canvas of its size, page.render *)
      canvas <- await (RenderPage page (Num.Dec 20 (-1))) ;;
      blob <- call (CanvasToBlob canvas) ;;
      data <- await (Recognize (ImageBlob blob) "eng") ;;
      pdf_pages pdf remaining' (S pageNum)
        (if negb (String.eqb (Str.trim (text data)) "")
         then allExtractedText ++ Str.nl ++ "--- Page " ++ Str.of_nat pageNum
              ++ " ---" ++ Str.nl ++ Str.trim (text data) ++ Str.nl
         else allExtractedText)
  end.

Definition pdf_no_text : string :=
  "No text was extracted from the PDF. Please ensure the document contains readable text.".

(** The [try] block of [extractTextFromPDF]. *)
Definition pdf_try (file : File) : prog ExtractionResult :=
  await (Import ["pdfjs-dist"; "pdfjs-dist/build/pdf.worker.min.mjs?url";
                 "tesseract.js"]) ;;
  call SetWorkerSrc ;;
  arrayBuffer <- await (FileArrayBuffer file) ;;
  pdf <- await (GetDocument arrayBuffer) ;;
  allExtractedText <- pdf_pages pdf (numPages pdf) 1 "" ;;
  if String.eqb (Str.trim allExtractedText) "" then Throw (Error pdf_no_text)
  else Ret {| success := true;
              extracted_text := Str.trim allExtractedText;
              message := "Text extracted successfully from PDF using client-side OCR";
              file_info := file_info_of file;
              confidence_of := None |}.

(** The [catch] block of [extractTextFromPDF]. *)
Definition pdf_catch (error : exn) : prog ExtractionResult :=
  console_error "PDF OCR error:" ;;
  if message_includes error "Invalid PDF"
  then Throw (Error "Invalid or corrupted PDF file. Please try a different document.")
  else Throw (Error ("Failed to extract text from PDF: " ++ message_text error)).

Definition extractTextFromPDF (file : File) : prog ExtractionResult :=
  console_log "Processing PDF with client-side OCR:" ;;
  try_catch (pdf_try file) pdf_catch.

Definition maxSize : Z := 10 * 1024 * 1024.

Definition file_too_large : string :=
  "File size too large. Please use files smaller than 10MB.".

Definition image_no_text : string :=
  "No text was extracted from the image. Please ensure the image contains readable text.".

(** [m?.startsWith(p)] on an error message. *)
Definition message_startsWith (e : exn) (p : string) : bool :=
  match ex_message e with
  | Some m => Str.startsWith m p
  | None => false
  end.

(** The [try] block of [extractTextFromImage]. *)
Definition image_try (file : File) : prog ExtractionResult :=
  console_log "Starting Tesseract OCR processing..." ;;
  await (Import ["tesseract.js"]) ;;
  data <- await (Recognize (ImageFile file) "eng") ;;
  console_log "Tesseract OCR completed. Confidence:" ;;
  console_log "Extracted text:" ;;
  if String.eqb (text data) "" || (String.length (Str.trim (text data)) =? 0)%nat
  then Throw (Error image_no_text)
  else
    (if Num.ltb (confidence data) (Num.Dec 30 0)
     then console_warn "Low OCR confidence detected:" else Ret tt) ;;
    Ret {| success := true;
           extracted_text := Str.trim (text data);
           message := "Text extracted successfully using Tesseract.js (confidence: "
                      ++ Number_toFixed1 (confidence data) ++ "%)";
           file_info := file_info_of file;
           confidence_of := Some (confidence data) |}.

(** The [catch] block of [extractTextFromImage]. *)
Definition image_catch (error : exn) : prog ExtractionResult :=
  console_error "Tesseract OCR error:" ;;
  if message_includes error "timeout"
  then Throw (Error "OCR processing timed out. Please try again with a smaller file.")
  else if message_includes error "worker"
  then Throw (Error "OCR worker failed to initialize. Please refresh the page and try again.")
  else if message_includes error "invalid" || message_includes error "corrupt"
  then Throw (Error "Invalid or corrupted image file. Please try a different image.")
  else if message_startsWith error "Unsupported file type"
          || message_startsWith error "File size too large"
          || message_startsWith error "No text was extracted"
  then Throw error
  else Throw (Error ("Failed to extract text from the image: "
                     ++ match ex_message error with
                        | Some m => if String.eqb m "" then "Unknown error occurred" else m
                        | None => "Unknown error occurred"
                        end
                     ++ ". Please try with a different image.")).

Definition extractTextFromImage (file : File) : prog ExtractionResult :=
  console_log "Processing image with Tesseract.js:" ;;
  if file_size file >? maxSize then Throw (Error file_too_large)
  else try_catch (image_try file) image_catch.

Definition supportedImageTypes : list string :=
  ["image/jpeg"; "image/jpg"; "image/png"; "image/gif"; "image/webp"].
Definition supportedDocumentTypes : list string := ["application/pdf"].
Definition allSupportedTypes : list string :=
  supportedImageTypes ++ supportedDocumentTypes.

Definition unsupported_type (type : string) : string :=
  "Unsupported file type: " ++ type
  ++ ". Please use JPEG, PNG, GIF, WebP images or PDF documents.".

Definition extractText (file : File) : prog ExtractionResult :=
  console_log "Calling extractText for file:" ;;
  if negb (Str.array_includes allSupportedTypes (file_type file))
  then Throw (Error (unsupported_type (file_type file)))
  else if Str.array_includes supportedDocumentTypes (file_type file)
       then extractTextFromPDF file
       else extractTextFromImage file.

(** *** Submission grading *)

(** What [gradeSubmission] returns. The text-format result has no
    [strengths] and no [improvements] property. *)
Record GradingResult : Type := {
  graded : bool;                      (* success *)
  grade : Num.number;
  feedback : jsval;
  strengths : option jsval;
  improvements : option jsval;
  final_marks : Num.number;
  review : jsval;
  graded_message : string             (* message *)
}.

(** [v.k1 || v.k2 || ... || d], evaluated from the left. *)
Fixpoint or_chain (v : jsval) (keys : list string) (d : jsval) : exn + jsval :=
  match keys with
  | [] => inr d
  | k :: rest =>
      match get (Some v) k with
      | inl e => inl e
      | inr (Some x) => if truthy x then inr x else or_chain v rest d
      | inr None => or_chain v rest d
      end
  end.

(** [gradingResult.trim()]: only a string has the method. *)
Definition value_trim (v : jsval) : exn + string :=
  match v with
  | JStr s => inr (Str.trim s)
  | _ => inl (mkExn "TypeError" (Some "gradingResult.trim is not a function"))
  end.

(** The removal of the markdown code fences. *)
Definition strip_fences (trimmed : string) : string :=
  let cleanedResult :=
    if Str.startsWith trimmed "```json" then Str.slice_from 7 trimmed
    else if Str.startsWith trimmed "```" then Str.slice_from 3 trimmed
    else trimmed in
  let cleanedResult :=
    if Str.endsWith cleanedResult "```" then Str.slice_drop_last 3 cleanedResult
    else cleanedResult in
  Str.trim cleanedResult.

(** [JSON.parse] as a step that throws; the message of its SyntaxError
    depends on the engine and is only logged. *)
Definition parse_or_throw (s : string) : exn + jsval :=
  match JSON_parse s with
  | Some v => inr v
  | None => inl (mkExn "SyntaxError" (Some "JSON.parse: unexpected input"))
  end.

Definition text_format (gradingResult : jsval) : GradingResult := {|
  graded := true;
  grade := Num.zero;
  feedback := gradingResult;
  strengths := None;
  improvements := None;
  final_marks := Num.zero;
  review := gradingResult;
  graded_message := "Submission graded successfully (text format)"
|}.

(** The inner [try]/[catch] of [gradeSubmission]: from the provider's
    answer to the result. *)
Definition parseGradingResult (gradingResult : jsval) : prog GradingResult :=
  try_catch
    (trimmed <- lift (value_trim gradingResult) ;;
     parsedResult <- lift (parse_or_throw (strip_fences trimmed)) ;;
     console_log "Parsed grading result:" ;;
     grade <- lift (or_chain parsedResult ["grade"; "marks"; "final_marks"; "score"]
                             (JNum Num.zero)) ;;
     feedback <- lift (or_chain parsedResult ["feedback"; "review"; "comments"]
                                (JStr "No feedback provided")) ;;
     console_log "Extracted grade:" ;;
     (* the object literal, its properties in order *)
     number <- lift (Conv.Number grade) ;;
     strengths <- lift (or_chain parsedResult ["strengths"] (JStr "")) ;;
     improvements <- lift (or_chain parsedResult
                                    ["improvements"; "areas_for_improvement"] (JStr "")) ;;
     final_marks <- lift (Conv.Number grade) ;;
     Ret {| graded := true;
            grade := number;
            feedback := feedback;
            strengths := Some strengths;
            improvements := Some improvements;
            final_marks := final_marks;
            review := feedback;
            graded_message := "Submission graded successfully" |})
    (fun parseError =>
       console_log "JSON parse failed, using text format. Parse error:" ;;
       Ret (text_format gradingResult)).

(** A string argument that may be null or undefined, as [if (s)] sees it. *)
Definition present (s : option string) : option string :=
  match s with
  | Some t => if String.eqb t "" then None else Some t
  | None => None
  end.

Definition grading_prompt (ocrText : option string) (generatedContent : option jsval)
           (gradingCriteria customInstructions : option string) : string :=
  let nl := Str.nl in
  "Please grade the following student submission based on the provided criteria:"
  ++ nl ++ nl
  ++ (if truthy_opt generatedContent
      then "Assignment Content:" ++ nl
           ++ match generatedContent with
              | Some (JStr s) => s
              | Some v => JSON_stringify v
              | None => EmptyString
              end ++ nl ++ nl
      else EmptyString)
  ++ match present ocrText with
     | Some t => "Student Submission (OCR Text):" ++ nl ++ t ++ nl ++ nl
     | None => EmptyString
     end
  ++ match present gradingCriteria with
     | Some t => "Grading Criteria:" ++ nl ++ t ++ nl ++ nl
     | None => EmptyString
     end
  ++ match present customInstructions with
     | Some t => "Additional Instructions:" ++ nl ++ t ++ nl ++ nl
     | None => EmptyString
     end
  ++ "Please provide:" ++ nl
  ++ "1. A numerical grade (0-100)" ++ nl
  ++ "2. Detailed feedback explaining the grade" ++ nl
  ++ "3. Areas for improvement" ++ nl
  ++ "4. Strengths in the submission" ++ nl ++ nl
  ++ "Format your response as JSON with the following structure:" ++ nl
  ++ "{" ++ nl
  ++ "  " ++ quoted "grade" ++ ": <numerical_grade>," ++ nl
  ++ "  " ++ quoted "feedback" ++ ": " ++ quoted "<detailed_feedback>" ++ "," ++ nl
  ++ "  " ++ quoted "strengths" ++ ": " ++ quoted "<identified_strengths>" ++ "," ++ nl
  ++ "  " ++ quoted "improvements" ++ ": " ++ quoted "<areas_for_improvement>" ++ nl
  ++ "}".

Definition gradeSubmission (gradingMode : string) (ocrText : option string)
           (generatedContent : option jsval)
           (gradingCriteria customInstructions : option string)
  : prog GradingResult :=
  console_log "Calling gradeSubmission with AI fallback:" ;;
  try_catch
    (gradingResult <- generateWithFallback
                        (grading_prompt ocrText generatedContent
                                        gradingCriteria customInstructions) ;;
     console_log "gradeSubmission AI response:" ;;
     parseGradingResult gradingResult)
    (fun error =>
       console_error "gradeSubmission AI error:" ;;
       Throw (Error ("Failed to grade submission: " ++ message_text error))).

End WithRuntime.

End Ai.

(* ===================================================================== *)
(** ** Storage utilities: validation of a submission file *)
(* ===================================================================== *)

Module Storage.

Import Eff.

Record Validation : Type := {
  valid : bool;
  error : option string
}.

Definition maxSize : Z := 10 * 1024 * 1024.

Definition allowedTypes : list string :=
  ["application/pdf"; "image/png"; "image/jpeg"; "image/jpg"; "image/gif";
   "image/webp"; "image/avif"].

Definition allowedExtensions : list string :=
  ["pdf"; "png"; "jpg"; "jpeg"; "gif"; "webp"; "avif"].

(** [file.name.split('.').pop()?.toLowerCase() || ''] *)
Definition extension (name : string) : string :=
  let ext := Str.toLowerCase (Str.split_pop "." name) in
  if String.eqb ext "" then "" else ext.

Definition validateSubmissionFile (file : File) : Validation :=
  if file_size file >? maxSize then
    {| valid := false; error := Some "File size exceeds 10MB limit" |}
  else
    let isValidType :=
      Str.array_includes allowedTypes (file_type file)
      || Str.array_includes allowedExtensions (extension (file_name file)) in
    if negb isValidType then
      {| valid := false; error := Some "File type not supported. Use PDF or images." |}
    else {| valid := true; error := None |}.

End Storage.

(* ===================================================================== *)
(** ** The ClassMeeting component (embedded meeting view) *)
(* ===================================================================== *)

Module ClassMeeting.

Import Js Eff.
Local Open Scope prog_scope.

Record Props : Type := {
  classId : string;
  className : string;
  isTeacher : bool;
  onClose : bool            (* whether the optional callback is given *)
}.

(** The component's [useState] cells. *)
Record State : Type := mkState {
  activeMeeting : option Meeting;
  isLoading : bool;
  isStarting : bool;
  showMeeting : bool
}.

Definition setActiveMeeting (m : option Meeting) (st : State) : State :=
  mkState m (isLoading st) (isStarting st) (showMeeting st).
Definition setIsLoading (b : bool) (st : State) : State :=
  mkState (activeMeeting st) b (isStarting st) (showMeeting st).
Definition setShowMeeting (b : bool) (st : State) : State :=
  mkState (activeMeeting st) (isLoading st) (isStarting st) b.

(** [onClose?.()] *)
Definition call_onClose (props : Props) : prog unit :=
  if onClose props then call OnClose else Ret tt.

(** The listener for [message] events; [data] is [event.data]. *)
Definition handleMessage (props : Props) (data : option jsval) (st : State)
  : prog State :=
  if strict_eq_string (get_opt data "type") "MEETING_ENDED" then
    let st := setShowMeeting false st in
    let st := setActiveMeeting None st in
    call (Toast ToastSuccess "Meeting ended") ;;
    call_onClose props ;;
    Ret st
  else Ret st.

Definition checkActiveMeeting (props : Props) (st : State) : prog State :=
  let st := setIsLoading true st in
  r <- call (GetActiveClassMeeting (classId props)) ;;
  let st := match r with
            | (Some data, None) => setActiveMeeting (Some data) st
            | _ => st
            end in
  Ret (setIsLoading false st).

Definition handleJoinMeeting (st : State) : State :=
  match activeMeeting st with
  | Some _ => setShowMeeting true st
  | None => st
  end.

Definition handleEndMeeting (props : Props) (st : State) : prog State :=
  match activeMeeting st with
  | None => Ret st
  | Some m =>
      try_catch
        (await (EndMeeting (meeting_id m)) ;;
         let st := setShowMeeting false st in
         let st := setActiveMeeting None st in
         call (Toast ToastSuccess "Meeting ended") ;;
         call_onClose props ;;
         Ret st)
        (fun err =>
           call (Toast ToastError "Failed to end meeting") ;;
           Ret st)
  end.

(** What the component renders. *)
Inductive View : Type :=
| Spinner
| EmbeddedMeeting (m : Meeting)
| MeetingInProgress (m : Meeting)
| NoMeeting.

Definition render (st : State) : View :=
  if isLoading st then Spinner
  else match showMeeting st, activeMeeting st with
       | true, Some m => EmbeddedMeeting m
       | _, Some m => MeetingInProgress m
       | _, None => NoMeeting
       end.

Definition is_backend_call (e : entry) : bool :=
  match e with
  | Call (GetActiveClassMeeting _) _ => true
  | Call (EndMeeting _) _ => true
  | _ => false
  end.

End ClassMeeting.

(* ===================================================================== *)
(** ** Scripted environments *)
(* ===================================================================== *)

(** An environment given by one answer per kind of request; its state counts
    the requests answered so far. *)
Module World.

Import Js Eff.

Record World : Type := {
  gemini : string -> exn + GenerateContentResult;
  groq : string -> RequestInit -> exn + Response;
  import : list string -> exn + unit;
  arrayBuffer : File -> exn + handle;
  getDocument : handle -> exn + PDFDocument;
  getPage : PDFDocument -> nat -> exn + handle;
  renderPage : handle -> exn + handle;
  recognize : OcrImage -> exn + OcrData;
  activeMeetingOf : string -> option Meeting * option exn;
  endMeeting : string -> exn + unit
}.

Definition answer (w : World) {T : Type} (ev : eventE T) : T :=
  match ev in eventE T return T with
  | GenerateContent prompt => gemini w prompt
  | Fetch url init => groq w url init
  | Import specifiers => import w specifiers
  | SetWorkerSrc => tt
  | FileArrayBuffer f => arrayBuffer w f
  | GetDocument data => getDocument w data
  | GetPage pdf pageNum => getPage w pdf pageNum
  | RenderPage page _ => renderPage w page
  | CanvasToBlob canvas => canvas
  | Recognize image _ => recognize w image
  | GetActiveClassMeeting classId => activeMeetingOf w classId
  | EndMeeting meetingId => endMeeting w meetingId
  | Toast _ _ => tt
  | OnClose => tt
  end.

Definition handle_with (w : World) : handler nat :=
  fun T ev n => (answer w ev, S n).

Definition no_env : ImportMetaEnv := {|
  VITE_GEMINI_API_KEY := None;
  VITE_GROQ_API_KEY := None;
  VITE_INTELLIMEET_URL := None
|}.

Definition unavailable : exn := Error "service unavailable".

(** Every service is down, no document has pages, no meeting is active. *)
Definition offline : World := {|
  gemini := fun _ => inl unavailable;
  groq := fun _ _ => inl unavailable;
  import := fun _ => inl unavailable;
  arrayBuffer := fun _ => inl unavailable;
  getDocument := fun _ => inl unavailable;
  getPage := fun _ _ => inl unavailable;
  renderPage := fun _ => inl unavailable;
  recognize := fun _ => inl unavailable;
  activeMeetingOf := fun _ => (None, None);
  endMeeting := fun _ => inl unavailable
|}.

(** A chat completion whose first choice has the given content. *)
Definition completion (content : string) : Response := {|
  ok := true;
  status := 200;
  statusText := "OK";
  json := inr (JObj [("choices",
                      JArr [JObj [("message", JObj [("role", JStr "assistant");
                                                    ("content", JStr content)])]])])
|}.

(** An error response with the provider's error object. *)
Definition rejection (code : Z) (reason detail : string) : Response := {|
  ok := false;
  status := code;
  statusText := reason;
  json := inr (JObj [("error", JObj [("message", JStr detail)])])
|}.

Definition quota_down : World := {|
  gemini := fun _ => inl (Error "429 Too Many Requests: quota exceeded");
  groq := fun _ _ => inr (rejection 503 "Service Unavailable" "upstream overloaded");
  import := import offline;
  arrayBuffer := arrayBuffer offline;
  getDocument := getDocument offline;
  getPage := getPage offline;
  renderPage := renderPage offline;
  recognize := recognize offline;
  activeMeetingOf := activeMeetingOf offline;
  endMeeting := endMeeting offline
|}.

Definition gemini_answers (text : string) : World := {|
  gemini := fun _ => inr {| response_text := inr text |};
  groq := groq offline;
  import := import offline;
  arrayBuffer := arrayBuffer offline;
  getDocument := getDocument offline;
  getPage := getPage offline;
  renderPage := renderPage offline;
  recognize := recognize offline;
  activeMeetingOf := activeMeetingOf offline;
  endMeeting := endMeeting offline
|}.

Definition groq_answers (text : string) : World := {|
  gemini := fun _ => inl (Error "fetch failed");
  groq := fun _ _ => inr (completion text);
  import := import offline;
  arrayBuffer := arrayBuffer offline;
  getDocument := getDocument offline;
  getPage := getPage offline;
  renderPage := renderPage offline;
  recognize := recognize offline;
  activeMeetingOf := activeMeetingOf offline;
  endMeeting := endMeeting offline
|}.

(** The OCR services work: a document has the given page texts, and an image
    is read as the first of them with confidence 87.25. *)
Definition scanned (pages : list string) : World := {|
  gemini := gemini offline;
  groq := groq offline;
  import := fun _ => inr tt;
  arrayBuffer := fun _ => inr 1%N;
  getDocument := fun data => inr {| numPages := List.length pages; pdf_handle := data |};
  getPage := fun _ pageNum => inr (N.of_nat pageNum);
  renderPage := fun page => inr page;
  recognize := fun image =>
    match image with
    | ImageBlob b =>
        inr {| text := nth (N.to_nat b - 1) pages EmptyString;
               confidence := Num.Dec 90 0 |}
    | ImageFile _ =>
        inr {| text := nth 0 pages EmptyString; confidence := Num.Dec 8725 (-2) |}
    end;
  activeMeetingOf := activeMeetingOf offline;
  endMeeting := endMeeting offline
|}.

(** The OCR library does not load. *)
Definition no_ocr_library : World := {|
  gemini := gemini offline;
  groq := groq offline;
  import := fun _ => inl (Error "Failed to fetch dynamically imported module");
  arrayBuffer := fun _ => inr 1%N;
  getDocument := getDocument offline;
  getPage := getPage offline;
  renderPage := renderPage offline;
  recognize := recognize (scanned ["text"]);
  activeMeetingOf := activeMeetingOf offline;
  endMeeting := endMeeting offline
|}.

Definition live_class : Meeting := {|
  meeting_id := "m-1";
  meeting_code := "abc-defg";
  meeting_title := "Physics 101 - Live Class";
  meeting_host_id := "teacher-1"
|}.

(** The meeting backend works and [live_class] is the active meeting. *)
Definition in_class : World := {|
  gemini := gemini offline;
  groq := groq offline;
  import := import offline;
  arrayBuffer := arrayBuffer offline;
  getDocument := getDocument offline;
  getPage := getPage offline;
  renderPage := renderPage offline;
  recognize := recognize offline;
  activeMeetingOf := fun _ => (Some live_class, None);
  endMeeting := fun _ => inr tt
|}.

End World.

(* ===================================================================== *)
(** ** Program trees over any signature of requests *)
(* ===================================================================== *)

(** The trees of [Eff], for code that talks to other services: the storage
    backend, the meeting backend, the browser window, the component's own
    state setters. *)
Module Io.

Import Js.

Section Signature.
Variable E : Type -> Type.

Inductive prog (A : Type) : Type :=
| Ret (a : A)
| Throw (e : exn)
| Log (l : Eff.level) (msg : string) (k : prog A)
| Vis (T : Type) (ev : E T) (k : T -> prog A).

Arguments Ret {A} a.
Arguments Throw {A} e.
Arguments Log {A} l msg k.
Arguments Vis {A T} ev k.

Fixpoint bind {A B : Type} (p : prog A) (f : A -> prog B) : prog B :=
  match p with
  | Ret a => f a
  | Throw e => Throw e
  | Log l m k => Log l m (bind k f)
  | Vis ev k => Vis ev (fun r => bind (k r) f)
  end.

(** [try { p } catch (e) { c e }] *)
Fixpoint try_catch {A : Type} (p : prog A) (c : exn -> prog A) : prog A :=
  match p with
  | Ret a => Ret a
  | Throw e => c e
  | Log l m k => Log l m (try_catch k c)
  | Vis ev k => Vis ev (fun r => try_catch (k r) c)
  end.

(** [try { p } finally { f }]: [f] runs on every way out of [p]; if [f]
    itself throws, that error replaces the outcome of [p]. *)
Fixpoint try_finally {A : Type} (p : prog A) (f : prog unit) : prog A :=
  match p with
  | Ret a => bind f (fun _ => Ret a)
  | Throw e => bind f (fun _ => Throw e)
  | Log l m k => Log l m (try_finally k f)
  | Vis ev k => Vis ev (fun r => try_finally (k r) f)
  end.

Definition call {T : Type} (ev : E T) : prog T := Vis ev (fun r => Ret r).

Definition await {T : Type} (ev : E (exn + T)) : prog T :=
  Vis ev (fun r => match r with inl e => Throw e | inr x => Ret x end).

Definition lift {T : Type} (r : exn + T) : prog T :=
  match r with inl e => Throw e | inr x => Ret x end.

Definition console_log (msg : string) : prog unit := Log Eff.LogInfo msg (Ret tt).
Definition console_error (msg : string) : prog unit := Log Eff.LogError msg (Ret tt).

Inductive entry : Type :=
| Console (l : Eff.level) (msg : string)
| Call (T : Type) (ev : E T) (answer : T).

Arguments Call {T} ev answer.

Definition handler (S : Type) : Type := forall T : Type, E T -> S -> T * S.

Fixpoint run {S A : Type} (h : handler S) (p : prog A) (s : S)
  : Eff.outcome A * list entry * S :=
  match p with
  | Ret a => (Eff.Returned a, [], s)
  | Throw e => (Eff.Thrown e, [], s)
  | Log l m k =>
      let '(o, tr, s') := run h k s in (o, Console l m :: tr, s')
  | Vis ev k =>
      let '(r, s1) := h _ ev s in
      let '(o, tr, s') := run h (k r) s1 in
      (o, Call ev r :: tr, s')
  end.

End Signature.

Arguments Ret {E A} a.
Arguments Throw {E A} e.
Arguments Log {E A} l msg k.
Arguments Vis {E A T} ev k.
Arguments bind {E A B} p f.
Arguments try_catch {E A} p c.
Arguments try_finally {E A} p f.
Arguments call {E T} ev.
Arguments await {E T} ev.
Arguments lift {E T} r.
Arguments console_log {E} msg.
Arguments console_error {E} msg.
Arguments Console {E} l msg.
Arguments Call {E T} ev answer.
Arguments run {E S A} h p s.

Definition result_of {E S A} (x : Eff.outcome A * list (entry E) * S) : Eff.outcome A :=
  fst (fst x).
Definition trace_of {E S A} (x : Eff.outcome A * list (entry E) * S) : list (entry E) :=
  snd (fst x).

Declare Scope io_scope.
Delimit Scope io_scope with io.
Notation "x <- p ;; k" := (bind p (fun x => k))
  (at level 61, p at next level, right associativity) : io_scope.
Notation "p ;; k" := (bind p (fun _ => k))
  (at level 61, right associativity) : io_scope.

End Io.

(* ===================================================================== *)
(** ** The AI utility module: the exported generation and health calls *)
(* ===================================================================== *)

Module AiApi.

Import Js Eff.
Local Open Scope prog_scope.

Section WithRuntime.
Context {B : Builtins} {E : ImportMetaEnv}.

(** What [checkHealth] returns. *)
Record Health : Type := {
  status_of : string;                 (* status *)
  health_message : string             (* message *)
}.

Definition checkHealth : prog Health :=
  try_catch
    (result <- Ai.generateWithFallback "Hello" ;;
     Ret {| status_of := "healthy"; health_message := "AI API is accessible" |})
    (fun error =>
       console_error "Health check failed:" ;;
       Ret {| status_of := "unhealthy"; health_message := "AI API is not accessible" |}).

(** What [testGeminiConnection] returns: [test_content] on success,
    [error_of] (the error's message, possibly undefined) on failure. *)
Record ConnectionTest : Type := {
  test_success : bool;                (* success *)
  test_content : option jsval;
  error_of : option string;           (* error *)
  test_message : string               (* message *)
}.

Definition testPrompt : string :=
  "Generate a simple test response with the word " ++ quoted "SUCCESS" ++ " in it.".

Definition testGeminiConnection : prog ConnectionTest :=
  console_log "=== AI CONNECTION TEST START ===" ;;
  console_log "Environment check:" ;;
  console_log "- VITE_GEMINI_API_KEY exists:" ;;
  console_log "- VITE_GROQ_API_KEY exists:" ;;
  try_catch
    (console_log "Testing AI content generation with fallback..." ;;
     text <- Ai.generateWithFallback testPrompt ;;
     console_log "Test text content:" ;;
     console_log "Test return object:" ;;
     console_log "=== AI CONNECTION TEST SUCCESS ===" ;;
     Ret {| test_success := true;
            test_content := Some text;
            error_of := None;
            test_message := "AI API test successful" |})
    (fun error =>
       console_error "=== AI CONNECTION TEST ERROR ===" ;;
       console_error "Error message:" ;;
       console_error "=== AI CONNECTION TEST ERROR END ===" ;;
       Ret {| test_success := false;
              test_content := None;
              error_of := ex_message error;
              test_message := "AI API test failed" |}).

(** A numeric parameter with a default: [None] is an omitted argument. *)
Definition or_number (x : option Num.number) (d : Z) : Num.number :=
  match x with
  | Some n => n
  | None => Num.of_Z d
  end.

Definition document_prompt (prompt : string) (maxMarks daysUntilDue : Num.number) : string :=
  let nl := Str.nl in
  "Generate an educational assignment based on the following requirements:" ++ nl ++ nl
  ++ "Topic/Subject: " ++ prompt ++ nl
  ++ "Maximum Marks: " ++ Number_toString maxMarks ++ nl
  ++ "Days Until Due: " ++ Number_toString daysUntilDue ++ nl ++ nl
  ++ "Please create a comprehensive assignment that includes:" ++ nl
  ++ "1. Clear instructions for students" ++ nl
  ++ "2. Specific questions or tasks" ++ nl
  ++ "3. Grading criteria" ++ nl
  ++ "4. Expected learning outcomes" ++ nl ++ nl
  ++ "Format the response as a well-structured assignment document.".

(** What [generateDocument] returns. *)
Record Document : Type := {
  document_success : bool;            (* success *)
  generated_content : jsval;
  max_marks : Num.number;
  days_until_due : Num.number;
  document_message : string           (* message *)
}.

Definition generateDocument (prompt : string) (maxMarks daysUntilDue : option Num.number)
  : prog Document :=
  let maxMarks := or_number maxMarks 100 in
  let daysUntilDue := or_number daysUntilDue 7 in
  console_log "=== generateDocument DEBUG START ===" ;;
  console_log "Input parameters:" ;;
  try_catch
    (console_log "Calling AI API with fallback..." ;;
     generatedContent <- Ai.generateWithFallback
                           (document_prompt prompt maxMarks daysUntilDue) ;;
     console_log "Generated content length:" ;;
     console_log "=== generateDocument DEBUG END ===" ;;
     Ret {| document_success := true;
            generated_content := generatedContent;
            max_marks := maxMarks;
            days_until_due := daysUntilDue;
            document_message := "Assignment generated successfully" |})
    (fun error =>
       console_error "=== generateDocument ERROR ===" ;;
       console_error "Error message:" ;;
       console_error "=== generateDocument ERROR END ===" ;;
       Throw (Error ("Failed to generate document: " ++ message_text error))).

Definition answers_prompt (assignmentContent : string) (maxMarks : Num.number) : string :=
  let nl := Str.nl in
  "Based on the following assignment, generate comprehensive model answers:" ++ nl ++ nl
  ++ "Assignment Content:" ++ nl
  ++ assignmentContent ++ nl ++ nl
  ++ "Maximum Marks: " ++ Number_toString maxMarks ++ nl ++ nl
  ++ "Please provide:" ++ nl
  ++ "1. Complete model answers for all questions/tasks" ++ nl
  ++ "2. Key points that should be covered" ++ nl
  ++ "3. Marking scheme breakdown" ++ nl
  ++ "4. Alternative acceptable answers where applicable" ++ nl ++ nl
  ++ "Format the response clearly with proper headings and structure.".

(** What [generateAnswers] returns. *)
Record Answers : Type := {
  answers_success : bool;             (* success *)
  generated_answers : jsval;
  answers_max_marks : Num.number;     (* max_marks *)
  answers_message : string            (* message *)
}.

Definition generateAnswers (assignmentContent : string) (maxMarks : option Num.number)
  : prog Answers :=
  let maxMarks := or_number maxMarks 100 in
  console_log "=== generateAnswers DEBUG START ===" ;;
  console_log "Input parameters:" ;;
  try_catch
    (console_log "Calling AI API with fallback for answers..." ;;
     generatedAnswers <- Ai.generateWithFallback (answers_prompt assignmentContent maxMarks) ;;
     console_log "Generated answers length:" ;;
     console_log "=== generateAnswers DEBUG END ===" ;;
     Ret {| answers_success := true;
            generated_answers := generatedAnswers;
            answers_max_marks := maxMarks;
            answers_message := "Model answers generated successfully" |})
    (fun error =>
       console_error "=== generateAnswers ERROR ===" ;;
       console_error "Error message:" ;;
       console_error "=== generateAnswers ERROR END ===" ;;
       Throw (Error ("Failed to generate answers: " ++ message_text error))).

End WithRuntime.

End AiApi.

(* ===================================================================== *)
(** ** Storage utilities: uploads, deletion, material validation *)
(* ===================================================================== *)

Module Upload.

Import Js Eff Io.
Local Open Scope io_scope.

Inductive Bucket : Type := submissions | materials | avatars.

(** The signed-in user, as far as the code reads it. *)
Record User : Type := { user_id : string }.

(** The options of [upload]. *)
Record UploadOptions : Type := { cacheControl : string; upsert : bool }.

(** The requests of the storage utilities. [Upload] resolves to an error
    object or to the stored path ([data.path]); [Remove] to an error object
    or to nothing. [RandomId] stands for
    [Math.random().toString(36).substring(2, 8)] and [DateNow] for
    [Date.now()]. [Progress] is a call of the caller's [onProgress]. *)
Inductive storageE : Type -> Type :=
| AuthGetUser : storageE (exn + option User)
| DateNow : storageE N
| RandomId : storageE string
| StorageUpload (bucket : Bucket) (path : string) (file : File) (options : UploadOptions)
  : storageE (exn + (exn + string))
| GetPublicUrl (bucket : Bucket) (path : string) : storageE string
| StorageRemove (bucket : Bucket) (paths : list string) : storageE (exn + option exn)
| Progress (fileIndex : nat) (loaded total : Z) (percentage : Z) : storageE (exn + unit).

Definition prog : Type -> Type := Io.prog storageE.

Record UploadResult : Type := {
  url : string;
  path : string;
  fileName : string;
  fileType : string;
  fileSize : Z
}.

(** The storage key of an upload: [{user}/[{folder}/]{timestamp}_{random}.{ext}];
    a folder that is absent or empty adds no segment. *)
Definition filePath_of (user : User) (folder : option string) (timestamp : N)
           (randomId fileExt : string) : string :=
  let fileName := Str.of_N timestamp ++ "_" ++ randomId ++ "." ++ fileExt in
  match Ai.present folder with
  | Some f => user_id user ++ "/" ++ f ++ "/" ++ fileName
  | None => user_id user ++ "/" ++ fileName
  end.

Definition uploadFile (file : File) (bucket : Bucket) (folder : option string)
  : prog UploadResult :=
  user <- Io.await AuthGetUser ;;
  match user with
  | None => Io.Throw (Error "Must be logged in to upload files")
  | Some user =>
      let fileExt := Str.split_pop "." (file_name file) in
      timestamp <- Io.call DateNow ;;
      randomId <- Io.call RandomId ;;
      let filePath := filePath_of user folder timestamp randomId fileExt in
      Io.console_log "Uploading to Supabase Storage:" ;;
      r <- Io.await (StorageUpload bucket filePath file
                                   {| cacheControl := "3600"; upsert := false |}) ;;
      match r with
      | inl error =>
          Io.console_error "Upload error:" ;;
          Io.Throw (Error ("Upload failed: " ++ message_text error))
      | inr stored =>
          publicUrl <- Io.call (GetPublicUrl bucket stored) ;;
          Io.Ret {| url := publicUrl;
                    path := stored;
                    fileName := file_name file;
                    fileType := file_type file;
                    fileSize := file_size file |}
      end
  end.

Definition uploadSubmission (file : File) (assignmentId : string) : prog UploadResult :=
  uploadFile file submissions (Some assignmentId).

Definition uploadMaterial (file : File) (classId : string) : prog UploadResult :=
  uploadFile file materials (Some classId).

Definition uploadAvatar (file : File) : prog UploadResult :=
  uploadFile file avatars None.

Definition deleteFile (bucket : Bucket) (path : string) : prog unit :=
  r <- Io.await (StorageRemove bucket [path]) ;;
  match r with
  | Some error =>
      Io.console_error "Delete error:" ;;
      Io.Throw (Error ("Delete failed: " ++ message_text error))
  | None => Io.Ret tt
  end.

Definition getFileUrl (bucket : Bucket) (path : string) : prog string :=
  Io.call (GetPublicUrl bucket path).

Definition materialExtensions : list string :=
  ["pdf"; "doc"; "docx"; "ppt"; "pptx"; "xls"; "xlsx"; "txt"; "png"; "jpg"; "jpeg";
   "gif"; "webp"; "avif"; "zip"].

Definition validateMaterialFile (file : File) : Storage.Validation :=
  if file_size file >? Storage.maxSize then
    {| Storage.valid := false; Storage.error := Some "File size exceeds 10MB limit" |}
  else
    let ext := Str.toLowerCase (Str.split_pop "." (file_name file)) in
    if String.eqb ext "" || negb (Str.array_includes materialExtensions ext) then
      {| Storage.valid := false;
         Storage.error := Some ("File type not supported. Allowed: "
                                ++ Json.join ", " materialExtensions) |}
    else {| Storage.valid := true; Storage.error := None |}.

(** [onProgress(i, ...)] when the callback is given. *)
Definition report (onProgress : bool) (i : nat) (loaded total percentage : Z) : prog unit :=
  if onProgress then Io.await (Progress i loaded total percentage) else Io.Ret tt.

(** The loop of [uploadMaterials] over the files from index [i] on, with
    the two arrays as they stand. *)
Fixpoint uploadMaterials_from (files : list File) (classId : string) (onProgress : bool)
         (i : nat) (results : list UploadResult) (errors : list string)
  : prog (list UploadResult * list string) :=
  match files with
  | [] => Io.Ret (results, errors)
  | file :: rest =>
      report onProgress i 0 (file_size file) 0 ;;
      (* the try block up to results.push *)
      r <- Io.try_catch (result <- uploadMaterial file classId ;; Io.Ret (inr result))
                        (fun error => Io.Ret (inl error)) ;;
      match r with
      | inr result =>
          (* the rest of the try block, and its catch *)
          errors' <- Io.try_catch
                       (report onProgress i (file_size file) (file_size file) 100 ;;
                        Io.Ret errors)
                       (fun error =>
                          Io.Ret (errors ++ [(file_name file ++ ": " ++ message_text error)%string])%list) ;;
          uploadMaterials_from rest classId onProgress (Datatypes.S i)
                               (results ++ [result])%list errors'
      | inl error =>
          uploadMaterials_from rest classId onProgress (Datatypes.S i) results
                               (errors ++ [(file_name file ++ ": " ++ message_text error)%string])%list
      end
  end.

Definition uploadMaterials (files : list File) (classId : string) (onProgress : bool)
  : prog (list UploadResult * list string) :=
  uploadMaterials_from files classId onProgress 0 [] [].

End Upload.

(* ===================================================================== *)
(** ** The ClassMeeting component: starting a meeting, and the new-tab view *)
(* ===================================================================== *)

(** Here the state setters are requests like the others, so that a handler
    reads like its source; [apply_sets] gives the state they leave. *)
Module MeetingActions.

Import Js Eff Io.
Local Open Scope io_scope.

(** The signed-in user of [useAuth]. *)
Record AuthUser : Type := { auth_id : string; auth_name : string }.

Inductive meetingE : Type -> Type :=
| GetActiveClassMeeting (classId : string)
  : meetingE (exn + (option Meeting * option exn))
| CreateClassMeeting (title host_id class_id : string)
  : meetingE (exn + (option Meeting * option exn))
| NotifyClassAboutMeeting (classId code title name : string) : meetingE (exn + unit)
| EndMeeting (meetingId : string) : meetingE (exn + unit)
| Toast (kind : toast_kind) (msg : string) : meetingE unit
| OnClose : meetingE unit
| WindowOpen (url target : string) : meetingE unit
| SetActiveMeeting (m : option Meeting) : meetingE unit
| SetIsLoading (b : bool) : meetingE unit
| SetIsStarting (b : bool) : meetingE unit
| SetShowMeeting (b : bool) : meetingE unit.

Definition prog : Type -> Type := Io.prog meetingE.

(** The state after the setter calls of a trace, in order. *)
Definition apply_set (st : ClassMeeting.State) (e : Io.entry meetingE) : ClassMeeting.State :=
  match e with
  | Io.Call (SetActiveMeeting m) _ => ClassMeeting.setActiveMeeting m st
  | Io.Call (SetIsLoading b) _ => ClassMeeting.setIsLoading b st
  | Io.Call (SetShowMeeting b) _ => ClassMeeting.setShowMeeting b st
  | Io.Call (SetIsStarting b) _ =>
      ClassMeeting.mkState (ClassMeeting.activeMeeting st) (ClassMeeting.isLoading st) b
                           (ClassMeeting.showMeeting st)
  | _ => st
  end.

Definition apply_sets (tr : list (Io.entry meetingE)) (st : ClassMeeting.State)
  : ClassMeeting.State :=
  fold_left apply_set tr st.

(** [onClose?.()] *)
Definition call_onClose (props : ClassMeeting.Props) : prog unit :=
  if ClassMeeting.onClose props then Io.call OnClose else Io.Ret tt.

(** [data.code] and [data.title] of the created meeting: a TypeError when
    [data] is null. *)
Definition created (data : option Meeting) : exn + Meeting :=
  match data with
  | Some m => inr m
  | None => inl (TypeError_read "null" "code")
  end.

(** *** The embedded view *)

(** The poll of the embedded view, with a request that may also reject. *)
Definition checkActiveMeeting (props : ClassMeeting.Props) : prog unit :=
  Io.call (SetIsLoading true) ;;
  r <- Io.await (GetActiveClassMeeting (ClassMeeting.classId props)) ;;
  match r with
  | (Some data, None) => Io.call (SetActiveMeeting (Some data))
  | _ => Io.Ret tt
  end ;;
  Io.call (SetIsLoading false).

Definition handleStartMeeting (props : ClassMeeting.Props) (user : option AuthUser)
  : prog unit :=
  match user with
  | None => Io.Ret tt
  | Some user =>
      Io.call (SetIsStarting true) ;;
      Io.try_finally
        (Io.try_catch
           (r <- Io.await (CreateClassMeeting
                             (ClassMeeting.className props ++ " - Live Class")
                             (auth_id user) (ClassMeeting.classId props)) ;;
            match snd r with
            | Some error => Io.call (Toast ToastError "Failed to start meeting")
            | None =>
                Io.call (SetActiveMeeting (fst r)) ;;
                Io.call (SetShowMeeting true) ;;
                (* Notify class members *)
                m <- Io.lift (created (fst r)) ;;
                Io.await (NotifyClassAboutMeeting (ClassMeeting.classId props)
                                                  (meeting_code m) (meeting_title m)
                                                  (auth_name user)) ;;
                Io.call (Toast ToastSuccess "Meeting started! Students have been notified.")
            end)
           (fun err => Io.call (Toast ToastError "Failed to start meeting")))
        (Io.call (SetIsStarting false))
  end.

(** *** The new-tab view *)

Section WithEnv.
Context {E : ImportMetaEnv}.

Definition INTELLIMEET_URL : string := env_or VITE_INTELLIMEET_URL "http://localhost:8080".

Definition openMeetingInNewTab (meeting : Meeting) (isHost : bool) : prog unit :=
  Io.call (WindowOpen (INTELLIMEET_URL ++ "/meeting/" ++ meeting_code meeting) "_blank").

Definition tab_checkActiveMeeting (props : ClassMeeting.Props) : prog unit :=
  Io.call (SetIsLoading true) ;;
  r <- Io.await (GetActiveClassMeeting (ClassMeeting.classId props)) ;;
  match r with
  | (Some data, None) => Io.call (SetActiveMeeting (Some data))
  | _ => Io.call (SetActiveMeeting None)
  end ;;
  Io.call (SetIsLoading false).


Definition tab_handleJoinMeeting (user : option AuthUser) (st : ClassMeeting.State)
  : prog unit :=
  match ClassMeeting.activeMeeting st, user with
  | Some m, Some u => openMeetingInNewTab m (String.eqb (auth_id u) (meeting_host_id m))
  | _, _ => Io.Ret tt
  end.

Definition tab_handleEndMeeting (props : ClassMeeting.Props) (st : ClassMeeting.State)
  : prog unit :=
  match ClassMeeting.activeMeeting st with
  | None => Io.Ret tt
  | Some m =>
      Io.try_catch
        (Io.await (EndMeeting (meeting_id m)) ;;
         Io.call (SetActiveMeeting None) ;;
         Io.call (Toast ToastSuccess "Meeting ended") ;;
         call_onClose props)
        (fun err => Io.call (Toast ToastError "Failed to end meeting"))
  end.

End WithEnv.

(** What the new-tab view renders first: the spinner only while loading
    with no meeting known. *)
Definition tab_shows_spinner (st : ClassMeeting.State) : bool :=
  ClassMeeting.isLoading st
  && match ClassMeeting.activeMeeting st with Some _ => false | None => true end.

End MeetingActions.

(* ===================================================================== *)
(** ** Observations on runs and the wording of the specification *)
(* ===================================================================== *)

Import Js Eff.
Local Open Scope prog_scope.

(** What one attempt at Provider A comes to: the request may fail, and so
    may reading the text of its response. *)
Definition gemini_outcome (r : exn + GenerateContentResult) : exn + string :=
  match r with
  | inl e => inl e
  | inr result => response_text result
  end.

(** The console line with which [callGroqAPI] starts. *)
Definition groq_started : entry := Console LogInfo "Falling back to Groq API...".

Definition is_groq_started (e : entry) : bool :=
  match e with
  | Console LogInfo msg => String.eqb msg "Falling back to Groq API..."
  | _ => false
  end.

(** The values of those of [keys] that [v] has, in the order of [keys]. *)
Definition present_values (v : jsval) (keys : list string) : list jsval :=
  flat_map (fun k => match get_own v k with Some x => [x] | None => [] end) keys.

(** The first of the listed fields whose value is truthy, else [d]. *)
Definition first_truthy (v : jsval) (keys : list string) (d : jsval) : jsval :=
  match find truthy (present_values v keys) with
  | Some x => x
  | None => d
  end.

(** The first of the listed fields that is present, else [d]. *)
Definition first_present (v : jsval) (keys : list string) (d : jsval) : jsval :=
  match present_values v keys with
  | x :: _ => x
  | [] => d
  end.

Definition grade_fields : list string := ["grade"; "marks"; "final_marks"; "score"].
Definition feedback_fields : list string := ["feedback"; "review"; "comments"].

(** The result read from a parsed answer [v] that is not null, with the
    number [g] that its grade converts to. *)
Definition graded_with (g : Num.number) (v : jsval) : Ai.GradingResult :=
  let f := first_truthy v feedback_fields (JStr "No feedback provided") in
  {| Ai.graded := true;
     Ai.grade := g;
     Ai.feedback := f;
     Ai.strengths := Some (first_truthy v ["strengths"] (JStr ""));
     Ai.improvements :=
       Some (first_truthy v ["improvements"; "areas_for_improvement"] (JStr ""));
     Ai.final_marks := g;
     Ai.review := f;
     Ai.graded_message := "Submission graded successfully" |}.

(** The value that [Number] is applied to: the first truthy of the grade
    fields of [v], else 0. *)
Definition grade_value (v : jsval) : jsval := first_truthy v grade_fields (JNum Num.zero).

(** The result of [gradeSubmission] for the provider's answer [raw] and a
    parsed answer [v] that is not null: read from [v] when its grade
    converts to a number, the text format when the conversion throws. *)
Definition graded_from (B : Builtins) (v raw : jsval) : Ai.GradingResult :=
  match Conv.Number (grade_value v) with
  | inr g => graded_with g v
  | inl _ => Ai.text_format raw
  end.

(** The values that convert without an error whatever they hold: all but
    arrays and objects. *)
Definition primitive (v : jsval) : bool :=
  match v with
  | JArr _ | JObj _ => false
  | _ => true
  end.

Definition settled {T : Type} (r : exn + T) : bool :=
  match r with
  | inl _ => false
  | inr _ => true
  end.

(** Whether the environment answered a request without an error. *)
Definition answer_ok {T : Type} (ev : eventE T) : T -> bool :=
  match ev in eventE T return T -> bool with
  | GenerateContent _ => settled
  | Fetch _ _ => settled
  | Import _ => settled
  | SetWorkerSrc => fun _ => true
  | FileArrayBuffer _ => settled
  | GetDocument _ => settled
  | GetPage _ _ => settled
  | RenderPage _ _ => settled
  | CanvasToBlob _ => fun _ => true
  | Recognize _ _ => settled
  | GetActiveClassMeeting _ => fun a => match snd a with None => true | Some _ => false end
  | EndMeeting _ => settled
  | Toast _ _ => fun _ => true
  | OnClose => fun _ => true
  end.

Definition entry_ok (e : entry) : bool :=
  match e with
  | Console _ _ => true
  | Call ev a => answer_ok ev a
  end.

(** Whether a run asks nothing more once the environment has answered a
    request with an error: past the first such entry only console lines
    follow. *)
Fixpoint quiet_after_failure (tr : list entry) : bool :=
  match tr with
  | [] => true
  | e :: rest => if entry_ok e then quiet_after_failure rest else forallb is_Console rest
  end.

(** The page numbers asked of [getPage], in order. *)
Definition pages_requested (tr : list entry) : list nat :=
  flat_map (fun e => match e with
                     | Call (GetPage _ pageNum) _ => [pageNum]
                     | _ => []
                     end) tr.

(** The texts that recognition returned, in order. *)
Definition recognized (tr : list entry) : list string :=
  flat_map (fun e => match e with
                     | Call ev a =>
                         match ev in eventE T return T -> list string with
                         | Recognize _ _ =>
                             fun a => match a with inr d => [text d] | inl _ => [] end
                         | _ => fun _ => []
                         end a
                     | Console _ _ => []
                     end) tr.

(** The documents that [getDocument] opened. *)
Definition opened (tr : list entry) : list PDFDocument :=
  flat_map (fun e => match e with
                     | Call ev a =>
                         match ev in eventE T return T -> list PDFDocument with
                         | GetDocument _ =>
                             fun a => match a with inr d => [d] | inl _ => [] end
                         | _ => fun _ => []
                         end a
                     | Console _ _ => []
                     end) tr.





(* ===================================================================== *)
(** ** Sample inputs *)
(* ===================================================================== *)

Definition fenced_answer : string :=
  "```json" ++ Str.nl
  ++ "{" ++ quoted "grade" ++ ":85," ++ quoted "feedback" ++ ":" ++ quoted "Good" ++ "}"
  ++ Str.nl ++ "```".

Definition zero_grade_answer : string :=
  "{" ++ quoted "grade" ++ ":0," ++ quoted "marks" ++ ":50}".

(** An answer whose grade is an object with an own [toString] property,
    which [Number] cannot convert. *)
Definition unconvertible_answer : string :=
  "{" ++ quoted "grade" ++ ":{" ++ quoted "toString" ++ ":1},"
  ++ quoted "feedback" ++ ":" ++ quoted "ok" ++ "}".

(** The result of [gradeSubmission] when Provider A answers [answer]. *)
Definition graded_answer (answer : string) : outcome Ai.GradingResult :=
  result_of (run (World.handle_with (World.gemini_answers answer))
                 (Ai.gradeSubmission (B := reference_builtins) (E := World.no_env)
                                     "auto" (Some "2 + 2 = 4") None None None) 0%nat).

Definition returned {A : Type} (o : outcome A) : option A :=
  match o with
  | Returned a => Some a
  | Thrown _ => None
  end.

(** The claim of C4 on the grade, as the specification words it: the grade
    is the number of the first PRESENT of the four fields, 0 when none is
    present. *)
Definition grade_of_first_present (v : jsval) : exn + Num.number :=
  Conv.Number (B := reference_builtins) (first_present v grade_fields (JNum Num.zero)).

Definition notes_txt : File := mkFile "notes.txt" "text/plain" 1200.
Definition homework_pdf : File := mkFile "homework.pdf" "application/pdf" 48000.
Definition photo_png : File := mkFile "photo.png" "image/png" (10 * 1024 * 1024).
Definition poster_png : File := mkFile "poster.png" "image/png" (10 * 1024 * 1024 + 1).

Definition three_pages : list string :=
  ["  Hello  "; "   " ++ Str.nl; "World" ++ Str.nl].

Definition teacher_view : ClassMeeting.Props := {|
  ClassMeeting.classId := "class-7";
  ClassMeeting.className := "Physics 101";
  ClassMeeting.isTeacher := true;
  ClassMeeting.onClose := true
|}.

Definition in_meeting : ClassMeeting.State :=
  ClassMeeting.mkState (Some World.live_class) false false true.

Definition meeting_ended : option jsval := Some (JObj [("type", JStr "MEETING_ENDED")]).

(** Provider A fails and Provider B answers with the given [content],
    which need not be a string. *)
Definition groq_gives (content : Js.jsval) : World.World := {|
  World.gemini := fun _ => inl (Js.Error "fetch failed");
  World.groq := fun _ _ =>
    inr {| Eff.ok := true;
           Eff.status := 200;
           Eff.statusText := "OK";
           Eff.json := inr (Js.JObj [("choices",
                              Js.JArr [Js.JObj [("message",
                                         Js.JObj [("content", content)])]])]) |};
  World.import := World.import World.offline;
  World.arrayBuffer := World.arrayBuffer World.offline;
  World.getDocument := World.getDocument World.offline;
  World.getPage := World.getPage World.offline;
  World.renderPage := World.renderPage World.offline;
  World.recognize := World.recognize World.offline;
  World.activeMeetingOf := World.activeMeetingOf World.offline;
  World.endMeeting := World.endMeeting World.offline
|}.

Definition out_of_range_answer : string := "{" ++ quoted "grade" ++ ":-250}".

(** The OCR services work as in [World.scanned], but the second page of a
    document does not render. *)
Definition second_page_torn : World.World := {|
  World.gemini := World.gemini World.offline;
  World.groq := World.groq World.offline;
  World.import := World.import (World.scanned three_pages);
  World.arrayBuffer := World.arrayBuffer (World.scanned three_pages);
  World.getDocument := World.getDocument (World.scanned three_pages);
  World.getPage := World.getPage (World.scanned three_pages);
  World.renderPage := fun page =>
    if N.eqb page 2 then inl (Js.Error "Rendering cancelled") else inr page;
  World.recognize := World.recognize (World.scanned three_pages);
  World.activeMeetingOf := World.activeMeetingOf World.offline;
  World.endMeeting := World.endMeeting World.offline
|}.

(** *** Observations on the storage requests *)


Definition is_GetPublicUrl (e : Io.entry Upload.storageE) : bool :=
  match e with
  | Io.Call (Upload.GetPublicUrl _ _) _ => true
  | _ => false
  end.

(** The uploads asked of the storage backend: bucket, key and options. *)
Definition upload_requests (tr : list (Io.entry Upload.storageE))
  : list (Upload.Bucket * string * Upload.UploadOptions) :=
  flat_map (fun e => match e with
                     | Io.Call (Upload.StorageUpload bucket key _ options) _ =>
                         [(bucket, key, options)]
                     | _ => []
                     end) tr.

(** A storage backend given by one answer per kind of request. *)
Record StorageWorld : Type := {
  signed_in : exn + option Upload.User;
  clock : N;
  random_id : string;
  store : Upload.Bucket -> string -> File -> exn + (exn + string);
  public_url : Upload.Bucket -> string -> string;
  remove : Upload.Bucket -> list string -> exn + option exn
}.

Definition storage_answer (w : StorageWorld) {T : Type} (ev : Upload.storageE T) : T :=
  match ev in Upload.storageE T return T with
  | Upload.AuthGetUser => signed_in w
  | Upload.DateNow => clock w
  | Upload.RandomId => random_id w
  | Upload.StorageUpload bucket key file _ => store w bucket key file
  | Upload.GetPublicUrl bucket key => public_url w bucket key
  | Upload.StorageRemove bucket keys => remove w bucket keys
  | Upload.Progress _ _ _ _ => inr tt
  end.

Definition storage_handler (w : StorageWorld) : Io.handler Upload.storageE nat :=
  fun T ev n => (storage_answer w ev, Datatypes.S n).

(** Signed in as u-42; the backend stores every file but those named
    [broken.pdf]. *)
Definition bucket_world : StorageWorld := {|
  signed_in := inr (Some {| Upload.user_id := "u-42" |});
  clock := 1700000000000%N;
  random_id := "k3x9qz";
  store := fun _ key file =>
             if String.eqb (file_name file) "broken.pdf"
             then inr (inl (Error "Payload too large"))
             else inr (inr key);
  public_url := fun _ key => "https://storage.example/" ++ key;
  remove := fun _ _ => inr None
|}.

Definition signed_out_world : StorageWorld := {|
  signed_in := inr None;
  clock := clock bucket_world;
  random_id := random_id bucket_world;
  store := store bucket_world;
  public_url := public_url bucket_world;
  remove := remove bucket_world
|}.

(** *** Observations on the meeting requests *)

Definition is_Notify (e : Io.entry MeetingActions.meetingE) : bool :=
  match e with
  | Io.Call (MeetingActions.NotifyClassAboutMeeting _ _ _ _) _ => true
  | _ => false
  end.

(** The toasts shown, in order. *)
Definition toasts (tr : list (Io.entry MeetingActions.meetingE))
  : list (Eff.toast_kind * string) :=
  flat_map (fun e => match e with
                     | Io.Call (MeetingActions.Toast kind msg) _ => [(kind, msg)]
                     | _ => []
                     end) tr.

(** A meeting backend given by one answer per kind of request. *)
Record MeetingWorld : Type := {
  active : Js.exn + (option Eff.Meeting * option Js.exn);
  create : Js.exn + (option Eff.Meeting * option Js.exn);
  notify : Js.exn + unit;
  end_meeting : Js.exn + unit
}.

Definition meeting_answer (w : MeetingWorld) {T : Type} (ev : MeetingActions.meetingE T) : T :=
  match ev in MeetingActions.meetingE T return T with
  | MeetingActions.GetActiveClassMeeting _ => active w
  | MeetingActions.CreateClassMeeting _ _ _ => create w
  | MeetingActions.NotifyClassAboutMeeting _ _ _ _ => notify w
  | MeetingActions.EndMeeting _ => end_meeting w
  | MeetingActions.Toast _ _ => tt
  | MeetingActions.OnClose => tt
  | MeetingActions.WindowOpen _ _ => tt
  | MeetingActions.SetActiveMeeting _ => tt
  | MeetingActions.SetIsLoading _ => tt
  | MeetingActions.SetIsStarting _ => tt
  | MeetingActions.SetShowMeeting _ => tt
  end.

Definition meeting_handler (w : MeetingWorld) : Io.handler MeetingActions.meetingE nat :=
  fun T ev n => (meeting_answer w ev, Datatypes.S n).

(** The backend creates [World.live_class] but cannot notify the class. *)
Definition notify_down : MeetingWorld := {|
  active := inr (None, None);
  create := inr (Some World.live_class, None);
  notify := inl (Js.Error "notification service unavailable");
  end_meeting := inr tt
|}.

(** The backend refuses to create a meeting. *)
Definition create_refused : MeetingWorld := {|
  active := inr (Some World.live_class, None);
  create := inr (None, Some (Js.Error "permission denied"));
  notify := inr tt;
  end_meeting := inl (Js.Error "permission denied")
|}.

Definition teacher : MeetingActions.AuthUser :=
  {| MeetingActions.auth_id := "teacher-1"; MeetingActions.auth_name := "Ms. Noor" |}.

Definition idle : ClassMeeting.State := ClassMeeting.mkState None false false false.

(* ===================================================================== *)
(** * Properties *)
(* ===================================================================== *)

(** ** Runs of composed programs *)

Section RunLemmas.
Context {S : Type} (h : handler S).

Lemma run_bind {A B : Type} (p : prog A) (f : A -> prog B) (s : S) :
  run h (bind p f) s =
  match run h p s with
  | (Returned a, tr, s1) =>
      let '(o, tr', s2) := run h (f a) s1 in (o, (tr ++ tr')%list, s2)
  | (Thrown e, tr, s1) => (Thrown e, tr, s1)
  end.
Proof.
  revert s. induction p as [a | e | l m k IH | T ev k IH]; intros s; simpl.
  - destruct (run h (f a) s) as [[o tr] s2]. reflexivity.
  - reflexivity.
  - rewrite IH. destruct (run h k s) as [[[a | e] tr] s1]; simpl.
    + destruct (run h (f a) s1) as [[o tr'] s2]. reflexivity.
    + reflexivity.
  - destruct (h _ ev s) as [r s1]. rewrite IH.
    destruct (run h (k r) s1) as [[[a | e] tr] s2]; simpl.
    + destruct (run h (f a) s2) as [[o tr'] s3]. reflexivity.
    + reflexivity.
Qed.

Lemma run_try_catch {A : Type} (p : prog A) (c : exn -> prog A) (s : S) :
  run h (try_catch p c) s =
  match run h p s with
  | (Returned a, tr, s1) => (Returned a, tr, s1)
  | (Thrown e, tr, s1) =>
      let '(o, tr', s2) := run h (c e) s1 in (o, (tr ++ tr')%list, s2)
  end.
Proof.
  revert s. induction p as [a | e | l m k IH | T ev k IH]; intros s; simpl.
  - reflexivity.
  - destruct (run h (c e) s) as [[o tr] s2]. reflexivity.
  - rewrite IH. destruct (run h k s) as [[[a | e] tr] s1]; simpl.
    + reflexivity.
    + destruct (run h (c e) s1) as [[o tr'] s2]. reflexivity.
  - destruct (h _ ev s) as [r s1]. rewrite IH.
    destruct (run h (k r) s1) as [[[a | e] tr] s2]; simpl.
    + reflexivity.
    + destruct (run h (c e) s2) as [[o tr'] s3]. reflexivity.
Qed.

End RunLemmas.

Lemma count_app (f : entry -> bool) (a b : list entry) :
  count f (a ++ b) = (count f a + count f b)%nat.
Proof. unfold count. rewrite filter_app, length_app. reflexivity. Qed.

(** ** Substrings *)

Lemma prefix_app (p s : string) : String.prefix p (p ++ s) = true.
Proof.
  induction p as [| c p IH]; simpl.
  - destruct s; reflexivity.
  - destruct (ascii_dec c c) as [_ | n]; [exact IH | contradiction n; reflexivity].
Qed.

Lemma includes_unfold (s p : string) :
  Str.includes s p =
  String.prefix p s
  || match s with
     | String _ s' => Str.includes s' p
     | EmptyString => false
     end.
Proof. destruct s; reflexivity. Qed.

Lemma includes_here (p s : string) : Str.includes (p ++ s) p = true.
Proof. rewrite includes_unfold, prefix_app. reflexivity. Qed.

Lemma includes_app_r (a s p : string) :
  Str.includes s p = true -> Str.includes (a ++ s) p = true.
Proof.
  intros H. induction a as [| c a IH].
  - exact H.
  - change (String c a ++ s) with (String c (a ++ s)).
    rewrite includes_unfold, IH. apply orb_true_r.
Qed.

Lemma prefix_refl (p : string) : String.prefix p p = true.
Proof.
  induction p as [| c p IH]; simpl.
  - reflexivity.
  - destruct (ascii_dec c c) as [_ | n]; [exact IH | contradiction n; reflexivity].
Qed.

Lemma includes_refl (p : string) : Str.includes p p = true.
Proof. rewrite includes_unfold, prefix_refl. reflexivity. Qed.

Lemma includes_middle (a p b : string) : Str.includes (a ++ p ++ b) p = true.
Proof. apply includes_app_r, includes_here. Qed.

(** ** The fallback orchestrator *)

Section Fallback.
Context {B : Builtins} {E : ImportMetaEnv}.
Context {S : Type} (h : handler S).

Lemma run_generateWithFallback_success (prompt : string) (s s1 : S)
      (rA : exn + GenerateContentResult) (text : string) :
  h _ (GenerateContent prompt) s = (rA, s1) ->
  gemini_outcome rA = inr text ->
  run h (Ai.generateWithFallback prompt) s =
  (Returned (JStr text),
   [Console LogInfo "Attempting Gemini API..."; Call (GenerateContent prompt) rA;
    Console LogInfo "Gemini API succeeded"], s1).
Proof.
  intros Hh Hok. unfold Ai.generateWithFallback, Ai.tryGemini. cbn.
  rewrite Hh. destruct rA as [e | res]; cbn in Hok; [discriminate |].
  cbn. rewrite Hok. reflexivity.
Qed.

(** [callGroqAPI] writes its console line, sends one request and asks the
    environment nothing else. *)
Lemma trace_callGroqAPI (prompt : string) (s : S) :
  trace_of (run h (Ai.callGroqAPI prompt) s) =
  [groq_started;
   Call (Fetch Ai.GROQ_API_URL (Ai.groq_request prompt))
        (fst (h _ (Fetch Ai.GROQ_API_URL (Ai.groq_request prompt)) s))].
Proof.
  unfold Ai.callGroqAPI, trace_of. cbn.
  destruct (h _ (Fetch Ai.GROQ_API_URL (Ai.groq_request prompt)) s) as [[e | resp] s1]; cbn.
  - reflexivity.
  - destruct (ok resp); cbn.
    + destruct (json resp) as [e | data]; cbn; [reflexivity |].
      destruct (Ai.groq_content data); reflexivity.
    + destruct (Ai.groq_error_detail _ resp); reflexivity.
Qed.

(** The run of [generateWithFallback] when the attempt at Provider A fails
    with [eA], from the run of [callGroqAPI] that follows it. *)
Lemma run_generateWithFallback_failure (prompt : string) (s s1 : S)
      (rA : exn + GenerateContentResult) (eA : exn) :
  h _ (GenerateContent prompt) s = (rA, s1) ->
  gemini_outcome rA = inl eA ->
  run h (Ai.generateWithFallback prompt) s =
  let '(oB, trB, s2) := run h (Ai.callGroqAPI prompt) s1 in
  let pre := [Console LogInfo "Attempting Gemini API..."; Call (GenerateContent prompt) rA;
              Console LogWarn "Gemini API failed:"] in
  if Ai.isQuotaError eA then
    let pre := (pre ++ [Console LogInfo
      "Quota/rate limit exceeded or model unavailable, falling back to Groq..."])%list in
    match oB with
    | Returned v =>
        (Returned v, (pre ++ trB ++ [Console LogInfo "Groq API succeeded"])%list, s2)
    | Thrown eB =>
        (Thrown (Error ("Both AI providers failed. Gemini: " ++ message_text eA
                        ++ ", Groq: " ++ message_text eB)),
         (pre ++ trB ++ [Console LogError "Groq API also failed:"])%list, s2)
    end
  else
    match oB with
    | Returned v =>
        (Returned v, (pre ++ trB ++ [Console LogInfo "Groq API succeeded (fallback)"])%list, s2)
    | Thrown eB => (Thrown eA, (pre ++ trB)%list, s2)
    end.
Proof.
  intros Hh Hfail. unfold Ai.generateWithFallback.
  rewrite run_try_catch.
  assert (Htry : run h (Ai.tryGemini prompt) s =
                 (Thrown eA, [Console LogInfo "Attempting Gemini API...";
                              Call (GenerateContent prompt) rA], s1)).
  { unfold Ai.tryGemini. cbn. rewrite Hh.
    destruct rA as [e | res]; cbn in Hfail; cbn.
    - congruence.
    - rewrite Hfail. reflexivity. }
  rewrite Htry. rewrite run_bind. cbn [run console_warn].
  destruct (Ai.isQuotaError eA).
  - rewrite run_bind. cbn [run console_log]. rewrite run_try_catch, run_bind.
    destruct (run h (Ai.callGroqAPI prompt) s1) as [[[v | eB] trB] s2]; cbn.
    + reflexivity.
    + reflexivity.
  - rewrite run_try_catch, run_bind.
    destruct (run h (Ai.callGroqAPI prompt) s1) as [[[v | eB] trB] s2]; cbn;
      rewrite ?app_nil_r; reflexivity.
Qed.

(** C2. When Provider A succeeds, [generateWithFallback] returns exactly the
    text Provider A produced and Provider B is not invoked: [callGroqAPI] is
    not entered and no request is sent to Groq; Provider A is asked once. *)
Theorem gemini_success_is_returned_unmodified
        (prompt : string) (s s1 : S) (rA : exn + GenerateContentResult) (text : string) :
  h _ (GenerateContent prompt) s = (rA, s1) ->
  gemini_outcome rA = inr text ->
  let r := run h (Ai.generateWithFallback prompt) s in
  result_of r = Returned (JStr text)
  /\ count is_Fetch (trace_of r) = 0%nat
  /\ ~ In groq_started (trace_of r)
  /\ count is_GenerateContent (trace_of r) = 1%nat.
Proof.
  intros Hh Hok r. subst r.
  rewrite (run_generateWithFallback_success prompt s s1 rA text Hh Hok).
  unfold result_of, trace_of. cbn. repeat split.
  intros [H | [H | [H | []]]]; discriminate H.
Qed.

(** C3. When the attempt at Provider A fails, whatever the class of its
    error, [generateWithFallback] invokes Provider B exactly once, and the
    value Provider B returns is the result; and in every call each provider
    is attempted at most once (Provider A exactly once). *)
Theorem gemini_failure_invokes_groq_once (prompt : string) (s : S) :
  let r := run h (Ai.generateWithFallback prompt) s in
  (count is_GenerateContent (trace_of r) = 1%nat
   /\ (count is_Fetch (trace_of r) <= 1)%nat
   /\ (count is_groq_started (trace_of r) <= 1)%nat)
  /\ forall (rA : exn + GenerateContentResult) (s1 : S) (eA : exn),
       h _ (GenerateContent prompt) s = (rA, s1) ->
       gemini_outcome rA = inl eA ->
       count is_Fetch (trace_of r) = 1%nat
       /\ count is_groq_started (trace_of r) = 1%nat
       /\ forall (v : jsval) (trB : list entry) (s2 : S),
            run h (Ai.callGroqAPI prompt) s1 = (Returned v, trB, s2) ->
            result_of r = Returned v.
Proof.
  intros r.
  assert (Hfail : forall rA s1 eA,
             h _ (GenerateContent prompt) s = (rA, s1) ->
             gemini_outcome rA = inl eA ->
             count is_GenerateContent (trace_of r) = 1%nat
             /\ count is_Fetch (trace_of r) = 1%nat
             /\ count is_groq_started (trace_of r) = 1%nat
             /\ forall v trB s2,
                  run h (Ai.callGroqAPI prompt) s1 = (Returned v, trB, s2) ->
                  result_of r = Returned v).
  { intros rA s1 eA Hh HeA. subst r.
    rewrite (run_generateWithFallback_failure prompt s s1 rA eA Hh HeA).
    pose proof (trace_callGroqAPI prompt s1) as HtrB.
    destruct (run h (Ai.callGroqAPI prompt) s1) as [[oB trB] s2] eqn:HB.
    unfold trace_of in HtrB. cbn in HtrB. subst trB.
    destruct (Ai.isQuotaError eA), oB as [v | eB];
      unfold result_of, trace_of; cbn; repeat split; intros ? ? ? Heq;
      congruence. }
  destruct (h _ (GenerateContent prompt) s) as [rA s1] eqn:Hh.
  destruct (gemini_outcome rA) as [eA | text] eqn:HA.
  - destruct (Hfail rA s1 eA eq_refl HA) as (HG & HF & HS & Hret).
    split; [rewrite HF, HS; auto |].
    intros rA' s1' eA' Heq HA'. inversion Heq; subst rA' s1'.
    assert (eA' = eA) by congruence. subst eA'. auto.
  - split.
    + subst r. rewrite (run_generateWithFallback_success prompt s s1 rA text Hh HA).
      unfold trace_of. cbn. auto.
    + intros rA' s1' eA' Heq HA'. inversion Heq; subst rA' s1'. congruence.
Qed.

(** C1. When both providers fail: if Provider A's error is of the quota
    class, the surfaced error is a new [Error] whose message contains both
    providers' messages; otherwise the surfaced error is Provider A's own
    error, whatever Provider B's error was. *)
Theorem both_fail_error_surfaced
        (prompt : string) (s s1 s2 : S) (rA : exn + GenerateContentResult)
        (eA eB : exn) (trB : list entry) :
  h _ (GenerateContent prompt) s = (rA, s1) ->
  gemini_outcome rA = inl eA ->
  run h (Ai.callGroqAPI prompt) s1 = (Thrown eB, trB, s2) ->
  let r := run h (Ai.generateWithFallback prompt) s in
  (Ai.isQuotaError eA = true ->
   exists mA msg,
     ex_message eA = Some mA
     /\ result_of r = Thrown (Error msg)
     /\ msg = "Both AI providers failed. Gemini: " ++ mA ++ ", Groq: " ++ message_text eB
     /\ Str.includes msg mA = true
     /\ Str.includes msg (message_text eB) = true)
  /\ (Ai.isQuotaError eA = false -> result_of r = Thrown eA).
Proof.
  intros Hh HeA HB r. subst r.
  rewrite (run_generateWithFallback_failure prompt s s1 rA eA Hh HeA), HB.
  split; intros Hq; rewrite Hq; unfold result_of; cbn; [| reflexivity].
  destruct eA as [nA [mA |]]; [| discriminate Hq].
  exists mA, ("Both AI providers failed. Gemini: " ++ mA ++ ", Groq: " ++ message_text eB).
  cbn. repeat split.
  - apply (includes_middle "Both AI providers failed. Gemini: " mA).
  - apply (includes_app_r "Both AI providers failed. Gemini: ").
    apply includes_app_r. apply (includes_app_r ", Groq: "). apply includes_refl.
Qed.

End Fallback.

(** ** Grading: from the provider's answer to the result *)

Lemma or_chain_first_truthy (v : jsval) (keys : list string) (d : jsval) :
  v <> JNull -> Ai.or_chain v keys d = inr (first_truthy v keys d).
Proof.
  intros Hv. unfold first_truthy, present_values.
  induction keys as [| k keys IH]; [reflexivity |].
  cbn [Ai.or_chain flat_map].
  assert (Hget : get (Some v) k = inr (get_own v k)) by (destruct v; [contradiction Hv; reflexivity | reflexivity ..]).
  rewrite Hget. destruct (get_own v k) as [x |]; cbn [app find].
  - destruct (truthy x); [reflexivity | exact IH].
  - exact IH.
Qed.

Lemma classic_null (v : jsval) : v = JNull \/ v <> JNull.
Proof. destruct v; [left; reflexivity | right; discriminate ..]. Qed.

Lemma or_chain_null (k : string) (keys : list string) (d : jsval) :
  Ai.or_chain JNull (k :: keys) d = inl (TypeError_read "null" k).
Proof. reflexivity. Qed.

Section Grading.
Context {B : Builtins} {S : Type} (h : handler S).

(** The inner [try]/[catch] never throws, asks the environment nothing, and
    its result is decided by what [JSON.parse] makes of the cleaned text
    and by the conversion of the grade. *)
Lemma run_parseGradingResult (text : string) (s : S) :
  exists tr,
    run h (Ai.parseGradingResult (JStr text)) s =
    (Returned match JSON_parse (Ai.strip_fences (Str.trim text)) with
              | None | Some JNull => Ai.text_format (JStr text)
              | Some v => graded_from B v (JStr text)
              end, tr, s)
    /\ forallb is_Console tr = true.
Proof.
  unfold Ai.parseGradingResult, Ai.parse_or_throw. cbn -[Ai.or_chain Conv.Number].
  destruct (JSON_parse (Ai.strip_fences (Str.trim text))) as [v |].
  2: { cbn. eexists; split; reflexivity. }
  destruct (classic_null v) as [-> | Hv].
  - cbn. eexists; split; reflexivity.
  - cbn -[Ai.or_chain Conv.Number].
    rewrite !(fun keys d => or_chain_first_truthy v keys d Hv).
    assert (Hfrom : (match v with
                     | JNull => Ai.text_format (JStr text)
                     | _ => graded_from B v (JStr text)
                     end) = graded_from B v (JStr text))
      by (destruct v; try reflexivity; contradiction Hv; reflexivity).
    rewrite Hfrom. unfold graded_from, grade_value, grade_fields.
    cbn -[Conv.Number first_truthy].
    destruct (Conv.Number (first_truthy v ["grade"; "marks"; "final_marks"; "score"]
                                        (JNum Num.zero))) as [e | g];
      cbn; eexists; split; reflexivity.
Qed.

End Grading.

(** ** Code fences *)

Lemma length_app_string (a b : string) :
  String.length (a ++ b) = (String.length a + String.length b)%nat.
Proof. induction a as [| c a IH]; simpl; [reflexivity | rewrite IH; reflexivity]. Qed.

Lemma drop_length_app (a b : string) : Str.drop (String.length a) (a ++ b) = b.
Proof. induction a as [| c a IH]; simpl; [reflexivity | exact IH]. Qed.

Lemma take_length_app (a b : string) : Str.take (String.length a) (a ++ b) = a.
Proof. induction a as [| c a IH]; simpl; [reflexivity | rewrite IH; reflexivity]. Qed.

Lemma endsWith_app (a p : string) : Str.endsWith (a ++ p) p = true.
Proof.
  unfold Str.endsWith. rewrite length_app_string.
  replace (String.length a + String.length p - String.length p)%nat
    with (String.length a) by lia.
  rewrite drop_length_app, String.eqb_refl, andb_true_r.
  apply Nat.leb_le. lia.
Qed.

Lemma slice_drop_last_app (a p : string) :
  Str.slice_drop_last (String.length p) (a ++ p) = a.
Proof.
  unfold Str.slice_drop_last. rewrite length_app_string.
  replace (String.length a + String.length p - String.length p)%nat
    with (String.length a) by lia.
  apply take_length_app.
Qed.

(** An answer wrapped in [```json] and [```] is cleaned to its trimmed
    inside. *)
Lemma strip_fences_json (inside : string) :
  Ai.strip_fences ("```json" ++ inside ++ "```") = Str.trim inside.
Proof.
  unfold Ai.strip_fences.
  change (Str.startsWith ("```json" ++ inside ++ "```") "```json")
    with (String.prefix "```json" ("```json" ++ (inside ++ "```"))).
  rewrite prefix_app.
  change (Str.slice_from 7 ("```json" ++ inside ++ "```")) with (inside ++ "```").
  rewrite endsWith_app.
  rewrite (slice_drop_last_app inside "```" : Str.slice_drop_last 3 (inside ++ "```") = inside).
  reflexivity.
Qed.

(** An answer wrapped in plain fences is cleaned to its trimmed inside. *)
Lemma strip_fences_plain (inside : string) :
  Str.startsWith (inside ++ "```") "json" = false ->
  Ai.strip_fences ("```" ++ inside ++ "```") = Str.trim inside.
Proof.
  intros Hnot. unfold Ai.strip_fences.
  assert (H1 : Str.startsWith ("```" ++ inside ++ "```") "```json" = false).
  { unfold Str.startsWith in *. cbn. exact Hnot. }
  rewrite H1.
  change (Str.startsWith ("```" ++ inside ++ "```") "```")
    with (String.prefix "```" ("```" ++ (inside ++ "```"))).
  rewrite prefix_app.
  change (Str.slice_from 3 ("```" ++ inside ++ "```")) with (inside ++ "```").
  rewrite endsWith_app.
  rewrite (slice_drop_last_app inside "```" : Str.slice_drop_last 3 (inside ++ "```") = inside).
  reflexivity.
Qed.

Lemma prefix_append_false (p r s : string) :
  String.prefix p s = false -> String.prefix (p ++ r) s = false.
Proof.
  revert s. induction p as [| c p IH]; intros s H.
  - destruct s; discriminate H.
  - destruct s as [| d s]; [reflexivity |]. simpl in *.
    destruct (ascii_dec c d); [apply IH; exact H | reflexivity].
Qed.

(** Without fences the cleaning is a trim. *)
Lemma strip_fences_none (t : string) :
  Str.startsWith t "```" = false ->
  Str.endsWith t "```" = false ->
  Ai.strip_fences t = Str.trim t.
Proof.
  intros Hs He. unfold Ai.strip_fences.
  assert (H1 : Str.startsWith t "```json" = false)
    by (apply (prefix_append_false "```" "json"); exact Hs).
  rewrite H1, Hs, He. reflexivity.
Qed.

Section GradeSubmission.
Context {B : Builtins} {E : ImportMetaEnv} {S : Type} (h : handler S).

(** [gradeSubmission] returns what the inner [try]/[catch] makes of the
    provider's answer; it throws only when [generateWithFallback] does. *)
Lemma result_gradeSubmission (gradingMode : string) (ocrText : option string)
      (generatedContent : option jsval) (gradingCriteria customInstructions : option string)
      (s : S) :
  result_of (run h (Ai.gradeSubmission gradingMode ocrText generatedContent
                                       gradingCriteria customInstructions) s) =
  match run h (Ai.generateWithFallback
                 (Ai.grading_prompt ocrText generatedContent gradingCriteria
                                    customInstructions)) s with
  | (Returned gradingResult, _, s1) =>
      result_of (run h (Ai.parseGradingResult gradingResult) s1)
  | (Thrown e, _, _) => Thrown (Error ("Failed to grade submission: " ++ message_text e))
  end.
Proof.
  unfold Ai.gradeSubmission. rewrite run_bind. cbn [run console_log].
  rewrite run_try_catch, run_bind.
  destruct (run h (Ai.generateWithFallback _) s) as [[[g | e] tr] s1].
  - rewrite run_bind. cbn [run console_log].
    assert (Hnothrow : forall e, result_of (run h (Ai.parseGradingResult g) s1) <> Thrown e).
    { intros e. unfold Ai.parseGradingResult. rewrite run_try_catch.
      destruct (run h _ s1) as [[[r | e'] tr'] s2]; cbn; discriminate. }
    destruct (run h (Ai.parseGradingResult g) s1) as [[[r | e] tr'] s2].
    + reflexivity.
    + exfalso. apply (Hnothrow e). reflexivity.
  - reflexivity.
Qed.

(** C4, as the code has it. For the text [text] that the provider answered:
    the text is trimmed and cleaned of its code fences and handed to
    [JSON.parse];
      - when that fails, and also when it yields null, the call does not
        fail: the result has grade 0 and the raw text as feedback;
      - when it yields any other value, the grade is [Number] of the first
        TRUTHY of the fields grade, marks, final_marks, score (0 when none is
        truthy), and the feedback is the first truthy of feedback, review,
        comments (a fixed text when none is);
      - unless [Number] throws on that value, which it can only on an array
        or an object, and does on an object exactly when the object has an
        own [toString] property: then too the call does not fail, and the
        result has grade 0 and the raw text as feedback;
    and the cleaning removes a leading [```json] or [```] and a trailing
    [```]. *)
Theorem gradeSubmission_result_of_answer
        (gradingMode : string) (ocrText : option string) (generatedContent : option jsval)
        (gradingCriteria customInstructions : option string)
        (s s1 : S) (tr : list entry) (text : string) :
  run h (Ai.generateWithFallback
           (Ai.grading_prompt ocrText generatedContent gradingCriteria customInstructions)) s
  = (Returned (JStr text), tr, s1) ->
  let r := result_of (run h (Ai.gradeSubmission gradingMode ocrText generatedContent
                                                gradingCriteria customInstructions) s) in
  let cleaned := Ai.strip_fences (Str.trim text) in
  (JSON_parse cleaned = None ->
   r = Returned (Ai.text_format (JStr text))
   /\ Ai.grade (Ai.text_format (JStr text)) = Num.zero
   /\ Ai.feedback (Ai.text_format (JStr text)) = JStr text)
  /\ (JSON_parse cleaned = Some JNull -> r = Returned (Ai.text_format (JStr text)))
  /\ (forall v, JSON_parse cleaned = Some v -> v <> JNull ->
      let chosen := first_truthy v grade_fields (JNum Num.zero) in
      (forall g, Conv.Number chosen = inr g ->
                 r = Returned (graded_with g v)
                 /\ Ai.grade (graded_with g v) = g
                 /\ Ai.feedback (graded_with g v)
                    = first_truthy v feedback_fields (JStr "No feedback provided"))
      /\ (forall e, Conv.Number chosen = inl e ->
                    r = Returned (Ai.text_format (JStr text)))
      /\ (primitive chosen = true -> exists g, Conv.Number chosen = inr g)
      /\ (forall props, chosen = JObj props ->
                        ((exists e, Conv.Number chosen = inl e)
                         <-> obj_get "toString" props <> None)))
  /\ (forall inside, Ai.strip_fences ("```json" ++ inside ++ "```") = Str.trim inside)
  /\ (forall inside, Str.startsWith (inside ++ "```") "json" = false ->
      Ai.strip_fences ("```" ++ inside ++ "```") = Str.trim inside)
  /\ (forall t, Str.startsWith t "```" = false -> Str.endsWith t "```" = false ->
      Ai.strip_fences t = Str.trim t).
Proof.
  intros Hrun r cleaned. subst r cleaned.
  rewrite result_gradeSubmission, Hrun.
  destruct (run_parseGradingResult h text s1) as (tr' & Hparse & _).
  rewrite Hparse. unfold result_of. cbn [fst].
  split; [| split; [| split; [| split; [| split]]]].
  - intros ->. repeat split.
  - intros ->. reflexivity.
  - intros v -> Hv. set (chosen := first_truthy v grade_fields (JNum Num.zero)).
    assert (Hfrom : (match v with
                     | JNull => Ai.text_format (JStr text)
                     | _ => graded_from B v (JStr text)
                     end) = graded_from B v (JStr text))
      by (destruct v; try reflexivity; contradiction Hv; reflexivity).
    rewrite Hfrom. unfold graded_from, grade_value. fold chosen.
    split; [| split; [| split]].
    + intros g ->. repeat split.
    + intros e ->. reflexivity.
    + destruct chosen; try discriminate; intros _; cbn;
        try (eexists; reflexivity).
      destruct b; eexists; reflexivity.
    + intros props ->. cbn. destruct (obj_get "toString" props) as [x |].
      * split; [intros _; discriminate | intros _; eexists; reflexivity].
      * split; [intros [e He]; discriminate He | intros Hne; contradiction Hne; reflexivity].
  - exact strip_fences_json.
  - exact strip_fences_plain.
  - exact strip_fences_none.
Qed.

End GradeSubmission.

(** ** The OCR router *)

Lemma array_includes_In (arr : list string) (x : string) :
  Str.array_includes arr x = true <-> In x arr.
Proof.
  unfold Str.array_includes. rewrite existsb_exists. split.
  - intros (y & Hy & Heq). apply String.eqb_eq in Heq. subst y. exact Hy.
  - intros H. exists x. split; [exact H | apply String.eqb_refl].
Qed.

Lemma array_includes_not_In (arr : list string) (x : string) :
  Str.array_includes arr x = false <-> ~ In x arr.
Proof.
  rewrite <- array_includes_In. destruct (Str.array_includes arr x); split; intros H.
  - discriminate H.
  - contradiction H; reflexivity.
  - discriminate.
  - reflexivity.
Qed.

Section Router.
Context {B : Builtins}.

(** C5. A file whose declared type is neither a supported image type nor
    application/pdf makes [extractText] throw the unsupported-type error
    after its one console line, with no request to the environment; a file of
    type application/pdf goes to [extractTextFromPDF] and a file of a
    supported image type to [extractTextFromImage]. *)
Theorem extractText_routes_by_declared_type (file : File) :
  (~ In (file_type file) Ai.supportedImageTypes ->
   file_type file <> "application/pdf" ->
   forall (S : Type) (h : handler S) (s : S),
     run h (Ai.extractText file) s =
     (Thrown (Error ("Unsupported file type: " ++ file_type file
                     ++ ". Please use JPEG, PNG, GIF, WebP images or PDF documents.")),
      [Console LogInfo "Calling extractText for file:"], s))
  /\ (file_type file = "application/pdf" ->
      Ai.extractText file =
      Log LogInfo "Calling extractText for file:" (Ai.extractTextFromPDF file))
  /\ (In (file_type file) Ai.supportedImageTypes ->
      Ai.extractText file =
      Log LogInfo "Calling extractText for file:" (Ai.extractTextFromImage file)).
Proof.
  unfold Ai.extractText. cbn [bind console_log].
  split; [| split].
  - intros Himg Hpdf S h s.
    assert (Hall : Str.array_includes Ai.allSupportedTypes (file_type file) = false).
    { apply array_includes_not_In. unfold Ai.allSupportedTypes. intros Hin.
      apply in_app_or in Hin. destruct Hin as [Hin | [Hin | []]].
      - exact (Himg Hin).
      - exact (Hpdf (eq_sym Hin)). }
    rewrite Hall. reflexivity.
  - intros ->. reflexivity.
  - intros Hin.
    assert (Hall : Str.array_includes Ai.allSupportedTypes (file_type file) = true).
    { apply array_includes_In. unfold Ai.allSupportedTypes. apply in_or_app. left. exact Hin. }
    assert (Hdoc : Str.array_includes Ai.supportedDocumentTypes (file_type file) = false).
    { apply array_includes_not_In. intros [Heq | []]. rewrite <- Heq in Hin.
      cbn in Hin. repeat (destruct Hin as [Hin | Hin]; [discriminate Hin |]). exact Hin. }
    rewrite Hall, Hdoc. reflexivity.
Qed.

Section ImagePath.
Context {S : Type} (h : handler S).

(** The [catch] block of the image path only writes to the console. *)
Lemma trace_image_catch (error : exn) (s : S) :
  trace_of (run h (Ai.image_catch error) s) = [Console LogError "Tesseract OCR error:"]
  /\ state_of (run h (Ai.image_catch error) s) = s.
Proof.
  unfold Ai.image_catch. cbn [bind console_error].
  repeat match goal with
         | |- context [if ?b then _ else _] => destruct b
         end; split; reflexivity.
Qed.

#[local] Arguments Ai.image_catch : simpl never.

(** C6. An image file larger than 10 MiB makes [extractTextFromImage] throw
    the too-large error after its first console line, with no request to the
    environment. For a file at or under that size the OCR stage is entered
    once: the tesseract module is requested once, recognition is called at
    most once, and exactly once (on the file, for English) when the module
    loads. *)
Theorem extractTextFromImage_size_gate (file : File) (s : S) :
  let r := run h (Ai.extractTextFromImage file) s in
  (file_size file > 10 * 1024 * 1024 ->
   r = (Thrown (Error "File size too large. Please use files smaller than 10MB."),
        [Console LogInfo "Processing image with Tesseract.js:"], s))
  /\ (file_size file <= 10 * 1024 * 1024 ->
      (exists rest,
          trace_of r = Console LogInfo "Processing image with Tesseract.js:"
                       :: Console LogInfo "Starting Tesseract OCR processing..."
                       :: Call (Import ["tesseract.js"])
                               (fst (h _ (Import ["tesseract.js"]) s))
                       :: rest)
      /\ count is_Import (trace_of r) = 1%nat
      /\ (count is_Recognize (trace_of r) <= 1)%nat
      /\ (forall s1, h _ (Import ["tesseract.js"]) s = (inr tt, s1) ->
          count is_Recognize (trace_of r) = 1%nat
          /\ In (Call (Recognize (ImageFile file) "eng")
                      (fst (h _ (Recognize (ImageFile file) "eng") s1)))
                (trace_of r))).
Proof.
  intros r. subst r. unfold Ai.extractTextFromImage. cbn [bind console_log run].
  split.
  - intros Hbig. assert (Hgt : (file_size file >? Ai.maxSize) = true).
    { apply Z.gtb_lt. unfold Ai.maxSize. lia. }
    rewrite Hgt. reflexivity.
  - intros Hsmall. assert (Hgt : (file_size file >? Ai.maxSize) = false).
    { rewrite Z.gtb_ltb. apply Z.ltb_ge. unfold Ai.maxSize. lia. }
    rewrite Hgt. rewrite run_try_catch.
    unfold Ai.image_try. cbn.
    destruct (h _ (Import ["tesseract.js"]) s) as [[e | []] s1] eqn:Himp.
    + cbn. pose proof (trace_image_catch e s1) as [Htr _].
      destruct (run h (Ai.image_catch e) s1) as [[o tr] s2].
      unfold trace_of in *. cbn in Htr. subst tr. cbn.
      split; [eexists; reflexivity | split; [reflexivity | split; [lia |]]].
      intros s1' Heq. discriminate Heq.
    + cbn.
      destruct (h _ (Recognize (ImageFile file) "eng") s1) as [[e | data] s2] eqn:Hrec.
      * cbn. pose proof (trace_image_catch e s2) as [Htr _].
        destruct (run h (Ai.image_catch e) s2) as [[o tr] s3].
        unfold trace_of in *. cbn in Htr. subst tr. cbn.
        split; [eexists; reflexivity | split; [reflexivity | split; [lia |]]].
        intros s1' Heq. injection Heq as <-. rewrite Hrec. cbn.
        split; [reflexivity | do 3 right; left; reflexivity].
      * cbn.
        destruct (String.eqb (text data) "" || (String.length (Str.trim (text data)) =? 0)%nat).
        -- cbn. pose proof (trace_image_catch (Error Ai.image_no_text) s2) as [Htr _].
           destruct (run h (Ai.image_catch (Error Ai.image_no_text)) s2) as [[o tr] s3].
           unfold trace_of in *. cbn in Htr. subst tr. cbn.
           split; [eexists; reflexivity | split; [reflexivity | split; [lia |]]].
           intros s1' Heq. injection Heq as <-. rewrite Hrec. cbn.
        split; [reflexivity | do 3 right; left; reflexivity].
        -- destruct (Num.ltb (confidence data) (Num.Dec 30 0)); cbn;
             (split; [eexists; reflexivity | split; [reflexivity | split; [lia |]]]);
             intros s1' Heq; injection Heq as <-; rewrite Hrec; cbn;
             (split; [reflexivity | do 3 right; left; reflexivity]).
Qed.

End ImagePath.

End Router.

(** ** The PDF path *)







Lemma append_assoc_string (a b c : string) : (a ++ b) ++ c = a ++ b ++ c.
Proof. induction a as [| x a IH]; simpl; [reflexivity | rewrite IH; reflexivity]. Qed.

(** Console lines at the end of a trace add nothing to what is observed of
    the PDF requests. *)
Lemma observe_console_suffix (tr post : list entry) :
  forallb is_Console post = true ->
  recognized (tr ++ post) = recognized tr
  /\ pages_requested (tr ++ post) = pages_requested tr
  /\ opened (tr ++ post) = opened tr
  /\ count is_Recognize (tr ++ post) = count is_Recognize tr.
Proof.
  intros Hpost.
  assert (Hnil : recognized post = [] /\ pages_requested post = []
                 /\ opened post = [] /\ count is_Recognize post = 0%nat).
  { induction post as [| [l m | T ev a] post IHp];
      [repeat split | exact (IHp Hpost) | discriminate Hpost]. }
  destruct Hnil as (Hr & Hp & Ho & Hc).
  unfold recognized, pages_requested, opened in *.
  rewrite count_app, !flat_map_app, Hr, Hp, Ho, Hc, !app_nil_r, Nat.add_0_r. auto.
Qed.

(** What is observed of a run of the PDF path that reached the page loop. *)
Lemma observe_pdf_trace (file : File) (buffer : handle) (pdf : PDFDocument)
      (tr post : list entry) :
  forallb is_Console post = true ->
  let full :=
    Console LogInfo "Processing PDF with client-side OCR:"
    :: Call (Import ["pdfjs-dist"; "pdfjs-dist/build/pdf.worker.min.mjs?url"; "tesseract.js"])
            (inr tt)
    :: Call SetWorkerSrc tt
    :: Call (FileArrayBuffer file) (inr buffer)
    :: Call (GetDocument buffer) (inr pdf)
    :: (tr ++ post)%list in
  recognized full = recognized tr
  /\ pages_requested full = pages_requested tr
  /\ opened full = pdf :: opened tr
  /\ count is_Recognize full = count is_Recognize tr
  /\ forallb entry_ok full = forallb entry_ok tr.
Proof.
  intros Hpost full.
  destruct (observe_console_suffix tr post Hpost) as (Hr & Hp & Ho & Hc).
  subst full. unfold recognized, pages_requested, opened, count in *. cbn.
  rewrite Hr, Hp, Ho, Hc. repeat split.
  rewrite forallb_app.
  assert (Hall : forallb entry_ok post = true).
  { clear - Hpost. induction post as [| [l m | T ev a] post IHp];
      [reflexivity | exact (IHp Hpost) | discriminate Hpost]. }
  rewrite Hall. apply andb_true_r.
Qed.

Section PdfPath.
Context {B : Builtins} {S : Type} (h : handler S).

#[local] Arguments Ai.pdf_pages : simpl never.
#[local] Arguments Ai.pdf_catch : simpl never.

Lemma pdf_pages_S (pdf : PDFDocument) (remaining pageNum : nat) (acc : string) :
  Ai.pdf_pages pdf (Datatypes.S remaining) pageNum acc =
  (console_log ("Processing PDF page " ++ Str.of_nat pageNum ++ "/"
                ++ Str.of_nat (numPages pdf)) ;;
   page <- await (GetPage pdf pageNum) ;;
   canvas <- await (RenderPage page (Num.Dec 20 (-1))) ;;
   blob <- call (CanvasToBlob canvas) ;;
   data <- await (Recognize (ImageBlob blob) "eng") ;;
   Ai.pdf_pages pdf remaining (Datatypes.S pageNum)
     (if negb (String.eqb (Str.trim (text data)) "")
      then acc ++ Str.nl ++ "--- Page " ++ Str.of_nat pageNum
           ++ " ---" ++ Str.nl ++ Str.trim (text data) ++ Str.nl
      else acc)).
Proof. reflexivity. Qed.



(** The [catch] block of the PDF path only writes to the console. *)
Lemma run_pdf_catch (error : exn) (s : S) :
  run h (Ai.pdf_catch error) s =
  (Thrown (if Ai.message_includes error "Invalid PDF"
           then Error "Invalid or corrupted PDF file. Please try a different document."
           else Error ("Failed to extract text from PDF: " ++ message_text error)),
   [Console LogError "PDF OCR error:"], s).
Proof.
  unfold Ai.pdf_catch. cbn. destruct (Ai.message_includes error "Invalid PDF"); reflexivity.
Qed.


End PdfPath.

(** ** Validation of a submission file *)

(** C8. [validateSubmissionFile] rejects every file larger than 10 MiB with
    the size error, whatever its type: in particular a file of 11 MiB of an
    allowed type; and it accepts every file of 9 MiB declared image/png. *)
Theorem validateSubmissionFile_size_limit :
  (forall file : File,
      file_size file > 10 * 1024 * 1024 ->
      Storage.validateSubmissionFile file =
      {| Storage.valid := false; Storage.error := Some "File size exceeds 10MB limit" |})
  /\ (forall (name type : string),
         In type Storage.allowedTypes ->
         Storage.validateSubmissionFile (mkFile name type (11 * 1024 * 1024)) =
         {| Storage.valid := false; Storage.error := Some "File size exceeds 10MB limit" |})
  /\ (forall name : string,
         Storage.validateSubmissionFile (mkFile name "image/png" (9 * 1024 * 1024)) =
         {| Storage.valid := true; Storage.error := None |}).
Proof.
  assert (Hbig : forall file : File,
             file_size file > 10 * 1024 * 1024 ->
             Storage.validateSubmissionFile file =
             {| Storage.valid := false;
                Storage.error := Some "File size exceeds 10MB limit" |}).
  { intros file Hsize. unfold Storage.validateSubmissionFile.
    assert (Hgt : (file_size file >? Storage.maxSize) = true)
      by (apply Z.gtb_lt; unfold Storage.maxSize; lia).
    rewrite Hgt. reflexivity. }
  split; [exact Hbig | split].
  - intros name type _. apply Hbig. cbn. lia.
  - intros name. reflexivity.
Qed.

Lemma last_segment_no_sep (sep : ascii) (acc s : string) :
  ~ In sep (list_ascii_of_string s) ->
  Str.last_segment_from sep acc s = acc ++ s.
Proof.
  revert acc. induction s as [| c s IH]; intros acc Hno; cbn.
  - symmetry. clear. induction acc as [| x acc IH]; cbn; [reflexivity | rewrite IH; reflexivity].
  - destruct (Ascii.eqb c sep) eqn:Hc.
    + apply Ascii.eqb_eq in Hc. subst c. contradiction Hno. left. reflexivity.
    + rewrite IH.
      * clear. induction acc as [| x acc IH]; cbn; [reflexivity | rewrite IH; reflexivity].
      * intros Hin. apply Hno. right. exact Hin.
Qed.

Lemma last_segment_after_sep (sep : ascii) (base ext : string) :
  ~ In sep (list_ascii_of_string ext) ->
  forall acc, Str.last_segment_from sep acc (base ++ String sep ext) = ext.
Proof.
  intros Hno. induction base as [| c base IH]; intros acc; cbn.
  - rewrite Ascii.eqb_refl. apply (last_segment_no_sep sep "" ext Hno).
  - destruct (Ascii.eqb c sep); apply IH.
Qed.

(** The extension of [base.ext] is [ext] in lower case. *)
Lemma extension_of_dotted_name (base ext : string) :
  ~ In "."%char (list_ascii_of_string ext) ->
  Storage.extension (base ++ "." ++ ext) = Str.toLowerCase ext.
Proof.
  intros Hno. unfold Storage.extension, Str.split_pop.
  change (base ++ "." ++ ext) with (base ++ String "." ext).
  rewrite (last_segment_after_sep "." base ext Hno).
  destruct (String.eqb (Str.toLowerCase ext) "") eqn:He; [| reflexivity].
  apply String.eqb_eq in He. symmetry. exact He.
Qed.

(** C10. A file of at most 10 MiB whose name ends in a dot and an extension
    that, in lower case, is one of pdf, png, jpg, jpeg, gif, webp, avif is
    valid, whatever its declared type. *)
Theorem validateSubmissionFile_accepts_by_extension
        (file : File) (base ext : string) :
  file_size file <= 10 * 1024 * 1024 ->
  file_name file = base ++ "." ++ ext ->
  ~ In "."%char (list_ascii_of_string ext) ->
  In (Str.toLowerCase ext) ["pdf"; "png"; "jpg"; "jpeg"; "gif"; "webp"; "avif"] ->
  Storage.validateSubmissionFile file = {| Storage.valid := true; Storage.error := None |}.
Proof.
  intros Hsize Hname Hno Hext. unfold Storage.validateSubmissionFile.
  assert (Hgt : (file_size file >? Storage.maxSize) = false)
    by (rewrite Z.gtb_ltb; apply Z.ltb_ge; unfold Storage.maxSize; lia).
  rewrite Hgt, Hname, (extension_of_dotted_name base ext Hno).
  assert (Hin : Str.array_includes Storage.allowedExtensions (Str.toLowerCase ext) = true)
    by (apply array_includes_In; exact Hext).
  rewrite Hin, orb_true_r. reflexivity.
Qed.

(** ** The class meeting view *)

Section MeetingSignal.
Context {S : Type} (h : handler S).

(** The resulting state and the interface calls of [handleMessage] on a
    MEETING_ENDED message. *)
Lemma run_handleMessage_ended (props : ClassMeeting.Props) (data : option jsval)
      (st : ClassMeeting.State) (s : S) :
  get_opt data "type" = Some (JStr "MEETING_ENDED") ->
  exists s',
    run h (ClassMeeting.handleMessage props data st) s =
    (Returned (ClassMeeting.setActiveMeeting None (ClassMeeting.setShowMeeting false st)),
     Call (Toast ToastSuccess "Meeting ended") tt
     :: (if ClassMeeting.onClose props then [Call OnClose tt] else []),
     s').
Proof.
  intros Htype. unfold ClassMeeting.handleMessage, ClassMeeting.call_onClose.
  rewrite Htype. cbn.
  destruct (h _ (Toast ToastSuccess "Meeting ended") s) as [[] s1].
  destruct (ClassMeeting.onClose props); cbn.
  - destruct (h _ OnClose s1) as [[] s2]. eexists; reflexivity.
  - eexists; reflexivity.
Qed.

(** C9. On a message whose data has type MEETING_ENDED, received while a
    meeting is in progress, [handleMessage] itself clears the active meeting
    and closes the embedded view, so that the component shows NoMeeting, and
    it does so without asking the backend; the state it leaves and the
    interface calls it makes are those of a teacher's [handleEndMeeting]
    after the backend has ended the meeting. *)
Theorem meeting_ended_signal_ends_local_view
        (props : ClassMeeting.Props) (data : option jsval) (st : ClassMeeting.State)
        (m : Meeting) (s : S) :
  get_opt data "type" = Some (JStr "MEETING_ENDED") ->
  ClassMeeting.activeMeeting st = Some m ->
  let r := run h (ClassMeeting.handleMessage props data st) s in
  exists st' : ClassMeeting.State,
    result_of r = Returned st'
    /\ ClassMeeting.activeMeeting st' = None
    /\ ClassMeeting.showMeeting st' = false
    /\ (ClassMeeting.isLoading st = false -> ClassMeeting.render st' = ClassMeeting.NoMeeting)
    /\ count ClassMeeting.is_backend_call (trace_of r) = 0%nat
    /\ (forall s1 : S,
           h _ (EndMeeting (meeting_id m)) s = (inr tt, s1) ->
           let r' := run h (ClassMeeting.handleEndMeeting props st) s in
           result_of r' = Returned st'
           /\ trace_of r' = Call (EndMeeting (meeting_id m)) (inr tt) :: trace_of r).
Proof.
  intros Htype Hactive r. subst r.
  destruct (run_handleMessage_ended props data st s Htype) as [s' Hrun].
  rewrite Hrun. unfold result_of, trace_of. cbn [fst snd].
  eexists. split; [reflexivity |].
  split; [reflexivity |]. split; [reflexivity |].
  split; [intros Hload; unfold ClassMeeting.render; cbn; rewrite Hload; reflexivity |].
  split; [destruct (ClassMeeting.onClose props); reflexivity |].
  intros s1 Hend. unfold ClassMeeting.handleEndMeeting, ClassMeeting.call_onClose.
  rewrite Hactive. cbn. rewrite Hend. cbn.
  destruct (h _ (Toast ToastSuccess "Meeting ended") s1) as [[] s2].
  destruct (ClassMeeting.onClose props); cbn.
  - destruct (h _ OnClose s2) as [[] s3]. split; reflexivity.
  - split; reflexivity.
Qed.

End MeetingSignal.

(* ===================================================================== *)
(** * Further properties of the AI utility module *)
(* ===================================================================== *)

Section GroqClient.
Context {B : Builtins} {E : ImportMetaEnv} {S : Type} (h : handler S).

(** The run of [callGroqAPI] from the answer to its one request. *)
Lemma result_callGroqAPI (prompt : string) (s : S) :
  result_of (run h (Ai.callGroqAPI prompt) s) =
  match fst (h _ (Fetch Ai.GROQ_API_URL (Ai.groq_request prompt)) s) with
  | inl e => Thrown e
  | inr response =>
      if negb (ok response) then
        match Ai.groq_error_detail
                (match json response with inl _ => JObj [] | inr v => v end) response with
        | inl e => Thrown e
        | inr detail =>
            Thrown (Error ("Groq API error: " ++ Number_toString (Num.of_Z (status response))
                           ++ " - " ++ detail))
        end
      else match json response with
           | inl e => Thrown e
           | inr data => match Ai.groq_content data with
                         | inl e => Thrown e
                         | inr v => Returned v
                         end
           end
  end.
Proof.
  unfold Ai.callGroqAPI, result_of. cbn.
  destruct (h _ (Fetch Ai.GROQ_API_URL (Ai.groq_request prompt)) s) as [[e | resp] s1]; cbn.
  - reflexivity.
  - destruct (ok resp); cbn.
    + destruct (json resp) as [e | data]; cbn; [reflexivity |].
      destruct (Ai.groq_content data); reflexivity.
    + destruct (Ai.groq_error_detail _ resp); reflexivity.
Qed.

(** X1. A response that is not ok never yields text: [callGroqAPI] throws
    whatever the body is. When the body is not JSON the message carries the
    status and the status text; when the body is an object whose
    [error.message] is a non-empty string, the message carries the status
    and that string. *)
Theorem callGroqAPI_throws_on_failed_response
        (prompt : string) (s s1 : S) (response : Response) :
  h _ (Fetch Ai.GROQ_API_URL (Ai.groq_request prompt)) s = (inr response, s1) ->
  ok response = false ->
  let r := result_of (run h (Ai.callGroqAPI prompt) s) in
  (exists e, r = Thrown e)
  /\ (forall err, json response = inl err ->
      r = Thrown (Error ("Groq API error: " ++ Number_toString (Num.of_Z (status response))
                         ++ " - " ++ statusText response)))
  /\ (forall props eprops detail,
         json response = inr (JObj props) ->
         obj_get "error" props = Some (JObj eprops) ->
         obj_get "message" eprops = Some (JStr detail) ->
         detail <> "" ->
         r = Thrown (Error ("Groq API error: " ++ Number_toString (Num.of_Z (status response))
                            ++ " - " ++ detail))).
Proof.
  intros Hh Hok r. subst r. rewrite result_callGroqAPI, Hh. cbn [fst]. rewrite Hok. cbn [negb].
  split; [| split].
  - destruct (Ai.groq_error_detail _ response); eexists; reflexivity.
  - intros err ->. reflexivity.
  - intros props eprops detail -> Herr Hmsg Hne.
    unfold Ai.groq_error_detail. cbn. rewrite Herr. cbn. rewrite Hmsg. cbn.
    destruct (String.eqb detail "") eqn:He; [apply String.eqb_eq in He; contradiction |].
    reflexivity.
Qed.

(** X2. What [callGroqAPI] returns is a truthy value or the empty string:
    a missing, null or otherwise falsy content comes back as [''], never as
    undefined or null. *)
Theorem callGroqAPI_returns_content_or_empty_string (prompt : string) (s : S) (v : jsval) :
  result_of (run h (Ai.callGroqAPI prompt) s) = Returned v ->
  truthy v = true \/ v = JStr "".
Proof.
  rewrite result_callGroqAPI.
  destruct (fst (h _ (Fetch Ai.GROQ_API_URL (Ai.groq_request prompt)) s)) as [e | resp];
    [discriminate |].
  destruct (negb (ok resp)).
  - destruct (Ai.groq_error_detail _ resp); discriminate.
  - destruct (json resp) as [e | data]; [discriminate |].
    unfold Ai.groq_content.
    destruct (get (Some data) "choices") as [e | choices]; [discriminate |].
    destruct (get choices "0") as [e | first]; [discriminate |].
    intros Heq. injection Heq as <-. unfold or_default.
    destruct (get_opt (get_opt first "message") "content") as [x |]; [| right; reflexivity].
    destruct (truthy x) eqn:Hx; [left; exact Hx | right; reflexivity].
Qed.

(** The result of [generateWithFallback] from the answers of the two
    providers. *)
Lemma result_generateWithFallback (prompt : string) (s : S) :
  result_of (run h (Ai.generateWithFallback prompt) s) =
  let '(rA, s1) := h _ (GenerateContent prompt) s in
  match gemini_outcome rA with
  | inr text => Returned (JStr text)
  | inl eA =>
      match result_of (run h (Ai.callGroqAPI prompt) s1) with
      | Returned v => Returned v
      | Thrown eB =>
          if Ai.isQuotaError eA
          then Thrown (Error ("Both AI providers failed. Gemini: " ++ message_text eA
                              ++ ", Groq: " ++ message_text eB))
          else Thrown eA
      end
  end.
Proof.
  destruct (h _ (GenerateContent prompt) s) as [rA s1] eqn:Hh.
  destruct (gemini_outcome rA) as [eA | text] eqn:HA.
  - rewrite (run_generateWithFallback_failure h prompt s s1 rA eA Hh HA).
    destruct (run h (Ai.callGroqAPI prompt) s1) as [[[v | eB] trB] s2];
      destruct (Ai.isQuotaError eA); reflexivity.
  - rewrite (run_generateWithFallback_success h prompt s s1 rA text Hh HA). reflexivity.
Qed.

#[local] Arguments Ai.callGroqAPI : simpl never.
#[local] Arguments Ai.generateWithFallback : simpl never.

(** X3. [checkHealth] never throws, and it reports healthy exactly when one
    of the two providers answers: when the attempt at Provider A succeeds,
    or, failing that, when [callGroqAPI] returns (be it the empty string). *)
Theorem checkHealth_healthy_iff_a_provider_answers (s : S) :
  exists r : AiApi.Health,
    result_of (run h AiApi.checkHealth s) = Returned r
    /\ (AiApi.status_of r = "healthy" \/ AiApi.status_of r = "unhealthy")
    /\ (AiApi.status_of r = "healthy" <->
        let '(rA, s1) := h _ (GenerateContent "Hello") s in
        (exists text, gemini_outcome rA = inr text)
        \/ (exists v, result_of (run h (Ai.callGroqAPI "Hello") s1) = Returned v)).
Proof.
  pose proof (result_generateWithFallback "Hello" s) as Hres.
  unfold AiApi.checkHealth. rewrite run_try_catch, run_bind.
  destruct (run h (Ai.generateWithFallback "Hello") s) as [[[v | e] tr] s2];
    unfold result_of in *; cbn [fst] in Hres; cbn.
  - eexists. split; [reflexivity |]. split; [left; reflexivity |].
    split; [intros _ | reflexivity].
    destruct (h _ (GenerateContent "Hello") s) as [rA s1].
    destruct (gemini_outcome rA) as [eA | text]; [| left; eexists; reflexivity].
    right. destruct (fst (fst (run h (Ai.callGroqAPI "Hello") s1))) as [v' | eB].
    + eexists; reflexivity.
    + destruct (Ai.isQuotaError eA); discriminate Hres.
  - eexists. split; [reflexivity |]. split; [right; reflexivity |].
    split; [intros Habs; discriminate Habs |].
    destruct (h _ (GenerateContent "Hello") s) as [rA s1].
    intros [[text Htext] | [v Hv]].
    + rewrite Htext in Hres. discriminate Hres.
    + destruct (gemini_outcome rA); [| discriminate Hres].
      rewrite Hv in Hres. discriminate Hres.
Qed.

End GroqClient.

Section Generation.
Context {B : Builtins} {E : ImportMetaEnv} {S : Type} (h : handler S).

#[local] Arguments Ai.callGroqAPI : simpl never.
#[local] Arguments Ai.generateWithFallback : simpl never.
#[local] Arguments Ai.parseGradingResult : simpl never.

(** [testGeminiConnection] never throws: it returns success with the
    text of [generateWithFallback] unchanged, or failure with the message of
    the error that [generateWithFallback] threw. *)
Theorem testGeminiConnection_reports_instead_of_throwing (s : S) :
  result_of (run h AiApi.testGeminiConnection s) =
  Returned
    match result_of (run h (Ai.generateWithFallback AiApi.testPrompt) s) with
    | Returned text =>
        {| AiApi.test_success := true;
           AiApi.test_content := Some text;
           AiApi.error_of := None;
           AiApi.test_message := "AI API test successful" |}
    | Thrown error =>
        {| AiApi.test_success := false;
           AiApi.test_content := None;
           AiApi.error_of := ex_message error;
           AiApi.test_message := "AI API test failed" |}
    end.
Proof.
  unfold AiApi.testGeminiConnection. cbn [bind console_log run].
  rewrite run_try_catch. cbn [bind console_log run]. rewrite run_bind.
  destruct (run h (Ai.generateWithFallback AiApi.testPrompt) s) as [[[v | e] tr] s2];
    reflexivity.
Qed.

(** X4. [generateDocument], from the answers of the providers to the prompt
    it builds. The prompt contains the caller's topic verbatim; omitted
    numbers default to 100 marks and 7 days and are echoed in the result
    with the provider's text unchanged; and when both providers fail the
    caller gets [Failed to generate document: ] followed by what
    [generateWithFallback] surfaced: both messages for a quota-class error
    of Provider A, Provider A's message alone otherwise. *)
Theorem generateDocument_outcome
        (prompt : string) (maxMarks daysUntilDue : option Num.number) (s : S) :
  let marks := AiApi.or_number maxMarks 100 in
  let days := AiApi.or_number daysUntilDue 7 in
  let p := AiApi.document_prompt prompt marks days in
  let document content :=
    {| AiApi.document_success := true;
       AiApi.generated_content := content;
       AiApi.max_marks := marks;
       AiApi.days_until_due := days;
       AiApi.document_message := "Assignment generated successfully" |} in
  Str.includes p prompt = true
  /\ result_of (run h (AiApi.generateDocument prompt maxMarks daysUntilDue) s) =
     let '(rA, s1) := h _ (GenerateContent p) s in
     match gemini_outcome rA with
     | inr text => Returned (document (JStr text))
     | inl eA =>
         match result_of (run h (Ai.callGroqAPI p) s1) with
         | Returned v => Returned (document v)
         | Thrown eB =>
             Thrown (Error ("Failed to generate document: "
                            ++ if Ai.isQuotaError eA
                               then "Both AI providers failed. Gemini: " ++ message_text eA
                                    ++ ", Groq: " ++ message_text eB
                               else message_text eA))
         end
     end.
Proof.
  intros marks days p document. split.
  - unfold p, AiApi.document_prompt.
    apply (includes_app_r "Generate an educational assignment based on the following requirements:").
    do 3 apply includes_app_r. apply includes_here.
  - pose proof (result_generateWithFallback h p s) as Hres.
    unfold AiApi.generateDocument. fold marks days p. clearbody p marks days.
    cbn [bind console_log run]. rewrite run_try_catch. cbn [bind console_log run].
    rewrite run_bind.
    destruct (run h (Ai.generateWithFallback p) s) as [[[v | e] tr] s2];
      unfold result_of in *; cbn [fst] in *; cbn;
      destruct (h _ (GenerateContent p) s) as [rA s1];
      destruct (gemini_outcome rA) as [eA | text].
    + destruct (fst (fst (run h (Ai.callGroqAPI p) s1))) as [v' | eB].
      * injection Hres as ->. reflexivity.
      * destruct (Ai.isQuotaError eA); discriminate Hres.
    + injection Hres as ->. reflexivity.
    + destruct (fst (fst (run h (Ai.callGroqAPI p) s1))) as [v' | eB]; [discriminate Hres |].
      destruct (Ai.isQuotaError eA); injection Hres as ->; reflexivity.
    + discriminate Hres.
Qed.

(** X5. [generateAnswers] puts the whole assignment text into its prompt
    (the 200-character cut is for the console only), returns the provider's
    text unchanged with the maximum marks (100 when omitted), and rethrows a
    failure as [Failed to generate answers: ] followed by its message. *)
Theorem generateAnswers_outcome
        (assignmentContent : string) (maxMarks : option Num.number) (s : S) :
  let marks := AiApi.or_number maxMarks 100 in
  let p := AiApi.answers_prompt assignmentContent marks in
  Str.includes p assignmentContent = true
  /\ result_of (run h (AiApi.generateAnswers assignmentContent maxMarks) s) =
     match result_of (run h (Ai.generateWithFallback p) s) with
     | Returned v =>
         Returned {| AiApi.answers_success := true;
                     AiApi.generated_answers := v;
                     AiApi.answers_max_marks := marks;
                     AiApi.answers_message := "Model answers generated successfully" |}
     | Thrown e => Thrown (Error ("Failed to generate answers: " ++ message_text e))
     end.
Proof.
  intros marks p. split.
  - unfold p, AiApi.answers_prompt.
    apply (includes_app_r
             "Based on the following assignment, generate comprehensive model answers:").
    do 4 apply includes_app_r. apply includes_here.
  - unfold AiApi.generateAnswers. fold marks p. clearbody p marks.
    cbn [bind console_log run]. rewrite run_try_catch. cbn [bind console_log run].
    rewrite run_bind.
    destruct (run h (Ai.generateWithFallback p) s) as [[[v | e] tr] s2]; reflexivity.
Qed.

(** The inner [try]/[catch] of [gradeSubmission] on any answer: it returns,
    either the text-format result or the result read from a parsed value. *)
Lemma parseGradingResult_cases (gradingResult : jsval) (s : S) :
  exists r tr,
    run h (Ai.parseGradingResult gradingResult) s = (Returned r, tr, s)
    /\ (r = Ai.text_format gradingResult \/ exists g v, r = graded_with g v).
Proof.
  destruct gradingResult as [| b | n | text | items | props];
    try (eexists; eexists; split; [reflexivity | left; reflexivity]).
  destruct (run_parseGradingResult h text s) as (tr & Hrun & _).
  eexists. exists tr. split; [exact Hrun |].
  destruct (JSON_parse _) as [[| b | n | t | items | props] |];
    try (left; reflexivity);
    unfold graded_from;
    match goal with
    | |- context [Conv.Number ?x] => destruct (Conv.Number x) as [e | g]
    end;
    solve [left; reflexivity | right; eexists; eexists; reflexivity].
Qed.

(** X6. [gradeSubmission] throws exactly when [generateWithFallback] throws,
    and then the error is [Failed to grade submission: ] followed by the
    provider error's message: no answer, however malformed, makes it fail. *)
Theorem gradeSubmission_throws_only_with_providers
        (gradingMode : string) (ocrText : option string) (generatedContent : option jsval)
        (gradingCriteria customInstructions : option string) (s : S) :
  let p := Ai.grading_prompt ocrText generatedContent gradingCriteria customInstructions in
  let r := result_of (run h (Ai.gradeSubmission gradingMode ocrText generatedContent
                                                gradingCriteria customInstructions) s) in
  (forall e, result_of (run h (Ai.generateWithFallback p) s) = Thrown e ->
             r = Thrown (Error ("Failed to grade submission: " ++ message_text e)))
  /\ (forall v, result_of (run h (Ai.generateWithFallback p) s) = Returned v ->
                exists g, r = Returned g).
Proof.
  intros p r. subst r. rewrite result_gradeSubmission. fold p.
  destruct (run h (Ai.generateWithFallback p) s) as [[[v | e] tr] s1];
    unfold result_of; cbn [fst]; split; intros x Hx; try discriminate Hx.
  - destruct (parseGradingResult_cases v s1) as (g & tr' & Hrun & _).
    rewrite Hrun. eexists; reflexivity.
  - injection Hx as <-. reflexivity.
Qed.

(** X7. Every result of [gradeSubmission] is marked successful and repeats
    itself: [final_marks] is [grade] and [review] is [feedback]; and
    [strengths] and [improvements] are both there or both missing. *)
Theorem gradeSubmission_result_is_consistent
        (gradingMode : string) (ocrText : option string) (generatedContent : option jsval)
        (gradingCriteria customInstructions : option string) (s : S) (g : Ai.GradingResult) :
  result_of (run h (Ai.gradeSubmission gradingMode ocrText generatedContent
                                       gradingCriteria customInstructions) s) = Returned g ->
  Ai.graded g = true
  /\ Ai.final_marks g = Ai.grade g
  /\ Ai.review g = Ai.feedback g
  /\ (Ai.strengths g = None <-> Ai.improvements g = None).
Proof.
  rewrite result_gradeSubmission.
  destruct (run h (Ai.generateWithFallback _) s) as [[[v | e] tr] s1]; [| discriminate].
  destruct (parseGradingResult_cases v s1) as (g' & tr' & Hrun & Hcases).
  rewrite Hrun. unfold result_of. cbn [fst]. intros Heq. injection Heq as <-.
  destruct Hcases as [-> | (n & v' & ->)]; cbn; repeat split; intros; discriminate.
Qed.

(** X8. The grade is not clamped or validated: when the cleaned answer
    parses to an object whose [grade] is a number other than 0 and NaN, that
    number is the grade of the result, whatever its size or sign. *)
Theorem gradeSubmission_does_not_clamp_the_grade
        (gradingMode : string) (ocrText : option string) (generatedContent : option jsval)
        (gradingCriteria customInstructions : option string)
        (s s1 : S) (tr : list entry) (text : string)
        (props : list (string * jsval)) (n : Num.number) :
  run h (Ai.generateWithFallback
           (Ai.grading_prompt ocrText generatedContent gradingCriteria customInstructions)) s
  = (Returned (JStr text), tr, s1) ->
  JSON_parse (Ai.strip_fences (Str.trim text)) = Some (JObj props) ->
  obj_get "grade" props = Some (JNum n) ->
  Num.truthy n = true ->
  exists g,
    result_of (run h (Ai.gradeSubmission gradingMode ocrText generatedContent
                                         gradingCriteria customInstructions) s) = Returned g
    /\ Ai.grade g = n /\ Ai.final_marks g = n.
Proof.
  intros Hrun Hparse Hgrade Hn.
  rewrite result_gradeSubmission, Hrun.
  destruct (run_parseGradingResult h text s1) as (tr' & Hp & _).
  rewrite Hp, Hparse. unfold result_of. cbn [fst].
  eexists. split; [reflexivity |].
  unfold graded_from, grade_value, first_truthy, present_values, grade_fields.
  cbn [flat_map get_own]. rewrite Hgrade.
  cbn [app find truthy]. rewrite Hn. split; reflexivity.
Qed.

(** X9. An answer that is not a string (Provider B may hand back any JSON
    value as content) is not parsed: the result is the text format, grade 0
    with that value as feedback. *)
Theorem gradeSubmission_keeps_a_non_string_answer
        (gradingMode : string) (ocrText : option string) (generatedContent : option jsval)
        (gradingCriteria customInstructions : option string)
        (s s1 : S) (tr : list entry) (answer : jsval) :
  run h (Ai.generateWithFallback
           (Ai.grading_prompt ocrText generatedContent gradingCriteria customInstructions)) s
  = (Returned answer, tr, s1) ->
  (forall text, answer <> JStr text) ->
  result_of (run h (Ai.gradeSubmission gradingMode ocrText generatedContent
                                       gradingCriteria customInstructions) s)
  = Returned (Ai.text_format answer).
Proof.
  intros Hrun Hnot. rewrite result_gradeSubmission, Hrun.
  destruct answer as [| b | n | text | items | props]; try reflexivity.
  contradiction (Hnot text). reflexivity.
Qed.

End Generation.

(* ===================================================================== *)
(** * Further properties of the OCR paths *)
(* ===================================================================== *)

Lemma trimStart_cases (s : string) :
  Str.trimStart s = EmptyString
  \/ exists c r, Str.trimStart s = String c r /\ Str.is_ws c = false.
Proof.
  induction s as [| c s IH]; [left; reflexivity |]. simpl.
  destruct (Str.is_ws c) eqn:Hc; [exact IH |]. right. exists c, s. auto.
Qed.

Lemma trimEnd_idempotent (s : string) : Str.trimEnd (Str.trimEnd s) = Str.trimEnd s.
Proof.
  induction s as [| c s IH]; [reflexivity |]. cbn [Str.trimEnd].
  destruct (Str.trimEnd s) as [| d t] eqn:Ht.
  - destruct (Str.is_ws c) eqn:Hc; [reflexivity |]. cbn. rewrite Hc. reflexivity.
  - cbn [Str.trimEnd] in *. rewrite IH. reflexivity.
Qed.

Lemma trimEnd_keeps_head (c : ascii) (s : string) :
  Str.is_ws c = false -> exists r, Str.trimEnd (String c s) = String c r.
Proof.
  intros Hc. cbn [Str.trimEnd]. destruct (Str.trimEnd s); [rewrite Hc |]; eexists; reflexivity.
Qed.

(** Trimming a trimmed string changes nothing. *)
Lemma trim_idempotent (s : string) : Str.trim (Str.trim s) = Str.trim s.
Proof.
  unfold Str.trim. destruct (trimStart_cases s) as [-> | (c & r & -> & Hc)]; [reflexivity |].
  destruct (trimEnd_keeps_head c r Hc) as [r' Hr]. rewrite Hr.
  cbn [Str.trimStart]. rewrite Hc, <- Hr. apply trimEnd_idempotent.
Qed.

Section OcrPaths.
Context {B : Builtins} {S : Type} (h : handler S).

#[local] Arguments Ai.pdf_pages : simpl never.
#[local] Arguments Ai.pdf_catch : simpl never.
#[local] Arguments Ai.image_catch : simpl never.

(** What the [try] block of the PDF path returns, when it returns. *)
Lemma pdf_try_returned (file : File) (s : S) (r : Ai.ExtractionResult) :
  result_of (run h (Ai.pdf_try file) s) = Returned r ->
  exists allExtractedText,
    Str.trim allExtractedText <> EmptyString
    /\ r = {| Ai.success := true;
              Ai.extracted_text := Str.trim allExtractedText;
              Ai.message := "Text extracted successfully from PDF using client-side OCR";
              Ai.file_info := Ai.file_info_of file;
              Ai.confidence_of := None |}.
Proof.
  unfold Ai.pdf_try. rewrite run_bind. cbn [run await].
  destruct (h _ (Import _) s) as [[e | []] s1]; cbn [run]; [discriminate |].
  rewrite run_bind. cbn [run call].
  destruct (h _ SetWorkerSrc s1) as [[] s2]; cbn [run].
  rewrite run_bind. cbn [run await].
  destruct (h _ (FileArrayBuffer file) s2) as [[e | buffer] s3]; cbn [run]; [discriminate |].
  rewrite run_bind. cbn [run await].
  destruct (h _ (GetDocument buffer) s3) as [[e | pdf] s4]; cbn [run]; [discriminate |].
  rewrite run_bind.
  destruct (run h (Ai.pdf_pages pdf (numPages pdf) 1 "") s4) as [[[a | e] tr] s5];
    [| discriminate].
  destruct (String.eqb (Str.trim a) "") eqn:Hblank; cbn; [discriminate |].
  intros Heq. injection Heq as <-. exists a. split; [| reflexivity].
  apply String.eqb_neq. exact Hblank.
Qed.

(** Every error of the PDF path comes out of its [catch] block. *)
Lemma extractTextFromPDF_error_shapes_aux (file : File) (s : S) (e : exn) :
  result_of (run h (Ai.extractTextFromPDF file) s) = Thrown e ->
  e = Error "Invalid or corrupted PDF file. Please try a different document."
  \/ exists cause, e = Error ("Failed to extract text from PDF: " ++ cause).
Proof.
  unfold Ai.extractTextFromPDF. rewrite run_bind. cbn [run console_log].
  rewrite run_try_catch.
  destruct (run h (Ai.pdf_try file) s) as [[[r | e'] tr] s1]; [discriminate |].
  rewrite run_pdf_catch. unfold result_of. cbn [fst].
  destruct (Ai.message_includes e' "Invalid PDF"); intros Heq; injection Heq as <-.
  - left. reflexivity.
  - right. eexists; reflexivity.
Qed.

(** X10. Whatever goes wrong on the PDF path (a library that does not load,
    an unreadable file, a document that does not parse, a page that fails
    to render or to be recognized, no text at all), the caller gets one of
    two errors: the fixed invalid-document message, or
    [Failed to extract text from PDF: ] followed by the cause's message. *)
Theorem extractTextFromPDF_error_shapes (file : File) (s : S) (e : exn) :
  result_of (run h (Ai.extractTextFromPDF file) s) = Thrown e ->
  e = Error "Invalid or corrupted PDF file. Please try a different document."
  \/ exists cause, e = Error ("Failed to extract text from PDF: " ++ cause).
Proof. apply extractTextFromPDF_error_shapes_aux. Qed.

(** X11. A result of the PDF path always has text: it is marked successful,
    its text is not empty and is already trimmed, it names the file it was
    given, and it has no confidence. *)
Theorem extractTextFromPDF_result_has_text (file : File) (s : S) (r : Ai.ExtractionResult) :
  result_of (run h (Ai.extractTextFromPDF file) s) = Returned r ->
  Ai.success r = true
  /\ Ai.extracted_text r <> EmptyString
  /\ Str.trim (Ai.extracted_text r) = Ai.extracted_text r
  /\ Ai.file_info r = file
  /\ Ai.confidence_of r = None.
Proof.
  unfold Ai.extractTextFromPDF. rewrite run_bind. cbn [run console_log].
  rewrite run_try_catch. pose proof (pdf_try_returned file s) as Htry.
  destruct (run h (Ai.pdf_try file) s) as [[[r' | e'] tr] s1].
  - unfold result_of in *. cbn [fst] in *. intros Heq. injection Heq as <-.
    destruct (Htry r' eq_refl) as (a & Ha & ->). cbn.
    repeat split; [exact Ha | apply trim_idempotent | destruct file; reflexivity].
  - rewrite run_pdf_catch. discriminate.
Qed.

(** X12. The 10 MiB limit is for images only: [extractText] on a file
    declared application/pdf starts the OCR work whatever the size of the
    file, and never throws the too-large error. *)
Theorem extractText_has_no_size_limit_for_pdf (file : File) (s : S) :
  file_type file = "application/pdf" ->
  let r := run h (Ai.extractText file) s in
  (exists answer rest,
      trace_of r = Console LogInfo "Calling extractText for file:"
                   :: Console LogInfo "Processing PDF with client-side OCR:"
                   :: Call (Import ["pdfjs-dist"; "pdfjs-dist/build/pdf.worker.min.mjs?url";
                                    "tesseract.js"]) answer
                   :: rest)
  /\ result_of r <> Thrown (Error "File size too large. Please use files smaller than 10MB.").
Proof.
  intros Htype r. subst r. unfold Ai.extractText. rewrite Htype.
  cbn [bind console_log run Str.array_includes Ai.allSupportedTypes Ai.supportedImageTypes
       Ai.supportedDocumentTypes app existsb String.eqb Ascii.eqb Bool.eqb orb negb].
  split.
  - unfold Ai.extractTextFromPDF, Ai.pdf_try. cbn [bind console_log run try_catch await].
    destruct (h _ (Import _) s) as [answer s1].
    match goal with
    | |- context [run h ?p s1] => destruct (run h p s1) as [[o tr] s2]
    end.
    eexists; eexists; reflexivity.
  - intros Habs.
    assert (Hthrown : result_of (run h (Ai.extractTextFromPDF file) s)
                      = Thrown (Error "File size too large. Please use files smaller than 10MB.")).
    { destruct (run h (Ai.extractTextFromPDF file) s) as [[o tr] s1]. exact Habs. }
    destruct (extractTextFromPDF_error_shapes_aux file s _ Hthrown) as [Heq | [cause Heq]];
      discriminate Heq.
Qed.

(** The run of the image path's [try] block when the library loads and
    recognition answers. *)
Lemma run_image_try_recognized (file : File) (s s1 s2 : S) (data : OcrData) :
  h _ (Import ["tesseract.js"]) s = (inr tt, s1) ->
  h _ (Recognize (ImageFile file) "eng") s1 = (inr data, s2) ->
  run h (Ai.image_try file) s =
  let head := [Console LogInfo "Starting Tesseract OCR processing...";
               Call (Import ["tesseract.js"]) (inr tt);
               Call (Recognize (ImageFile file) "eng") (inr data);
               Console LogInfo "Tesseract OCR completed. Confidence:";
               Console LogInfo "Extracted text:"] in
  if String.eqb (Str.trim (text data)) ""
  then (Thrown (Error Ai.image_no_text), head, s2)
  else (Returned {| Ai.success := true;
                    Ai.extracted_text := Str.trim (text data);
                    Ai.message := "Text extracted successfully using Tesseract.js (confidence: "
                                  ++ Number_toFixed1 (confidence data) ++ "%)";
                    Ai.file_info := Ai.file_info_of file;
                    Ai.confidence_of := Some (confidence data) |},
        (head ++ if Num.ltb (confidence data) (Num.Dec 30 0)
                 then [Console LogWarn "Low OCR confidence detected:"] else [])%list,
        s2).
Proof.
  intros Himp Hrec. unfold Ai.image_try. cbn. rewrite Himp. cbn. rewrite Hrec. cbn.
  assert (Hblank : (String.eqb (text data) "" || (String.length (Str.trim (text data)) =? 0)%nat)
                   = String.eqb (Str.trim (text data)) "").
  { destruct (text data) as [| c t] eqn:Ht; [reflexivity |].
    cbn [String.eqb orb]. destruct (Str.trim (String c t)); reflexivity. }
  rewrite Hblank. destruct (String.eqb (Str.trim (text data)) ""); cbn; [reflexivity |].
  destruct (Num.ltb (confidence data) (Num.Dec 30 0)); reflexivity.
Qed.

(** X13. An image in which recognition finds only white space makes the
    image path throw the no-text error as it is: the [catch] block lets it
    through unwrapped (the PDF path wraps its own). *)
Theorem extractTextFromImage_blank_text_error
        (file : File) (s s1 s2 : S) (data : OcrData) :
  file_size file <= 10 * 1024 * 1024 ->
  h _ (Import ["tesseract.js"]) s = (inr tt, s1) ->
  h _ (Recognize (ImageFile file) "eng") s1 = (inr data, s2) ->
  Str.trim (text data) = EmptyString ->
  result_of (run h (Ai.extractTextFromImage file) s) =
  Thrown (Error ("No text was extracted from the image. "
                 ++ "Please ensure the image contains readable text.")).
Proof.
  intros Hsize Himp Hrec Hblank. unfold Ai.extractTextFromImage.
  cbn [bind console_log run].
  assert (Hgt : (file_size file >? Ai.maxSize) = false)
    by (rewrite Z.gtb_ltb; apply Z.ltb_ge; unfold Ai.maxSize; lia).
  rewrite Hgt, run_try_catch, (run_image_try_recognized file s s1 s2 data Himp Hrec).
  cbn zeta. rewrite Hblank. cbn [String.eqb]. vm_compute. reflexivity.
Qed.

(** X14. A low confidence does not fail the image path: whenever the library
    loads and recognition returns text that is not blank, the result carries
    the trimmed text and the confidence as reported, and the only effect of
    a confidence under 30 is one console warning. *)
Theorem extractTextFromImage_returns_at_any_confidence
        (file : File) (s s1 s2 : S) (data : OcrData) :
  file_size file <= 10 * 1024 * 1024 ->
  h _ (Import ["tesseract.js"]) s = (inr tt, s1) ->
  h _ (Recognize (ImageFile file) "eng") s1 = (inr data, s2) ->
  Str.trim (text data) <> EmptyString ->
  let r := run h (Ai.extractTextFromImage file) s in
  (exists x, result_of r = Returned x
             /\ Ai.extracted_text x = Str.trim (text data)
             /\ Ai.confidence_of x = Some (confidence data))
  /\ (In (Console LogWarn "Low OCR confidence detected:") (trace_of r)
      <-> Num.ltb (confidence data) (Num.Dec 30 0) = true).
Proof.
  intros Hsize Himp Hrec Htext r. subst r. unfold Ai.extractTextFromImage.
  cbn [bind console_log run].
  assert (Hgt : (file_size file >? Ai.maxSize) = false)
    by (rewrite Z.gtb_ltb; apply Z.ltb_ge; unfold Ai.maxSize; lia).
  rewrite Hgt, run_try_catch, (run_image_try_recognized file s s1 s2 data Himp Hrec).
  cbn zeta. apply String.eqb_neq in Htext. rewrite Htext.
  unfold result_of, trace_of. cbn [fst snd]. split.
  - eexists. repeat split.
  - destruct (Num.ltb (confidence data) (Num.Dec 30 0)); cbn; split; intros H.
    + reflexivity.
    + do 6 right. left. reflexivity.
    + repeat (destruct H as [H | H]; [discriminate H |]). contradiction H.
    + discriminate H.
Qed.

(** X15. A result of the image path always has text and a confidence: the
    file was at most 10 MiB, recognition ran exactly once, the text is not
    empty and is trimmed, and the confidence is present. *)
Theorem extractTextFromImage_result_has_text_and_confidence
        (file : File) (s : S) (x : Ai.ExtractionResult) :
  let r := run h (Ai.extractTextFromImage file) s in
  result_of r = Returned x ->
  file_size file <= 10 * 1024 * 1024
  /\ count is_Recognize (trace_of r) = 1%nat
  /\ Ai.extracted_text x <> EmptyString
  /\ Str.trim (Ai.extracted_text x) = Ai.extracted_text x
  /\ (exists c, Ai.confidence_of x = Some c)
  /\ Ai.file_info x = file.
Proof.
  intros r. subst r. unfold Ai.extractTextFromImage. cbn [bind console_log run].
  destruct (file_size file >? Ai.maxSize) eqn:Hgt; [discriminate |].
  assert (Hsize : file_size file <= 10 * 1024 * 1024).
  { rewrite Z.gtb_ltb in Hgt. apply Z.ltb_ge in Hgt. exact Hgt. }
  rewrite run_try_catch.
  destruct (h _ (Import ["tesseract.js"]) s) as [[e | []] s1] eqn:Himp.
  { unfold Ai.image_try. cbn. rewrite Himp. cbn.
    pose proof (trace_image_catch h e s1) as _.
    destruct (run h (Ai.image_catch e) s1) as [[o tr] s2] eqn:Hc.
    unfold Ai.image_catch in Hc. cbn in Hc.
    repeat match type of Hc with
           | context [if ?b then _ else _] => destruct b
           end; injection Hc as <- _ _; discriminate. }
  destruct (h _ (Recognize (ImageFile file) "eng") s1) as [[e | data] s2] eqn:Hrec.
  { unfold Ai.image_try. cbn. rewrite Himp. cbn. rewrite Hrec. cbn.
    destruct (run h (Ai.image_catch e) s2) as [[o tr] s3] eqn:Hc.
    unfold Ai.image_catch in Hc. cbn in Hc.
    repeat match type of Hc with
           | context [if ?b then _ else _] => destruct b
           end; injection Hc as <- _ _; discriminate. }
  rewrite (run_image_try_recognized file s s1 s2 data Himp Hrec). cbn zeta.
  destruct (String.eqb (Str.trim (text data)) "") eqn:Hblank.
  { destruct (run h (Ai.image_catch (Error Ai.image_no_text)) s2) as [[o tr] s3] eqn:Hc.
    unfold Ai.image_catch in Hc. cbn in Hc.
    repeat match type of Hc with
           | context [if ?b then _ else _] => destruct b
           end; injection Hc as <- _ _; discriminate. }
  unfold result_of, trace_of. cbn [fst snd]. intros Heq. injection Heq as <-. cbn.
  split; [exact Hsize |]. split.
  { destruct (Num.ltb (confidence data) (Num.Dec 30 0)); reflexivity. }
  split; [apply String.eqb_neq; exact Hblank |].
  split; [apply trim_idempotent |].
  split; [eexists; reflexivity | destruct file; reflexivity].
Qed.

(** The page loop under any answers: the pages asked for are consecutive
    from [pageNum], and a page is recognized only after it was asked for. *)
Lemma console_entry_ok (post : list entry) :
  forallb is_Console post = true -> forallb entry_ok post = true.
Proof.
  induction post as [| [l m | T ev a] post IH]; intros Hpost;
    [reflexivity | exact (IH Hpost) | discriminate Hpost].
Qed.

Lemma console_quiet (post : list entry) :
  forallb is_Console post = true -> quiet_after_failure post = true.
Proof.
  induction post as [| [l m | T ev a] post IH]; intros Hpost;
    [reflexivity | exact (IH Hpost) | discriminate Hpost].
Qed.

Lemma quiet_after_failure_app (tr post : list entry) :
  quiet_after_failure tr = true -> forallb is_Console post = true ->
  quiet_after_failure (tr ++ post) = true.
Proof.
  intros Htr Hpost. induction tr as [| e tr IH]; cbn [app quiet_after_failure] in *.
  - apply console_quiet. exact Hpost.
  - destruct (entry_ok e).
    + apply IH. exact Htr.
    + rewrite forallb_app, Htr, Hpost. reflexivity.
Qed.

(** What [quiet_after_failure] says of a trace, entry by entry. *)
Lemma quiet_after_failure_split (tr pre post : list entry) (e : entry) :
  quiet_after_failure tr = true ->
  tr = (pre ++ e :: post)%list -> entry_ok e = false ->
  forallb is_Console post = true.
Proof.
  revert tr. induction pre as [| x pre IH]; intros tr Hquiet -> Hfail;
    cbn [app quiet_after_failure] in Hquiet.
  - rewrite Hfail in Hquiet. exact Hquiet.
  - destruct (entry_ok x).
    + apply (IH _ Hquiet eq_refl Hfail).
    + rewrite forallb_app in Hquiet. apply andb_true_iff in Hquiet.
      destruct Hquiet as [_ Hrest]. cbn [forallb] in Hrest.
      apply andb_true_iff in Hrest. destruct Hrest as [Hconsole _].
      destruct e as [l m | T ev a]; [discriminate Hfail | discriminate Hconsole].
Qed.

Lemma pdf_pages_requests (pdf : PDFDocument) (remaining : nat) :
  forall (pageNum : nat) (acc : string) (s : S),
    let tr := trace_of (run h (Ai.pdf_pages pdf remaining pageNum acc) s) in
    exists k : nat,
      (k <= remaining)%nat
      /\ pages_requested tr = seq pageNum k
      /\ (count is_Recognize tr <= k)%nat
      /\ opened tr = []
      /\ quiet_after_failure tr = true
      /\ (forallb entry_ok tr = true -> k = remaining).
Proof.
  induction remaining as [| remaining IH]; intros pageNum acc s tr; subst tr.
  - exists 0%nat. unfold count, trace_of. cbn. repeat split; try reflexivity; try lia.
  - rewrite pdf_pages_S. cbn.
    destruct (h _ (GetPage pdf pageNum) s) as [[e | page] s1]; cbn.
    { exists 1%nat. unfold count. cbn.
      repeat split; try reflexivity; try lia; intros Hno; discriminate Hno. }
    destruct (h _ (RenderPage page (Num.Dec 20 (-1))) s1) as [[e | canvas] s2]; cbn.
    { exists 1%nat. unfold count. cbn.
      repeat split; try reflexivity; try lia; intros Hno; discriminate Hno. }
    destruct (h _ (CanvasToBlob canvas) s2) as [blob s3]; cbn.
    destruct (h _ (Recognize (ImageBlob blob) "eng") s3) as [[e | data] s4]; cbn.
    { exists 1%nat. unfold count. cbn.
      repeat split; try reflexivity; try lia; intros Hno; discriminate Hno. }
    match goal with
    | |- context [run h (Ai.pdf_pages pdf remaining (Datatypes.S pageNum) ?acc') s4] =>
        specialize (IH (Datatypes.S pageNum) acc' s4);
        destruct (run h (Ai.pdf_pages pdf remaining (Datatypes.S pageNum) acc') s4)
          as [[o tr] s5]
    end.
    unfold trace_of in *. cbn in *.
    destruct IH as (k & Hk & Hpages & Hcount & Hopen & Hquiet & Hall).
    exists (Datatypes.S k). unfold count in *. cbn. rewrite Hpages, Hopen.
    repeat split; try reflexivity; try lia; try exact Hquiet.
    intros Hok. rewrite (Hall Hok). reflexivity.
Qed.

(** X16. Under any answers of the environment, the PDF path opens at most
    one document and asks for its pages in order without gap or repeat,
    1, 2, ..., k with k at most numPages, and recognizes no page it has not
    asked for. It stops at the first page that fails: once a request (for
    a page, its rendering or its recognition, or any earlier one) has been
    answered with an error, only console lines follow, so that no further
    page is asked for, rendered or recognized. It does not stop earlier:
    when no request fails, k is numPages. *)
Theorem extractTextFromPDF_pages_in_order (file : File) (s : S) :
  let tr := trace_of (run h (Ai.extractTextFromPDF file) s) in
  exists k : nat,
    pages_requested tr = seq 1 k
    /\ (count is_Recognize tr <= k)%nat
    /\ (List.length (opened tr) <= 1)%nat
    /\ (forall pdf, In pdf (opened tr) -> (k <= numPages pdf)%nat)
    /\ (forall pre e post,
           tr = (pre ++ e :: post)%list -> entry_ok e = false ->
           forallb is_Console post = true
           /\ pages_requested post = []
           /\ count is_Recognize post = 0%nat)
    /\ (forallb entry_ok tr = true ->
        forall pdf, In pdf (opened tr) -> k = numPages pdf).
Proof.
  intros tr.
  assert (Hconsole : forall post, forallb is_Console post = true ->
                       pages_requested post = [] /\ count is_Recognize post = 0%nat).
  { clear. induction post as [| [l m | T ev a] post IH]; intros Hpost;
      [split; reflexivity | exact (IH Hpost) | discriminate Hpost]. }
  enough (Hgoal : exists k : nat,
             pages_requested tr = seq 1 k
             /\ (count is_Recognize tr <= k)%nat
             /\ (List.length (opened tr) <= 1)%nat
             /\ (forall pdf, In pdf (opened tr) -> (k <= numPages pdf)%nat)
             /\ quiet_after_failure tr = true
             /\ (forallb entry_ok tr = true ->
                 forall pdf, In pdf (opened tr) -> k = numPages pdf)).
  { destruct Hgoal as (k & Hp & Hc & Ho & Hb & Hq & Ha).
    exists k. repeat (split; [assumption |]). split; [| exact Ha].
    intros pre e post Htr Hfail.
    pose proof (quiet_after_failure_split tr pre post e Hq Htr Hfail) as Hpost.
    split; [exact Hpost | apply Hconsole; exact Hpost]. }
  clear Hconsole. subst tr. unfold Ai.extractTextFromPDF.
  rewrite run_bind. cbn [run console_log].
  rewrite run_try_catch. unfold Ai.pdf_try.
  rewrite run_bind. cbn [run await].
  destruct (h _ (Import _) s) as [[e | []] s1]; cbn [run].
  { rewrite run_pdf_catch. exists 0%nat. unfold count. cbn.
    repeat split; try lia; try contradiction; intros Hno; discriminate Hno. }
  rewrite run_bind. cbn [run call].
  destruct (h _ SetWorkerSrc s1) as [[] s2]; cbn [run].
  rewrite run_bind. cbn [run await].
  destruct (h _ (FileArrayBuffer file) s2) as [[e | buffer] s3]; cbn [run].
  { rewrite run_pdf_catch. exists 0%nat. unfold count. cbn.
    repeat split; try lia; try contradiction; intros Hno; discriminate Hno. }
  rewrite run_bind. cbn [run await].
  destruct (h _ (GetDocument buffer) s3) as [[e | pdf] s4]; cbn [run].
  { rewrite run_pdf_catch. exists 0%nat. unfold count. cbn.
    repeat split; try lia; try contradiction; intros Hno; discriminate Hno. }
  rewrite run_bind.
  destruct (pdf_pages_requests pdf (numPages pdf) 1 "" s4)
    as (k & Hk & Hpages & Hcount & Hopen & Hquiet & Hall).
  destruct (run h (Ai.pdf_pages pdf (numPages pdf) 1 "") s4) as [[o tr] s5].
  unfold trace_of in Hpages, Hcount, Hopen, Hquiet, Hall.
  cbn [fst snd] in Hpages, Hcount, Hopen, Hquiet, Hall.
  exists k.
  assert (Hobs : forall post, forallb is_Console post = true ->
                  let full :=
                    Console LogInfo "Processing PDF with client-side OCR:"
                    :: Call (Import ["pdfjs-dist"; "pdfjs-dist/build/pdf.worker.min.mjs?url";
                                     "tesseract.js"]) (inr tt)
                    :: Call SetWorkerSrc tt
                    :: Call (FileArrayBuffer file) (inr buffer)
                    :: Call (GetDocument buffer) (inr pdf)
                    :: (tr ++ post)%list in
                  pages_requested full = seq 1 k
                  /\ (count is_Recognize full <= k)%nat
                  /\ (List.length (opened full) <= 1)%nat
                  /\ (forall d, In d (opened full) -> (k <= numPages d)%nat)
                  /\ quiet_after_failure full = true
                  /\ (forallb entry_ok full = true ->
                      forall d, In d (opened full) -> k = numPages d)).
  { intros post Hpost full.
    destruct (observe_pdf_trace file buffer pdf tr post Hpost) as (_ & Hp & Ho & Hc & He).
    fold full in Hp, Ho, Hc, He. rewrite Hp, Ho, Hc, He, Hopen.
    split; [exact Hpages |]. split; [exact Hcount |]. split; [cbn; lia |].
    split; [intros d [<- | []]; exact Hk |].
    split.
    - subst full. cbn [quiet_after_failure entry_ok answer_ok settled].
      apply quiet_after_failure_app; assumption.
    - intros Hok d [<- | []]. exact (Hall Hok). }
  destruct o as [a | e].
  - destruct (String.eqb (Str.trim a) ""); cbn [run].
    + rewrite run_pdf_catch. unfold trace_of. cbn [fst snd app]. rewrite app_nil_r.
      apply (Hobs [Console LogError "PDF OCR error:"]). reflexivity.
    + unfold trace_of. cbn [fst snd app]. apply (Hobs []). reflexivity.
  - rewrite run_pdf_catch. unfold trace_of. cbn [fst snd app].
    apply (Hobs [Console LogError "PDF OCR error:"]). reflexivity.
Qed.

End OcrPaths.

(* ===================================================================== *)
(** * Further properties of the storage utilities *)
(* ===================================================================== *)

Lemma extension_lower (name : string) :
  Storage.extension name = Str.toLowerCase (Str.split_pop "." name).
Proof.
  unfold Storage.extension.
  destruct (String.eqb (Str.toLowerCase (Str.split_pop "." name)) "") eqn:He; [| reflexivity].
  apply String.eqb_eq in He. symmetry. exact He.
Qed.

Lemma size_gate (size : Z) :
  (size >? Storage.maxSize) = false <-> size <= 10 * 1024 * 1024.
Proof.
  rewrite Z.gtb_ltb, Z.ltb_ge. unfold Storage.maxSize. reflexivity.
Qed.

(** The two tests of [validateSubmissionFile]. *)
Lemma validateSubmissionFile_valid_iff_aux (file : File) :
  (Storage.valid (Storage.validateSubmissionFile file) = true <->
   file_size file <= 10 * 1024 * 1024
   /\ (In (file_type file) Storage.allowedTypes
       \/ In (Str.toLowerCase (Str.split_pop "." (file_name file))) Storage.allowedExtensions))
  /\ (Storage.valid (Storage.validateSubmissionFile file) = true <->
      Storage.error (Storage.validateSubmissionFile file) = None).
Proof.
  unfold Storage.validateSubmissionFile. rewrite extension_lower.
  destruct (file_size file >? Storage.maxSize) eqn:Hgt.
  - cbn [Storage.valid Storage.error]. split; split; try discriminate.
    intros [Hsize _]. apply size_gate in Hsize. congruence.
  - apply size_gate in Hgt.
    destruct (Str.array_includes Storage.allowedTypes (file_type file)) eqn:Ht;
      destruct (Str.array_includes Storage.allowedExtensions
                  (Str.toLowerCase (Str.split_pop "." (file_name file)))) eqn:Hx;
      cbn [Storage.valid Storage.error orb negb]; split; split; try discriminate;
      try reflexivity; intros H.
    + split; [exact Hgt | left; apply array_includes_In; exact Ht].
    + split; [exact Hgt | left; apply array_includes_In; exact Ht].
    + split; [exact Hgt | right; apply array_includes_In; exact Hx].
    + destruct H as [_ [H | H]]; apply array_includes_In in H; congruence.
Qed.

(** X17. What [validateSubmissionFile] accepts, exactly: a file is valid if
    and only if it is at most 10 MiB and its declared type is an allowed one
    or the lower-cased last dot-segment of its name is an allowed
    extension; and a result carries an error message exactly when it is
    invalid. *)
Theorem validateSubmissionFile_valid_iff (file : File) :
  (Storage.valid (Storage.validateSubmissionFile file) = true <->
   file_size file <= 10 * 1024 * 1024
   /\ (In (file_type file) Storage.allowedTypes
       \/ In (Str.toLowerCase (Str.split_pop "." (file_name file))) Storage.allowedExtensions))
  /\ (Storage.valid (Storage.validateSubmissionFile file) = true <->
      Storage.error (Storage.validateSubmissionFile file) = None).
Proof. apply validateSubmissionFile_valid_iff_aux. Qed.

(** A name without any dot is taken whole as its extension: a file of
    at most 10 MiB named, in any letter case, pdf, png, jpg, jpeg, gif, webp
    or avif is valid whatever its declared type. *)
Theorem validateSubmissionFile_dotless_name_is_its_extension (file : File) :
  file_size file <= 10 * 1024 * 1024 ->
  ~ In "."%char (list_ascii_of_string (file_name file)) ->
  In (Str.toLowerCase (file_name file)) Storage.allowedExtensions ->
  Storage.validateSubmissionFile file = {| Storage.valid := true; Storage.error := None |}.
Proof.
  intros Hsize Hno Hext. unfold Storage.validateSubmissionFile.
  apply size_gate in Hsize. rewrite Hsize, extension_lower.
  unfold Str.split_pop. rewrite (last_segment_no_sep "." "" (file_name file) Hno).
  cbn [append]. apply array_includes_In in Hext. rewrite Hext, orb_true_r. reflexivity.
Qed.

(** X18. What [validateMaterialFile] accepts, exactly: a file is valid if
    and only if it is at most 10 MiB and the lower-cased last dot-segment of
    its name is one of the fifteen material extensions. The declared type
    plays no part, and a name ending in a dot is invalid. *)
Theorem validateMaterialFile_valid_iff (file : File) :
  (Storage.valid (Upload.validateMaterialFile file) = true <->
   file_size file <= 10 * 1024 * 1024
   /\ In (Str.toLowerCase (Str.split_pop "." (file_name file))) Upload.materialExtensions)
  /\ (Storage.valid (Upload.validateMaterialFile file) = true <->
      Storage.error (Upload.validateMaterialFile file) = None)
  /\ (forall base, file_name file = base ++ "." ->
                   Storage.valid (Upload.validateMaterialFile file) = false).
Proof.
  unfold Upload.validateMaterialFile.
  destruct (file_size file >? Storage.maxSize) eqn:Hgt.
  - cbn [Storage.valid Storage.error]. split; [| split].
    + split; [discriminate |]. intros [Hsize _]. apply size_gate in Hsize. congruence.
    + split; discriminate.
    + intros base _. reflexivity.
  - apply size_gate in Hgt.
    set (ext := Str.toLowerCase (Str.split_pop "." (file_name file))).
    assert (Hempty : String.eqb ext "" = true ->
                     Str.array_includes Upload.materialExtensions ext = false).
    { intros He. apply String.eqb_eq in He. rewrite He. reflexivity. }
    destruct (Str.array_includes Upload.materialExtensions ext) eqn:Hx.
    + destruct (String.eqb ext "") eqn:He; [specialize (Hempty eq_refl); discriminate |].
      cbn [Storage.valid Storage.error orb negb]. split; [| split].
      * split; [intros _ | reflexivity]. split; [exact Hgt | apply array_includes_In; exact Hx].
      * split; reflexivity.
      * intros base Hname. exfalso. subst ext. rewrite Hname in He.
        change (base ++ ".") with (base ++ String "." "") in He.
        unfold Str.split_pop in He.
        rewrite (last_segment_after_sep "." base "") in He; [discriminate He |].
        intros [].
    + rewrite orb_true_r. cbn [Storage.valid Storage.error negb]. split; [| split].
      * split; [discriminate |]. intros [_ Hin]. apply array_includes_In in Hin. congruence.
      * split; discriminate.
      * intros base _. reflexivity.
Qed.

Lemma submission_extension_is_material_extension (ext : string) :
  In ext Storage.allowedExtensions -> In ext Upload.materialExtensions.
Proof.
  intros Hin. cbn in Hin.
  repeat (destruct Hin as [<- | Hin]; [cbn; tauto |]). contradiction Hin.
Qed.

(** The submission extensions are material extensions: a file that
    [validateSubmissionFile] accepts although its declared type is not an
    allowed one is also accepted by [validateMaterialFile]. *)
Theorem submission_valid_by_name_is_valid_material (file : File) :
  Storage.valid (Storage.validateSubmissionFile file) = true ->
  ~ In (file_type file) Storage.allowedTypes ->
  Upload.validateMaterialFile file = {| Storage.valid := true; Storage.error := None |}.
Proof.
  intros Hvalid Htype.
  apply (proj1 (validateSubmissionFile_valid_iff_aux file)) in Hvalid.
  destruct Hvalid as [Hsize [Hin | Hin]]; [contradiction |].
  apply submission_extension_is_material_extension in Hin.
  unfold Upload.validateMaterialFile. apply size_gate in Hsize. rewrite Hsize.
  assert (Hne : String.eqb (Str.toLowerCase (Str.split_pop "." (file_name file))) "" = false).
  { destruct (String.eqb _ "") eqn:He; [| reflexivity].
    apply String.eqb_eq in He. rewrite He in Hin. cbn in Hin.
    repeat (destruct Hin as [Hin | Hin]; [discriminate Hin |]). contradiction Hin. }
  apply array_includes_In in Hin. rewrite Hne, Hin. reflexivity.
Qed.

(** ** Runs of composed programs, over any signature *)

Section IoRunLemmas.
Context {E : Type -> Type} {S : Type} (h : Io.handler E S).

Lemma io_run_bind {A C : Type} (p : Io.prog E A) (f : A -> Io.prog E C) (s : S) :
  Io.run h (Io.bind p f) s =
  match Io.run h p s with
  | (Returned a, tr, s1) =>
      let '(o, tr', s2) := Io.run h (f a) s1 in (o, (tr ++ tr')%list, s2)
  | (Thrown e, tr, s1) => (Thrown e, tr, s1)
  end.
Proof.
  revert s. induction p as [a | e | l m k IH | T ev k IH]; intros s; simpl.
  - destruct (Io.run h (f a) s) as [[o tr] s2]. reflexivity.
  - reflexivity.
  - rewrite IH. destruct (Io.run h k s) as [[[a | e] tr] s1]; simpl.
    + destruct (Io.run h (f a) s1) as [[o tr'] s2]. reflexivity.
    + reflexivity.
  - destruct (h _ ev s) as [r s1]. rewrite IH.
    destruct (Io.run h (k r) s1) as [[[a | e] tr] s2]; simpl.
    + destruct (Io.run h (f a) s2) as [[o tr'] s3]. reflexivity.
    + reflexivity.
Qed.


(** The [finally] block runs after the body, however the body ends. *)
Lemma io_run_try_finally {A : Type} (p : Io.prog E A) (f : Io.prog E unit) (s : S) :
  Io.run h (Io.try_finally p f) s =
  let '(o, tr, s1) := Io.run h p s in
  match Io.run h f s1 with
  | (Returned _, tr', s2) => (o, (tr ++ tr')%list, s2)
  | (Thrown e, tr', s2) => (Thrown e, (tr ++ tr')%list, s2)
  end.
Proof.
  revert s. induction p as [a | e | l m k IH | T ev k IH]; intros s; simpl.
  - rewrite io_run_bind. destruct (Io.run h f s) as [[[[] | e] tr] s1]; cbn;
      rewrite ?app_nil_r; reflexivity.
  - rewrite io_run_bind. destruct (Io.run h f s) as [[[[] | e'] tr] s1]; cbn;
      rewrite ?app_nil_r; reflexivity.
  - rewrite IH. destruct (Io.run h k s) as [[o tr] s1].
    destruct (Io.run h f s1) as [[[[] | e] tr'] s2]; reflexivity.
  - destruct (h _ ev s) as [r s1]. rewrite IH.
    destruct (Io.run h (k r) s1) as [[o tr] s2].
    destruct (Io.run h f s2) as [[[[] | e] tr'] s3]; reflexivity.
Qed.

End IoRunLemmas.

Section Uploads.
Context {S : Type} (h : Io.handler Upload.storageE S).

(** The run of [uploadFile] for a signed-in user, from the answers of the
    storage backend. *)
Lemma run_uploadFile_signed_in
      (file : File) (bucket : Upload.Bucket) (folder : option string)
      (user : Upload.User) (s s1 : S) :
  h _ Upload.AuthGetUser s = (inr (Some user), s1) ->
  Io.run h (Upload.uploadFile file bucket folder) s =
  let '(timestamp, s2) := h _ Upload.DateNow s1 in
  let '(randomId, s3) := h _ Upload.RandomId s2 in
  let key := Upload.filePath_of user folder timestamp randomId
                                (Str.split_pop "." (file_name file)) in
  let options := {| Upload.cacheControl := "3600"; Upload.upsert := false |} in
  let '(answer, s4) := h _ (Upload.StorageUpload bucket key file options) s3 in
  let head := [Io.Call Upload.AuthGetUser (inr (Some user));
               Io.Call Upload.DateNow timestamp;
               Io.Call Upload.RandomId randomId;
               Io.Console LogInfo "Uploading to Supabase Storage:";
               Io.Call (Upload.StorageUpload bucket key file options) answer] in
  match answer with
  | inl e => (Thrown e, head, s4)
  | inr (inl error) =>
      (Thrown (Error ("Upload failed: " ++ message_text error)),
       (head ++ [Io.Console LogError "Upload error:"])%list, s4)
  | inr (inr stored) =>
      let '(publicUrl, s5) := h _ (Upload.GetPublicUrl bucket stored) s4 in
      (Returned {| Upload.url := publicUrl;
                   Upload.path := stored;
                   Upload.fileName := file_name file;
                   Upload.fileType := file_type file;
                   Upload.fileSize := file_size file |},
       (head ++ [Io.Call (Upload.GetPublicUrl bucket stored) publicUrl])%list, s5)
  end.
Proof.
  intros Huser. unfold Upload.uploadFile. cbn. rewrite Huser. cbn.
  destruct (h _ Upload.DateNow s1) as [timestamp s2]. cbn.
  destruct (h _ Upload.RandomId s2) as [randomId s3]. cbn.
  destruct (h _ (Upload.StorageUpload _ _ _ _) s3) as [[e | [error | stored]] s4]; cbn;
    try reflexivity.
  destruct (h _ (Upload.GetPublicUrl bucket stored) s4) as [publicUrl s5]. reflexivity.
Qed.

(** X19. Without a signed-in user [uploadFile] throws before it asks
    anything of the storage: no upload and no URL request is made, whether
    the session has no user or the session lookup itself fails. *)
Theorem uploadFile_requires_a_signed_in_user
        (file : File) (bucket : Upload.Bucket) (folder : option string) (s : S) :
  (forall user, fst (h _ Upload.AuthGetUser s) <> inr (Some user)) ->
  let r := Io.run h (Upload.uploadFile file bucket folder) s in
  (exists e, Io.result_of r = Thrown e)
  /\ Io.trace_of r = [Io.Call Upload.AuthGetUser (fst (h _ Upload.AuthGetUser s))]
  /\ (fst (h _ Upload.AuthGetUser s) = inr None ->
      Io.result_of r = Thrown (Error "Must be logged in to upload files")).
Proof.
  intros Hnone r. subst r. unfold Upload.uploadFile. cbn.
  destruct (h _ Upload.AuthGetUser s) as [[e | [user |]] s1]; cbn in *.
  - repeat split; [eexists; reflexivity | discriminate].
  - contradiction (Hnone user). reflexivity.
  - repeat split. eexists; reflexivity.
Qed.

(** X20. For a signed-in user [uploadFile] asks for exactly one upload, into
    the bucket it was given, never overwriting ([upsert] is false), under a
    key that starts with the user's id and a slash and ends with a dot and
    the last dot-segment of the file's name. *)
Theorem uploadFile_stores_under_the_user
        (file : File) (bucket : Upload.Bucket) (folder : option string)
        (user : Upload.User) (s s1 : S) :
  h _ Upload.AuthGetUser s = (inr (Some user), s1) ->
  exists key,
    upload_requests (Io.trace_of (Io.run h (Upload.uploadFile file bucket folder) s))
    = [(bucket, key, {| Upload.cacheControl := "3600"; Upload.upsert := false |})]
    /\ Str.startsWith key (Upload.user_id user ++ "/") = true
    /\ Str.endsWith key ("." ++ Str.split_pop "." (file_name file)) = true.
Proof.
  intros Huser. rewrite (run_uploadFile_signed_in file bucket folder user s s1 Huser).
  destruct (h _ Upload.DateNow s1) as [timestamp s2].
  destruct (h _ Upload.RandomId s2) as [randomId s3].
  cbn zeta.
  set (key := Upload.filePath_of user folder timestamp randomId
                                 (Str.split_pop "." (file_name file))).
  exists key. split; [| split].
  - destruct (h _ (Upload.StorageUpload _ _ _ _) s3) as [[e | [error | stored]] s4];
      try reflexivity.
    destruct (h _ (Upload.GetPublicUrl bucket stored) s4) as [publicUrl s5]. reflexivity.
  - unfold Str.startsWith, key, Upload.filePath_of.
    destruct (Ai.present folder) as [f |];
      rewrite <- append_assoc_string; apply prefix_app.
  - unfold key, Upload.filePath_of.
    destruct (Ai.present folder) as [f |].
    + replace (Upload.user_id user ++ "/" ++ f ++ "/" ++ Str.of_N timestamp ++ "_"
               ++ randomId ++ "." ++ Str.split_pop "." (file_name file))
        with ((Upload.user_id user ++ "/" ++ f ++ "/" ++ Str.of_N timestamp ++ "_" ++ randomId)
              ++ ("." ++ Str.split_pop "." (file_name file)))
        by (rewrite !append_assoc_string; reflexivity).
      apply endsWith_app.
    + replace (Upload.user_id user ++ "/" ++ Str.of_N timestamp ++ "_"
               ++ randomId ++ "." ++ Str.split_pop "." (file_name file))
        with ((Upload.user_id user ++ "/" ++ Str.of_N timestamp ++ "_" ++ randomId)
              ++ ("." ++ Str.split_pop "." (file_name file)))
        by (rewrite !append_assoc_string; reflexivity).
      apply endsWith_app.
Qed.

(** X21. How an upload ends for a signed-in user. If the backend answers
    with an error, [uploadFile] throws [Upload failed: ] and its message and
    asks for no public URL. If the backend stores the file, the result has
    the path the backend reports and the URL issued for that path, and the
    name, type and size of the file as given: [fileName] is the original
    name, not the stored one. *)
Theorem uploadFile_outcome
        (file : File) (bucket : Upload.Bucket) (folder : option string)
        (user : Upload.User) (s s1 s2 s3 s4 : S) (timestamp : N) (randomId : string)
        (answer : exn + (exn + string)) :
  h _ Upload.AuthGetUser s = (inr (Some user), s1) ->
  h _ Upload.DateNow s1 = (timestamp, s2) ->
  h _ Upload.RandomId s2 = (randomId, s3) ->
  h _ (Upload.StorageUpload bucket
         (Upload.filePath_of user folder timestamp randomId (Str.split_pop "." (file_name file)))
         file {| Upload.cacheControl := "3600"; Upload.upsert := false |}) s3
  = (answer, s4) ->
  let r := Io.run h (Upload.uploadFile file bucket folder) s in
  (forall error, answer = inr (inl error) ->
                 Io.result_of r = Thrown (Error ("Upload failed: " ++ message_text error))
                 /\ List.length (filter is_GetPublicUrl (Io.trace_of r)) = 0%nat)
  /\ (forall stored, answer = inr (inr stored) ->
                     Io.result_of r =
                     Returned {| Upload.url := fst (h _ (Upload.GetPublicUrl bucket stored) s4);
                                 Upload.path := stored;
                                 Upload.fileName := file_name file;
                                 Upload.fileType := file_type file;
                                 Upload.fileSize := file_size file |}).
Proof.
  intros Huser Hnow Hrand Hup r. subst r.
  rewrite (run_uploadFile_signed_in file bucket folder user s s1 Huser), Hnow, Hrand.
  cbn zeta. rewrite Hup. split.
  - intros error ->. split; reflexivity.
  - intros stored ->.
    destruct (h _ (Upload.GetPublicUrl bucket stored) s4) as [publicUrl s5]. reflexivity.
Qed.


#[local] Arguments Upload.uploadFile : simpl never.



End Uploads.

(* ===================================================================== *)
(** * Further properties of the meeting component *)
(* ===================================================================== *)

Section EmbeddedMeetingState.
Context {S : Type} (h : handler S).

(** X23. A message that is not a MEETING_ENDED signal changes nothing: the state
    is kept and nothing is shown or called. The test is a strict equality
    on [event.data?.type], so a missing [data], a missing [type], a type
    that is not a string and any other string are all passed over. *)
Theorem handleMessage_ignores_other_messages
        (props : ClassMeeting.Props) (data : option jsval) (st : ClassMeeting.State) (s : S) :
  get_opt data "type" <> Some (JStr "MEETING_ENDED") ->
  run h (ClassMeeting.handleMessage props data st) s = (Returned st, [], s).
Proof.
  intros Hne. unfold ClassMeeting.handleMessage.
  replace (strict_eq_string (get_opt data "type") "MEETING_ENDED") with false;
    [reflexivity |].
  symmetry. unfold strict_eq_string.
  destruct (get_opt data "type") as [[]|]; try reflexivity.
  match goal with |- String.eqb ?t _ = false => destruct (String.eqb_spec t "MEETING_ENDED") as [Heq|] end;
    [subst; contradiction | reflexivity].
Qed.

(** X24. When the backend refuses to end the meeting, [handleEndMeeting] keeps
    the whole state (the meeting stays active and shown), shows the error
    toast and does not call [onClose]; the error is not passed on. *)
Theorem handleEndMeeting_failure_keeps_the_meeting
        (props : ClassMeeting.Props) (st : ClassMeeting.State) (m : Meeting)
        (e : exn) (s s1 : S) :
  ClassMeeting.activeMeeting st = Some m ->
  h _ (EndMeeting (meeting_id m)) s = (inl e, s1) ->
  let r := run h (ClassMeeting.handleEndMeeting props st) s in
  result_of r = Returned st
  /\ trace_of r = [Call (EndMeeting (meeting_id m)) (inl e);
                   Call (Toast ToastError "Failed to end meeting") tt].
Proof.
  intros Hactive Hend r. subst r.
  unfold ClassMeeting.handleEndMeeting. rewrite Hactive. cbn. rewrite Hend. cbn.
  destruct (h _ (Toast ToastError "Failed to end meeting") s1) as [[] s2].
  split; reflexivity.
Qed.

End EmbeddedMeetingState.

Section MeetingRequests.
Context {E : ImportMetaEnv} {S : Type} (h : Io.handler MeetingActions.meetingE S).

#[local] Ltac ask :=
  match goal with
  | |- context [h ?T ?ev ?s] =>
      is_var s;
      let a := fresh "a" in
      let s' := fresh "s" in
      destruct (h T ev s) as [a s'] eqn:?; cbn [fst snd]
  end.

#[local] Ltac answers :=
  repeat match goal with
         | a : unit |- _ => destruct a
         | a : (_ + _)%type |- _ => destruct a
         | a : (_ * _)%type |- _ => destruct a
         | a : option Meeting |- _ => destruct a
         | a : option exn |- _ => destruct a
         end.

(** X25. The poll of the new-tab view mirrors the backend: a meeting reported
    without an error becomes the active meeting, any other answer clears
    the active meeting, and loading ends. If the request itself rejects,
    the error is passed on and the view is left loading with the meeting it
    had. *)
Theorem tab_checkActiveMeeting_mirrors_the_backend
        (props : ClassMeeting.Props) (st : ClassMeeting.State) (s : S) :
  let r := Io.run h (MeetingActions.tab_checkActiveMeeting props) s in
  let st' := MeetingActions.apply_sets (Io.trace_of r) st in
  match fst (h _ (MeetingActions.GetActiveClassMeeting (ClassMeeting.classId props))
               (snd (h _ (MeetingActions.SetIsLoading true) s))) with
  | inl e =>
      Io.result_of r = Thrown e
      /\ ClassMeeting.isLoading st' = true
      /\ ClassMeeting.activeMeeting st' = ClassMeeting.activeMeeting st
  | inr (Some m, None) =>
      Io.result_of r = Returned tt
      /\ ClassMeeting.isLoading st' = false
      /\ ClassMeeting.activeMeeting st' = Some m
  | inr _ =>
      Io.result_of r = Returned tt
      /\ ClassMeeting.isLoading st' = false
      /\ ClassMeeting.activeMeeting st' = None
  end.
Proof.
  unfold MeetingActions.tab_checkActiveMeeting. cbn.
  ask. cbn [snd]. ask. cbn [fst]. answers; cbn; repeat (ask; answers; cbn);
    repeat split; reflexivity.
Qed.

(** X26. The poll of the embedded view never clears the active meeting: a
    meeting reported without an error becomes the active one, and on any
    other answer (no meeting, or an error) the meeting known before is
    kept. It never opens or closes the embedded frame. *)
Theorem checkActiveMeeting_never_clears_the_meeting
        (props : ClassMeeting.Props) (st : ClassMeeting.State) (s : S) :
  let r := Io.run h (MeetingActions.checkActiveMeeting props) s in
  let st' := MeetingActions.apply_sets (Io.trace_of r) st in
  ClassMeeting.showMeeting st' = ClassMeeting.showMeeting st
  /\ match fst (h _ (MeetingActions.GetActiveClassMeeting (ClassMeeting.classId props))
                  (snd (h _ (MeetingActions.SetIsLoading true) s))) with
     | inl e =>
         Io.result_of r = Thrown e
         /\ ClassMeeting.isLoading st' = true
         /\ ClassMeeting.activeMeeting st' = ClassMeeting.activeMeeting st
     | inr (Some m, None) =>
         Io.result_of r = Returned tt
         /\ ClassMeeting.isLoading st' = false
         /\ ClassMeeting.activeMeeting st' = Some m
     | inr _ =>
         Io.result_of r = Returned tt
         /\ ClassMeeting.isLoading st' = false
         /\ ClassMeeting.activeMeeting st' = ClassMeeting.activeMeeting st
     end.
Proof.
  unfold MeetingActions.checkActiveMeeting. cbn.
  ask. cbn [snd]. ask. cbn [fst]. answers; cbn; repeat (ask; answers; cbn);
    repeat split; reflexivity.
Qed.

(** X27. [handleStartMeeting] of the embedded view never throws, whatever the
    backend does, and it always ends with [isStarting] false; without a
    signed-in user it does nothing at all. *)
Theorem handleStartMeeting_always_settles
        (props : ClassMeeting.Props) (user : option MeetingActions.AuthUser)
        (st : ClassMeeting.State) (s : S) :
  let r := Io.run h (MeetingActions.handleStartMeeting props user) s in
  match user with
  | None => r = (Returned tt, [], s)
  | Some _ =>
      Io.result_of r = Returned tt
      /\ ClassMeeting.isStarting (MeetingActions.apply_sets (Io.trace_of r) st) = false
  end.
Proof.
  destruct user as [user|]; [| reflexivity].
  unfold MeetingActions.handleStartMeeting. cbn.
  ask. ask. answers; cbn; repeat (ask; answers; cbn); split; reflexivity.
Qed.

(** The requests after the first two of [handleStartMeeting], from the
    answer to the creation request. *)
Lemma run_handleStartMeeting
      (props : ClassMeeting.Props) (user : MeetingActions.AuthUser) (s : S) :
  let creation := MeetingActions.CreateClassMeeting
                    (ClassMeeting.className props ++ " - Live Class")
                    (MeetingActions.auth_id user) (ClassMeeting.classId props) in
  let s1 := snd (h _ (MeetingActions.SetIsStarting true) s) in
  let answer := fst (h _ creation s1) in
  let failed := Io.Call (MeetingActions.Toast ToastError "Failed to start meeting") tt in
  let done := Io.Call (MeetingActions.SetIsStarting false) tt in
  exists rest,
    Io.trace_of (Io.run h (MeetingActions.handleStartMeeting props (Some user)) s) =
    (Io.Call (MeetingActions.SetIsStarting true) tt :: Io.Call creation answer :: rest)%list
    /\ match answer with
       | inl _ | inr (_, Some _) => rest = [failed; done]
       | inr (None, None) =>
           rest = [Io.Call (MeetingActions.SetActiveMeeting None) tt;
                   Io.Call (MeetingActions.SetShowMeeting true) tt;
                   failed; done]
       | inr (Some m, None) =>
           exists (sent : exn + unit),
           rest = [Io.Call (MeetingActions.SetActiveMeeting (Some m)) tt;
                   Io.Call (MeetingActions.SetShowMeeting true) tt;
                   Io.Call (MeetingActions.NotifyClassAboutMeeting
                              (ClassMeeting.classId props) (meeting_code m)
                              (meeting_title m) (MeetingActions.auth_name user)) sent;
                   match sent with
                   | inl _ => failed
                   | inr _ =>
                       Io.Call (MeetingActions.Toast ToastSuccess
                                  "Meeting started! Students have been notified.") tt
                   end;
                   done]
       end.
Proof.
  unfold MeetingActions.handleStartMeeting. cbn.
  ask. cbn [snd]. ask. cbn [fst]. answers; cbn; repeat (ask; answers; cbn);
    eexists; (split; [reflexivity |]); try reflexivity;
    match goal with
    | H : h _ (MeetingActions.NotifyClassAboutMeeting _ _ _ _) _ = (?sent, _) |- _ =>
        exists sent; reflexivity
    end.
Qed.

(** X28. Once the backend has created a meeting, the embedded view makes it the
    active meeting and opens the frame, whether or not the class can be
    notified: the notification is requested once, with the meeting's code
    and title and the user's name, and when it fails the meeting stays
    active and shown while the toast says "Failed to start meeting". *)
Theorem handleStartMeeting_shows_the_created_meeting
        (props : ClassMeeting.Props) (user : MeetingActions.AuthUser) (m : Meeting)
        (st : ClassMeeting.State) (s : S) :
  fst (h _ (MeetingActions.CreateClassMeeting
              (ClassMeeting.className props ++ " - Live Class")
              (MeetingActions.auth_id user) (ClassMeeting.classId props))
         (snd (h _ (MeetingActions.SetIsStarting true) s))) = inr (Some m, None) ->
  let r := Io.run h (MeetingActions.handleStartMeeting props (Some user)) s in
  let st' := MeetingActions.apply_sets (Io.trace_of r) st in
  ClassMeeting.activeMeeting st' = Some m
  /\ ClassMeeting.showMeeting st' = true
  /\ exists sent : exn + unit,
       filter is_Notify (Io.trace_of r) =
       [Io.Call (MeetingActions.NotifyClassAboutMeeting
                   (ClassMeeting.classId props) (meeting_code m) (meeting_title m)
                   (MeetingActions.auth_name user)) sent]
       /\ toasts (Io.trace_of r) =
          [match sent with
           | inl _ => (ToastError, "Failed to start meeting")
           | inr _ => (ToastSuccess, "Meeting started! Students have been notified.")
           end].
Proof.
  intros Hcreated r st'. subst st' r.
  destruct (run_handleStartMeeting props user s) as [rest [Htrace Hrest]].
  cbv zeta in Htrace, Hrest. rewrite Hcreated in Htrace, Hrest.
  destruct Hrest as [sent Hrest]. rewrite Htrace, Hrest.
  destruct sent as [e | []].
  - split; [reflexivity |]. split; [reflexivity |].
    exists (inl e). split; reflexivity.
  - split; [reflexivity |]. split; [reflexivity |].
    exists (inr tt). split; reflexivity.
Qed.

(** X29. When no meeting comes back from the creation request (it rejects, or
    it reports an error, or it reports neither an error nor a meeting), the
    class is not notified and the one toast is the error toast. The active
    meeting and the frame are left as they were, except when neither an
    error nor a meeting is reported: then the active meeting is cleared
    and the frame is opened on nothing before the error is caught. *)
Theorem handleStartMeeting_without_a_meeting
        (props : ClassMeeting.Props) (user : MeetingActions.AuthUser)
        (st : ClassMeeting.State) (s : S) :
  let answer := fst (h _ (MeetingActions.CreateClassMeeting
                            (ClassMeeting.className props ++ " - Live Class")
                            (MeetingActions.auth_id user) (ClassMeeting.classId props))
                       (snd (h _ (MeetingActions.SetIsStarting true) s))) in
  (forall m : Meeting, answer <> inr (Some m, None)) ->
  let r := Io.run h (MeetingActions.handleStartMeeting props (Some user)) s in
  let st' := MeetingActions.apply_sets (Io.trace_of r) st in
  filter is_Notify (Io.trace_of r) = []
  /\ toasts (Io.trace_of r) = [(ToastError, "Failed to start meeting")]
  /\ match answer with
     | inr (None, None) =>
         ClassMeeting.activeMeeting st' = None /\ ClassMeeting.showMeeting st' = true
     | _ =>
         ClassMeeting.activeMeeting st' = ClassMeeting.activeMeeting st
         /\ ClassMeeting.showMeeting st' = ClassMeeting.showMeeting st
     end.
Proof.
  intros answer Hnone r st'. subst st' r.
  destruct (run_handleStartMeeting props user s) as [rest [Htrace Hrest]].
  cbv zeta in Htrace, Hrest. fold answer in Htrace, Hrest.
  rewrite Htrace. clear Htrace. clearbody answer.
  destruct answer as [e | [[m|] [err|]]];
    try (subst rest; repeat split; reflexivity).
  exfalso. apply (Hnone m). reflexivity.
Qed.


End MeetingRequests.

(* ===================================================================== *)
(** * Concrete runs *)
(* ===================================================================== *)

#[local] Existing Instance reference_builtins.
#[local] Existing Instance World.no_env.

Example num_tostring_ex :
  map Num.ToString
      [Num.Dec 85 0; Num.Dec 855 (-1); Num.Dec (-5) (-7); Num.Dec 1 21;
       Num.Dec 1200 0; Num.Dec 7 (-1); Num.Dec 123456 (-8)]
  = ["85"; "85.5"; "-5e-7"; "1e+21"; "1200"; "0.7"; "0.00123456"].
Proof. vm_compute. reflexivity. Qed.

Example num_tofixed_ex :
  map Num.toFixed1
      [Num.Dec 85 0; Num.Dec 8725 (-2); Num.Dec 5 (-2); Num.Dec (-4) (-2);
       Num.Dec 9996 (-2)]
  = ["85.0"; "87.3"; "0.1"; "-0.0"; "100.0"].
Proof. vm_compute. reflexivity. Qed.

Example num_of_string_ex :
  map Num.StringToNumber [" 85 "; "8.5e1"; ".5"; "5."; "0x1F"; ""; "85%"; "-Infinity"; "."; "1e"]
  = [Num.Dec 85 0; Num.Dec 85 0; Num.Dec 5 (-1); Num.Dec 5 0; Num.Dec 31 0;
     Num.Dec 0 0; Num.NaN; Num.Inf true; Num.NaN; Num.NaN].
Proof. vm_compute. reflexivity. Qed.

Example json_parse_ex1 :
  Json.parse ("{" ++ quoted "grade" ++ ":85," ++ quoted "feedback" ++ ":" ++ quoted "Good" ++ "}")
  = Some (Js.JObj [("grade", Js.JNum (Num.Dec 85 0)); ("feedback", Js.JStr "Good")]).
Proof. vm_compute. reflexivity. Qed.

Example json_parse_ex2 :
  map Json.parse
      [" [1, -2.50e1, true, null, [], {}] "; "01"; "[1,]"; "{} x"; "Great job, 90/100";
       "{" ++ quoted "a" ++ ":1," ++ quoted "b" ++ ":2," ++ quoted "a" ++ ":3}";
       quoted "aA\n"; ""; "-"; "1."; "nul"]
  = [Some (Js.JArr [Js.JNum (Num.Dec 1 0); Js.JNum (Num.Dec (-250) (-1)); Js.JBool true;
                    Js.JNull; Js.JArr []; Js.JObj []]);
     None; None; None; None;
     Some (Js.JObj [("a", Js.JNum (Num.Dec 3 0)); ("b", Js.JNum (Num.Dec 2 0))]);
     Some (Js.JStr ("aA" ++ Str.nl)); None; None; None; None].
Proof. vm_compute. reflexivity. Qed.

Example json_stringify_ex :
  Json.stringify Num.ToString
    (Js.JObj [("a", Js.JArr [Js.JNum (Num.Dec 15 (-1)); Js.JNull; Js.JBool false]);
              ("b", Js.JStr ("x" ++ Str.nl ++ "y"))])
  = "{" ++ quoted "a" ++ ":[1.5,null,false]," ++ quoted "b" ++ ":" ++ quoted "x\ny" ++ "}".
Proof. vm_compute. reflexivity. Qed.

Example generateWithFallback_runs :
  map (fun w => result_of (run (World.handle_with w)
                               (Ai.generateWithFallback (B := reference_builtins)
                                                        (E := World.no_env) "Hello") 0%nat))
      [World.gemini_answers "Hi"; World.groq_answers "Hey"; World.offline; World.quota_down]
  = [Returned (JStr "Hi"); Returned (JStr "Hey"); Thrown World.unavailable;
     Thrown (Error ("Both AI providers failed. Gemini: 429 Too Many Requests: quota exceeded, "
                    ++ "Groq: Groq API error: 503 - upstream overloaded"))].
Proof. vm_compute. reflexivity. Qed.

Lemma gemini_success_witness :
  let r := run (World.handle_with (World.gemini_answers "Hi"))
               (Ai.generateWithFallback (B := reference_builtins) (E := World.no_env) "Hello")
               0%nat in
  result_of r = Returned (JStr "Hi")
  /\ count is_Fetch (trace_of r) = 0%nat
  /\ ~ In groq_started (trace_of r)
  /\ count is_GenerateContent (trace_of r) = 1%nat.
Proof.
  apply (gemini_success_is_returned_unmodified
           (B := reference_builtins) (E := World.no_env)
           (World.handle_with (World.gemini_answers "Hi")) "Hello" 0%nat 1%nat
           (inr {| response_text := inr "Hi" |}) "Hi"); reflexivity.
Defined.

Lemma gemini_failure_witness :
  let r := run (World.handle_with (World.groq_answers "Hey"))
               (Ai.generateWithFallback (B := reference_builtins) (E := World.no_env) "Hello")
               0%nat in
  count is_Fetch (trace_of r) = 1%nat
  /\ count is_groq_started (trace_of r) = 1%nat
  /\ result_of r = Returned (JStr "Hey").
Proof.
  destruct (gemini_failure_invokes_groq_once
              (B := reference_builtins) (E := World.no_env)
              (World.handle_with (World.groq_answers "Hey")) "Hello" 0%nat) as [_ H].
  destruct (H (inl (Error "fetch failed")) 1%nat (Error "fetch failed")
              eq_refl eq_refl) as (HF & HS & Hret).
  split; [exact HF | split; [exact HS |]].
  apply (Hret (JStr "Hey")
              [groq_started;
               Call (Fetch Ai.GROQ_API_URL (Ai.groq_request "Hello"))
                    (inr (World.completion "Hey"))] 2%nat).
  reflexivity.
Defined.

Lemma both_fail_witness :
  (let r := run (World.handle_with World.quota_down)
                (Ai.generateWithFallback (B := reference_builtins) (E := World.no_env) "Hello")
                0%nat in
   exists msg, result_of r = Thrown (Error msg)
               /\ Str.includes msg "429 Too Many Requests: quota exceeded" = true
               /\ Str.includes msg "Groq API error: 503 - upstream overloaded" = true)
  /\ (let r := run (World.handle_with World.offline)
                   (Ai.generateWithFallback (B := reference_builtins) (E := World.no_env)
                                            "Hello") 0%nat in
      result_of r = Thrown World.unavailable).
Proof.
  split.
  - destruct (both_fail_error_surfaced
                (B := reference_builtins) (E := World.no_env)
                (World.handle_with World.quota_down) "Hello" 0%nat 1%nat 2%nat
                (inl (Error "429 Too Many Requests: quota exceeded"))
                (Error "429 Too Many Requests: quota exceeded")
                (Error "Groq API error: 503 - upstream overloaded")
                [groq_started;
                 Call (Fetch Ai.GROQ_API_URL (Ai.groq_request "Hello"))
                      (inr (World.rejection 503 "Service Unavailable" "upstream overloaded"))]
                eq_refl eq_refl eq_refl) as [Hq _].
    destruct (Hq eq_refl) as (mA & msg & HmA & Hres & _ & HA & HBm).
    exists msg. injection HmA as <-. auto.
  - destruct (both_fail_error_surfaced
                (B := reference_builtins) (E := World.no_env)
                (World.handle_with World.offline) "Hello" 0%nat 1%nat 2%nat
                (inl World.unavailable) World.unavailable World.unavailable
                [groq_started;
                 Call (Fetch Ai.GROQ_API_URL (Ai.groq_request "Hello"))
                      (inl World.unavailable)]
                eq_refl eq_refl eq_refl) as [_ Hn].
    exact (Hn eq_refl).
Defined.

(** *** Grading *)

Example gradeSubmission_fenced_json :
  option_map (fun r => (Ai.grade r, Ai.feedback r)) (returned (graded_answer fenced_answer))
  = Some (Num.Dec 85 0, JStr "Good").
Proof. vm_compute. reflexivity. Qed.

Example gradeSubmission_plain_text :
  option_map (fun r => (Ai.grade r, Ai.feedback r))
             (returned (graded_answer "Great job, 90/100"))
  = Some (Num.Dec 0 0, JStr "Great job, 90/100").
Proof. vm_compute. reflexivity. Qed.

Example gradeSubmission_null_answer :
  returned (graded_answer "null") = Some (Ai.text_format (JStr "null")).
Proof. vm_compute. reflexivity. Qed.

(** C4 fails as stated: the answer [{"grade":0,"marks":50}] parses, its first
    present field is grade with value 0, and [gradeSubmission] returns the
    grade 50, the first truthy one. *)
Lemma grade_zero_is_passed_over :
  JSON_parse (Ai.strip_fences (Str.trim zero_grade_answer))
  = Some (JObj [("grade", JNum (Num.Dec 0 0)); ("marks", JNum (Num.Dec 50 0))])
  /\ grade_of_first_present
       (JObj [("grade", JNum (Num.Dec 0 0)); ("marks", JNum (Num.Dec 50 0))])
     = inr (Num.Dec 0 0)
  /\ option_map Ai.grade (returned (graded_answer zero_grade_answer)) = Some (Num.Dec 50 0)
  /\ option_map (fun r => inr (Ai.grade r)) (returned (graded_answer zero_grade_answer))
     <> Some (grade_of_first_present
                (JObj [("grade", JNum (Num.Dec 0 0)); ("marks", JNum (Num.Dec 50 0))])).
Proof.
  split; [vm_compute; reflexivity |].
  split; [vm_compute; reflexivity |].
  split; [vm_compute; reflexivity |].
  vm_compute. discriminate.
Qed.

Lemma gradeSubmission_witness :
  graded_answer fenced_answer
  = Returned (graded_with (Num.Dec 85 0)
                          (JObj [("grade", JNum (Num.Dec 85 0)); ("feedback", JStr "Good")]))
  /\ graded_answer "Great job, 90/100"
     = Returned (Ai.text_format (JStr "Great job, 90/100"))
  /\ graded_answer unconvertible_answer
     = Returned (Ai.text_format (JStr unconvertible_answer)).
Proof.
  split; [| split].
  - pose proof (gradeSubmission_result_of_answer
                  (World.handle_with (World.gemini_answers fenced_answer))
                  "auto" (Some "2 + 2 = 4") None None None 0%nat 1%nat
                  (trace_of (run (World.handle_with (World.gemini_answers fenced_answer))
                                 (Ai.generateWithFallback
                                    (Ai.grading_prompt (Some "2 + 2 = 4") None None None))
                                 0%nat))
                  fenced_answer eq_refl) as (_ & _ & Hsome & _).
    destruct (Hsome (JObj [("grade", JNum (Num.Dec 85 0)); ("feedback", JStr "Good")]))
      as (Hnumber & _).
    + vm_compute. reflexivity.
    + discriminate.
    + apply (Hnumber (Num.Dec 85 0)). reflexivity.
  - pose proof (gradeSubmission_result_of_answer
                  (World.handle_with (World.gemini_answers "Great job, 90/100"))
                  "auto" (Some "2 + 2 = 4") None None None 0%nat 1%nat
                  (trace_of (run (World.handle_with (World.gemini_answers "Great job, 90/100"))
                                 (Ai.generateWithFallback
                                    (Ai.grading_prompt (Some "2 + 2 = 4") None None None))
                                 0%nat))
                  "Great job, 90/100" eq_refl) as (Hnone & _).
    apply Hnone. vm_compute. reflexivity.
  - pose proof (gradeSubmission_result_of_answer
                  (World.handle_with (World.gemini_answers unconvertible_answer))
                  "auto" (Some "2 + 2 = 4") None None None 0%nat 1%nat
                  (trace_of (run (World.handle_with (World.gemini_answers unconvertible_answer))
                                 (Ai.generateWithFallback
                                    (Ai.grading_prompt (Some "2 + 2 = 4") None None None))
                                 0%nat))
                  unconvertible_answer eq_refl) as (_ & _ & Hsome & _).
    destruct (Hsome (JObj [("grade", JObj [("toString", JNum (Num.Dec 1 0))]);
                           ("feedback", JStr "ok")]))
      as (_ & Hthrows & _).
    + vm_compute. reflexivity.
    + discriminate.
    + apply (Hthrows Conv.not_primitive). reflexivity.
Defined.

(** *** OCR *)

Lemma extractText_witness :
  run (World.handle_with World.offline) (Ai.extractText notes_txt) 0%nat
  = (Thrown (Error ("Unsupported file type: text/plain"
                    ++ ". Please use JPEG, PNG, GIF, WebP images or PDF documents.")),
     [Console LogInfo "Calling extractText for file:"], 0%nat)
  /\ Ai.extractText homework_pdf
     = Log LogInfo "Calling extractText for file:" (Ai.extractTextFromPDF homework_pdf)
  /\ Ai.extractText photo_png
     = Log LogInfo "Calling extractText for file:" (Ai.extractTextFromImage photo_png).
Proof.
  split; [| split].
  - apply (proj1 (extractText_routes_by_declared_type notes_txt)).
    + cbn. intros H. repeat (destruct H as [H | H]; [discriminate H |]). exact H.
    + discriminate.
  - apply (proj1 (proj2 (extractText_routes_by_declared_type homework_pdf))). reflexivity.
  - apply (proj2 (proj2 (extractText_routes_by_declared_type photo_png))).
    cbn. right. right. left. reflexivity.
Defined.

Lemma extractTextFromImage_witness :
  run (World.handle_with (World.scanned three_pages)) (Ai.extractTextFromImage poster_png) 0%nat
  = (Thrown (Error "File size too large. Please use files smaller than 10MB."),
     [Console LogInfo "Processing image with Tesseract.js:"], 0%nat)
  /\ count is_Recognize
           (trace_of (run (World.handle_with (World.scanned three_pages))
                          (Ai.extractTextFromImage photo_png) 0%nat)) = 1%nat.
Proof.
  split.
  - apply (proj1 (extractTextFromImage_size_gate
                    (World.handle_with (World.scanned three_pages)) poster_png 0%nat)).
    cbn. lia.
  - destruct (proj2 (extractTextFromImage_size_gate
                       (World.handle_with (World.scanned three_pages)) photo_png 0%nat))
      as (_ & _ & _ & Hloaded).
    + cbn. lia.
    + apply (Hloaded 1%nat). reflexivity.
Defined.

Example extractTextFromImage_runs :
  option_map (fun r => (Ai.extracted_text r, Ai.message r, Ai.confidence_of r))
             (returned (result_of (run (World.handle_with (World.scanned three_pages))
                                       (Ai.extractTextFromImage photo_png) 0%nat)))
  = Some ("Hello",
          "Text extracted successfully using Tesseract.js (confidence: 87.3%)",
          Some (Num.Dec 8725 (-2))).
Proof. vm_compute. reflexivity. Qed.

(** When the OCR library does not load, recognition is not reached. *)
Example extractTextFromImage_without_library :
  let r := run (World.handle_with World.no_ocr_library)
               (Ai.extractTextFromImage photo_png) 0%nat in
  count is_Recognize (trace_of r) = 0%nat
  /\ count is_Import (trace_of r) = 1%nat
  /\ result_of r
     = Thrown (Error ("Failed to extract text from the image: "
                      ++ "Failed to fetch dynamically imported module"
                      ++ ". Please try with a different image.")).
Proof. vm_compute. repeat split. Qed.


Example extractTextFromPDF_blank_document :
  result_of (run (World.handle_with (World.scanned ["  "; Str.nl]))
                 (Ai.extractTextFromPDF homework_pdf) 0%nat)
  = Thrown (Error ("Failed to extract text from PDF: "
                   ++ "No text was extracted from the PDF. "
                   ++ "Please ensure the document contains readable text.")).
Proof. vm_compute. reflexivity. Qed.

(** *** Submission files *)

Lemma validateSubmissionFile_size_witness :
  Storage.validateSubmissionFile poster_png
  = {| Storage.valid := false; Storage.error := Some "File size exceeds 10MB limit" |}
  /\ Storage.validateSubmissionFile (mkFile "scan.pdf" "application/pdf" (11 * 1024 * 1024))
     = {| Storage.valid := false; Storage.error := Some "File size exceeds 10MB limit" |}.
Proof.
  destruct validateSubmissionFile_size_limit as (Hbig & Htyped & _). split.
  - apply Hbig. cbn. lia.
  - apply Htyped. cbn. left. reflexivity.
Defined.

Lemma validateSubmissionFile_extension_witness :
  Storage.validateSubmissionFile (mkFile "Essay.final.PDF" "" 2048)
  = {| Storage.valid := true; Storage.error := None |}.
Proof.
  apply (validateSubmissionFile_accepts_by_extension
           (mkFile "Essay.final.PDF" "" 2048) "Essay.final" "PDF").
  - cbn. lia.
  - reflexivity.
  - cbn. intros H. repeat (destruct H as [H | H]; [discriminate H |]). exact H.
  - cbn. left. reflexivity.
Defined.

Example validateSubmissionFile_runs :
  map (fun f => Storage.valid (Storage.validateSubmissionFile f))
      [mkFile "a.png" "image/png" (9 * 1024 * 1024);
       mkFile "a.png" "image/png" (11 * 1024 * 1024);
       mkFile "notes.txt" "text/plain" 10;
       mkFile "pdf" "application/octet-stream" 10;
       mkFile "archive.zip" "image/webp" 10;
       mkFile "trailing." "" 10]
  = [true; false; false; true; true; false].
Proof. vm_compute. reflexivity. Qed.

(** *** Meeting *)

Lemma meeting_ended_witness :
  let r := run (World.handle_with World.in_class)
               (ClassMeeting.handleMessage teacher_view meeting_ended in_meeting) 0%nat in
  exists st',
    result_of r = Returned st'
    /\ ClassMeeting.render st' = ClassMeeting.NoMeeting
    /\ result_of (run (World.handle_with World.in_class)
                      (ClassMeeting.handleEndMeeting teacher_view in_meeting) 0%nat)
       = Returned st'.
Proof.
  destruct (meeting_ended_signal_ends_local_view
              (World.handle_with World.in_class) teacher_view meeting_ended in_meeting
              World.live_class 0%nat eq_refl eq_refl)
    as (st' & Hres & _ & _ & Hview & _ & Hend).
  exists st'. split; [exact Hres | split].
  - apply Hview. reflexivity.
  - apply (Hend 1%nat). reflexivity.
Defined.

Example meeting_runs :
  ClassMeeting.render in_meeting = ClassMeeting.EmbeddedMeeting World.live_class
  /\ run (World.handle_with World.in_class)
         (ClassMeeting.handleMessage teacher_view meeting_ended in_meeting) 0%nat
     = (Returned (ClassMeeting.mkState None false false false),
        [Call (Toast ToastSuccess "Meeting ended") tt; Call OnClose tt], 2%nat)
  /\ run (World.handle_with World.in_class)
         (ClassMeeting.handleMessage teacher_view (Some (JStr "MEETING_ENDED")) in_meeting) 0%nat
     = (Returned in_meeting, [], 0%nat)
  /\ run (World.handle_with World.offline)
         (ClassMeeting.handleEndMeeting teacher_view in_meeting) 0%nat
     = (Returned in_meeting,
        [Call (EndMeeting "m-1") (inl World.unavailable);
         Call (Toast ToastError "Failed to end meeting") tt], 2%nat).
Proof. vm_compute. repeat split. Qed.

(** *** Further runs: the providers *)

Lemma callGroqAPI_throws_on_failed_response_witness :
  result_of (run (World.handle_with World.quota_down) (Ai.callGroqAPI "Hello") 0%nat)
  = Thrown (Error "Groq API error: 503 - upstream overloaded").
Proof.
  destruct (callGroqAPI_throws_on_failed_response
              (World.handle_with World.quota_down) "Hello" 0%nat 1%nat
              (World.rejection 503 "Service Unavailable" "upstream overloaded")
              eq_refl eq_refl) as (_ & _ & Hdetail).
  apply (Hdetail [("error", JObj [("message", JStr "upstream overloaded")])]
                 [("message", JStr "upstream overloaded")] "upstream overloaded");
    try reflexivity.
  discriminate.
Defined.

Lemma callGroqAPI_returns_content_or_empty_string_witness :
  truthy (JStr "") = true \/ JStr "" = JStr "".
Proof.
  apply (callGroqAPI_returns_content_or_empty_string
           (World.handle_with (groq_gives JNull)) "Hello" 0%nat (JStr "")).
  vm_compute. reflexivity.
Defined.

Lemma gradeSubmission_throws_only_with_providers_witness :
  result_of (run (World.handle_with World.offline)
                 (Ai.gradeSubmission "auto" (Some "2 + 2 = 4") None None None) 0%nat)
  = Thrown (Error "Failed to grade submission: service unavailable").
Proof.
  apply (proj1 (gradeSubmission_throws_only_with_providers
                  (World.handle_with World.offline)
                  "auto" (Some "2 + 2 = 4") None None None 0%nat) World.unavailable).
  vm_compute. reflexivity.
Defined.

Lemma gradeSubmission_result_is_consistent_witness :
  exists g,
    graded_answer fenced_answer = Returned g
    /\ Ai.graded g = true
    /\ Ai.final_marks g = Ai.grade g
    /\ Ai.review g = Ai.feedback g
    /\ (Ai.strengths g = None <-> Ai.improvements g = None).
Proof.
  eexists. split; [vm_compute; reflexivity |].
  apply (gradeSubmission_result_is_consistent
           (World.handle_with (World.gemini_answers fenced_answer))
           "auto" (Some "2 + 2 = 4") None None None 0%nat).
  vm_compute. reflexivity.
Defined.

Lemma gradeSubmission_does_not_clamp_the_grade_witness :
  exists g,
    graded_answer out_of_range_answer = Returned g
    /\ Ai.grade g = Num.Dec (-250) 0 /\ Ai.final_marks g = Num.Dec (-250) 0.
Proof.
  apply (gradeSubmission_does_not_clamp_the_grade
           (World.handle_with (World.gemini_answers out_of_range_answer))
           "auto" (Some "2 + 2 = 4") None None None 0%nat 1%nat
           (trace_of (run (World.handle_with (World.gemini_answers out_of_range_answer))
                          (Ai.generateWithFallback
                             (Ai.grading_prompt (Some "2 + 2 = 4") None None None))
                          0%nat))
           out_of_range_answer [("grade", JNum (Num.Dec (-250) 0))] (Num.Dec (-250) 0));
    vm_compute; reflexivity.
Defined.

Lemma gradeSubmission_keeps_a_non_string_answer_witness :
  result_of (run (World.handle_with (groq_gives (JNum (Num.Dec 85 0))))
                 (Ai.gradeSubmission "auto" (Some "2 + 2 = 4") None None None) 0%nat)
  = Returned (Ai.text_format (JNum (Num.Dec 85 0))).
Proof.
  apply (gradeSubmission_keeps_a_non_string_answer
           (World.handle_with (groq_gives (JNum (Num.Dec 85 0))))
           "auto" (Some "2 + 2 = 4") None None None 0%nat 2%nat
           (trace_of (run (World.handle_with (groq_gives (JNum (Num.Dec 85 0))))
                          (Ai.generateWithFallback
                             (Ai.grading_prompt (Some "2 + 2 = 4") None None None))
                          0%nat))).
  - vm_compute. reflexivity.
  - discriminate.
Defined.

(** *** Further runs: OCR *)

Lemma extractTextFromPDF_error_shapes_witness :
  Error ("Failed to extract text from PDF: "
         ++ "No text was extracted from the PDF. "
         ++ "Please ensure the document contains readable text.")
  = Error "Invalid or corrupted PDF file. Please try a different document."
  \/ exists cause,
      Error ("Failed to extract text from PDF: "
             ++ "No text was extracted from the PDF. "
             ++ "Please ensure the document contains readable text.")
      = Error ("Failed to extract text from PDF: " ++ cause).
Proof.
  apply (extractTextFromPDF_error_shapes
           (World.handle_with (World.scanned ["  "; Str.nl])) homework_pdf 0%nat).
  vm_compute. reflexivity.
Defined.

Lemma extractTextFromPDF_result_has_text_witness :
  exists r,
    result_of (run (World.handle_with (World.scanned three_pages))
                   (Ai.extractTextFromPDF homework_pdf) 0%nat) = Returned r
    /\ Ai.success r = true
    /\ Ai.extracted_text r <> EmptyString
    /\ Str.trim (Ai.extracted_text r) = Ai.extracted_text r
    /\ Ai.file_info r = homework_pdf
    /\ Ai.confidence_of r = None.
Proof.
  eexists. split; [vm_compute; reflexivity |].
  apply (extractTextFromPDF_result_has_text
           (World.handle_with (World.scanned three_pages)) homework_pdf 0%nat).
  vm_compute. reflexivity.
Defined.

Lemma extractText_has_no_size_limit_for_pdf_witness :
  result_of (run (World.handle_with (World.scanned three_pages))
                 (Ai.extractText (mkFile "thesis.pdf" "application/pdf" (64 * 1024 * 1024)))
                 0%nat)
  <> Thrown (Error "File size too large. Please use files smaller than 10MB.").
Proof.
  apply (extractText_has_no_size_limit_for_pdf
           (World.handle_with (World.scanned three_pages))
           (mkFile "thesis.pdf" "application/pdf" (64 * 1024 * 1024)) 0%nat).
  reflexivity.
Defined.

Lemma extractTextFromImage_blank_text_error_witness :
  result_of (run (World.handle_with (World.scanned ["   "]))
                 (Ai.extractTextFromImage photo_png) 0%nat)
  = Thrown (Error ("No text was extracted from the image. "
                   ++ "Please ensure the image contains readable text.")).
Proof.
  apply (extractTextFromImage_blank_text_error
           (World.handle_with (World.scanned ["   "])) photo_png 0%nat 1%nat 2%nat
           {| text := "   "; confidence := Num.Dec 8725 (-2) |}).
  - cbn. lia.
  - reflexivity.
  - reflexivity.
  - vm_compute. reflexivity.
Defined.

Lemma extractTextFromImage_returns_at_any_confidence_witness :
  let r := run (World.handle_with (World.scanned three_pages))
               (Ai.extractTextFromImage photo_png) 0%nat in
  (exists x, result_of r = Returned x
             /\ Ai.extracted_text x = "Hello"
             /\ Ai.confidence_of x = Some (Num.Dec 8725 (-2)))
  /\ ~ In (Console LogWarn "Low OCR confidence detected:") (trace_of r).
Proof.
  destruct (extractTextFromImage_returns_at_any_confidence
              (World.handle_with (World.scanned three_pages)) photo_png 0%nat 1%nat 2%nat
              {| text := "  Hello  "; confidence := Num.Dec 8725 (-2) |})
    as [Hresult Hwarn].
  - cbn. lia.
  - reflexivity.
  - reflexivity.
  - vm_compute. discriminate.
  - split; [exact Hresult |].
    intros Hin. apply Hwarn in Hin. vm_compute in Hin. discriminate Hin.
Defined.

Lemma extractTextFromImage_result_has_text_and_confidence_witness :
  exists x,
    result_of (run (World.handle_with (World.scanned three_pages))
                   (Ai.extractTextFromImage photo_png) 0%nat) = Returned x
    /\ file_size photo_png <= 10 * 1024 * 1024
    /\ Ai.extracted_text x <> EmptyString
    /\ (exists c, Ai.confidence_of x = Some c).
Proof.
  eexists. split; [vm_compute; reflexivity |].
  destruct (extractTextFromImage_result_has_text_and_confidence
              (World.handle_with (World.scanned three_pages)) photo_png 0%nat _ eq_refl)
    as (Hsize & _ & Htext & _ & Hconf & _).
  split; [exact Hsize | split; [exact Htext | exact Hconf]].
Defined.

(** *** Further runs: storage *)

Lemma validateMaterialFile_valid_iff_witness :
  Storage.valid (Upload.validateMaterialFile (mkFile "slides." "application/pdf" 2048)) = false.
Proof.
  apply (proj2 (proj2 (validateMaterialFile_valid_iff
                         (mkFile "slides." "application/pdf" 2048))) "slides").
  reflexivity.
Defined.

Lemma uploadFile_requires_a_signed_in_user_witness :
  Io.run (storage_handler signed_out_world)
         (Upload.uploadFile homework_pdf Upload.submissions (Some "a-1")) 0%nat
  = (Thrown (Error "Must be logged in to upload files"),
     [Io.Call Upload.AuthGetUser (inr None)], 1%nat).
Proof.
  destruct (uploadFile_requires_a_signed_in_user
              (storage_handler signed_out_world)
              homework_pdf Upload.submissions (Some "a-1") 0%nat)
    as (_ & Htrace & Hresult).
  - intros user. cbn. discriminate.
  - specialize (Hresult eq_refl).
    destruct (Io.run (storage_handler signed_out_world)
                     (Upload.uploadFile homework_pdf Upload.submissions (Some "a-1")) 0%nat)
      as [[o tr] n] eqn:Hrun.
    unfold Io.result_of, Io.trace_of in Hresult, Htrace. cbn [fst snd] in Hresult, Htrace.
    rewrite Hresult, Htrace.
    replace n with 1%nat; [reflexivity |].
    vm_compute in Hrun. injection Hrun as _ _ <-. reflexivity.
Defined.

Lemma uploadFile_stores_under_the_user_witness :
  exists key,
    upload_requests
      (Io.trace_of (Io.run (storage_handler bucket_world)
                           (Upload.uploadFile homework_pdf Upload.submissions (Some "a-1"))
                           0%nat))
    = [(Upload.submissions, key, {| Upload.cacheControl := "3600"; Upload.upsert := false |})]
    /\ Str.startsWith key "u-42/" = true
    /\ Str.endsWith key ".pdf" = true.
Proof.
  apply (uploadFile_stores_under_the_user
           (storage_handler bucket_world) homework_pdf Upload.submissions (Some "a-1")
           {| Upload.user_id := "u-42" |} 0%nat 1%nat).
  reflexivity.
Defined.

Lemma uploadFile_outcome_witness :
  Io.result_of (Io.run (storage_handler bucket_world)
                       (Upload.uploadFile homework_pdf Upload.submissions (Some "a-1")) 0%nat)
  = Returned {| Upload.url := "https://storage.example/u-42/a-1/1700000000000_k3x9qz.pdf";
                Upload.path := "u-42/a-1/1700000000000_k3x9qz.pdf";
                Upload.fileName := "homework.pdf";
                Upload.fileType := "application/pdf";
                Upload.fileSize := 48000 |}.
Proof.
  apply (proj2 (uploadFile_outcome
                  (storage_handler bucket_world) homework_pdf Upload.submissions (Some "a-1")
                  {| Upload.user_id := "u-42" |} 0%nat 1%nat 2%nat 3%nat 4%nat
                  1700000000000%N "k3x9qz"
                  (inr (inr "u-42/a-1/1700000000000_k3x9qz.pdf"))
                  eq_refl eq_refl eq_refl ltac:(vm_compute; reflexivity))
               "u-42/a-1/1700000000000_k3x9qz.pdf" eq_refl).
Defined.

Example uploadMaterials_runs :
  let r := Io.run (storage_handler bucket_world)
                  (Upload.uploadMaterials
                     [homework_pdf; mkFile "broken.pdf" "application/pdf" 10; photo_png]
                     "class-7" false) 0%nat in
  option_map (fun x => (map Upload.fileName (fst x), snd x)) (returned (Io.result_of r))
  = Some (["homework.pdf"; "photo.png"], ["broken.pdf: Upload failed: Payload too large"]).
Proof. vm_compute. reflexivity. Qed.

(** *** Further runs: meetings *)

Lemma handleMessage_ignores_other_messages_witness :
  run (World.handle_with World.in_class)
      (ClassMeeting.handleMessage teacher_view (Some (JObj [("type", JStr "meeting_ended")]))
                                  in_meeting) 0%nat
  = (Returned in_meeting, [], 0%nat).
Proof.
  apply (handleMessage_ignores_other_messages (World.handle_with World.in_class)).
  cbn. discriminate.
Defined.

Lemma handleEndMeeting_failure_keeps_the_meeting_witness :
  let r := run (World.handle_with World.offline)
               (ClassMeeting.handleEndMeeting teacher_view in_meeting) 0%nat in
  result_of r = Returned in_meeting
  /\ trace_of r = [Call (EndMeeting "m-1") (inl World.unavailable);
                   Call (Toast ToastError "Failed to end meeting") tt].
Proof.
  apply (handleEndMeeting_failure_keeps_the_meeting
           (World.handle_with World.offline) teacher_view in_meeting World.live_class
           World.unavailable 0%nat 1%nat); reflexivity.
Defined.

Lemma handleStartMeeting_shows_the_created_meeting_witness :
  let r := Io.run (meeting_handler notify_down)
                  (MeetingActions.handleStartMeeting teacher_view (Some teacher)) 0%nat in
  let st' := MeetingActions.apply_sets (Io.trace_of r) idle in
  ClassMeeting.activeMeeting st' = Some World.live_class
  /\ ClassMeeting.showMeeting st' = true
  /\ exists sent : exn + unit,
       filter is_Notify (Io.trace_of r) =
       [Io.Call (MeetingActions.NotifyClassAboutMeeting
                   "class-7" "abc-defg" "Physics 101 - Live Class" "Ms. Noor") sent]
       /\ toasts (Io.trace_of r) =
          [match sent with
           | inl _ => (ToastError, "Failed to start meeting")
           | inr _ => (ToastSuccess, "Meeting started! Students have been notified.")
           end].
Proof.
  apply (handleStartMeeting_shows_the_created_meeting
           (meeting_handler notify_down) teacher_view teacher World.live_class idle 0%nat).
  reflexivity.
Defined.

Lemma handleStartMeeting_without_a_meeting_witness :
  let r := Io.run (meeting_handler create_refused)
                  (MeetingActions.handleStartMeeting teacher_view (Some teacher)) 0%nat in
  filter is_Notify (Io.trace_of r) = []
  /\ toasts (Io.trace_of r) = [(ToastError, "Failed to start meeting")]
  /\ MeetingActions.apply_sets (Io.trace_of r) in_meeting = in_meeting.
Proof.
  destruct (handleStartMeeting_without_a_meeting
              (meeting_handler create_refused) teacher_view teacher in_meeting 0%nat)
    as (Hnotify & Htoasts & _).
  - intros m. cbn. discriminate.
  - split; [exact Hnotify | split; [exact Htoasts |]]. vm_compute. reflexivity.
Defined.

Example meeting_polls :
  let tab := Io.run (meeting_handler notify_down)
                    (MeetingActions.tab_checkActiveMeeting teacher_view) 0%nat in
  let embedded := Io.run (meeting_handler notify_down)
                         (MeetingActions.checkActiveMeeting teacher_view) 0%nat in
  ClassMeeting.activeMeeting (MeetingActions.apply_sets (Io.trace_of tab) in_meeting) = None
  /\ ClassMeeting.activeMeeting (MeetingActions.apply_sets (Io.trace_of embedded) in_meeting)
     = Some World.live_class.
Proof. vm_compute. split; reflexivity. Qed.

(** *** Further runs: health, pages, validation *)

Lemma checkHealth_healthy_iff_a_provider_answers_witness :
  exists r : AiApi.Health,
    result_of (run (World.handle_with (groq_gives JNull)) AiApi.checkHealth 0%nat) = Returned r
    /\ AiApi.status_of r = "healthy".
Proof.
  destruct (checkHealth_healthy_iff_a_provider_answers
              (World.handle_with (groq_gives JNull)) 0%nat) as (r & Hres & _ & Hhealthy).
  exists r. split; [exact Hres |].
  apply Hhealthy. cbn. right. exists (JStr ""). vm_compute. reflexivity.
Defined.

Lemma extractTextFromPDF_pages_in_order_witness :
  (exists k : nat,
      pages_requested (trace_of (run (World.handle_with (World.scanned three_pages))
                                     (Ai.extractTextFromPDF homework_pdf) 0%nat)) = seq 1 k
      /\ k = 3%nat)
  /\ (let tr := trace_of (run (World.handle_with second_page_torn)
                              (Ai.extractTextFromPDF homework_pdf) 0%nat) in
      nth_error tr 12 = Some (Call (RenderPage 2%N (Num.Dec 20 (-1)))
                                   (inl (Error "Rendering cancelled")))
      /\ forallb is_Console (skipn 13 tr) = true
      /\ pages_requested (skipn 13 tr) = []
      /\ count is_Recognize (skipn 13 tr) = 0%nat).
Proof.
  split.
  - destruct (extractTextFromPDF_pages_in_order
                (World.handle_with (World.scanned three_pages)) homework_pdf 0%nat)
      as (k & Hpages & _ & _ & _ & _ & Hall).
    exists k. split; [exact Hpages |].
    apply (Hall eq_refl {| numPages := 3; pdf_handle := 1%N |}).
    vm_compute. left. reflexivity.
  - destruct (extractTextFromPDF_pages_in_order
                (World.handle_with second_page_torn) homework_pdf 0%nat)
      as (k & _ & _ & _ & _ & Hstop & _).
    split; [reflexivity |].
    apply (Hstop (firstn 12 (trace_of (run (World.handle_with second_page_torn)
                                           (Ai.extractTextFromPDF homework_pdf) 0%nat)))
                 (Call (RenderPage 2%N (Num.Dec 20 (-1)))
                       (inl (Error "Rendering cancelled")))).
    + reflexivity.
    + reflexivity.
Defined.

Lemma validateSubmissionFile_valid_iff_witness :
  Storage.valid (Storage.validateSubmissionFile (mkFile "Essay.final.PDF" "" 2048)) = true
  /\ Storage.error (Storage.validateSubmissionFile (mkFile "Essay.final.PDF" "" 2048)) = None.
Proof.
  destruct (validateSubmissionFile_valid_iff (mkFile "Essay.final.PDF" "" 2048))
    as [Hvalid Herror].
  assert (Hv : Storage.valid (Storage.validateSubmissionFile
                                (mkFile "Essay.final.PDF" "" 2048)) = true).
  { apply Hvalid. split; [cbn; lia |]. right. vm_compute. left. reflexivity. }
  split; [exact Hv | apply Herror; exact Hv].
Defined.
